(** * Rising-stock collector: a shallow embedding and its properties

    The development follows [naver_finance_reader.py]
    (class [NaverStockCollectorFinal]) and the numeric parser and code
    extraction of [naver_search_top_stocks.py].

    Conventions.
    - A Python [str] is a list of Unicode code points, so that [len] and
      slicing count characters and not bytes.
    - A pandas row is a finite map from column names to cell values; a table
      is the list of its rows in index order.
    - The provider is an oracle: every HTTP call either fails or delivers a
      decoded payload.  [try]/[except] is modelled with an explicit result
      type, so that an exception leaving a function is visible.
    - The payloads are typed: a provider item is a JSON object whose fields
      are texts, and the fields that the code reads with [.get(key, '')] may
      be absent.  A field sent as null or as a number is outside the model;
      of these only the titles are used outside a [try] (the slices at lines
      391, 403 and 415), so a statement that stage 3 returns is one about
      titles that are texts.  A limit such as [max_news] is a natural
      number.
    - pandas is taken with the semantics of its object columns: a key
      missing from a record is NaN in its row, [Series.map] with a dict gives
      NaN for a value that is not a key, and [astype(str)] gives the [str()]
      of each cell.  This is what pandas does to a text; the form of a
      number in a column that has a missing value, and of a missing code
      after [astype(str)], depends on the dtype of the column and on the
      version, and the properties of single cells are stated for texts.
    - The worksheet is the one that [load_workbook] returns; setting the
      hyperlink of a cell raises [TypeError] for a target that is no text and
      writes the target into a cell that holds no value.
    - Functions of the Python runtime whose exact tables depend on the
      installed version (Unicode classes, [fromisoformat], [strftime],
      [pd.to_numeric]) are the fields of the class [Runtime]; every theorem
      holds for each instance, and [reference_runtime] is used to evaluate
      concrete runs. *)

From stdpp Require Import gmap list strings.
From Stdlib Require Import ZArith Ascii Lia.
From Stdlib Require DecimalString.

Local Open Scope Z_scope.

(* ===================================================================== *)
(** ** Python strings *)
(* ===================================================================== *)

Abbreviation pystr := (list N).

(** Decoding of a UTF-8 literal of this file into code points. *)
Fixpoint utf8 (bs : list N) : pystr :=
  match bs with
  | [] => []
  | b :: r =>
    if (b <? 128)%N then b :: utf8 r
    else if (b <? 224)%N then
      match r with
      | c :: r' => ((b - 192) * 64 + (c - 128))%N :: utf8 r'
      | _ => []
      end
    else if (b <? 240)%N then
      match r with
      | c :: d :: r' =>
          ((b - 224) * 4096 + (c - 128) * 64 + (d - 128))%N :: utf8 r'
      | _ => []
      end
    else
      match r with
      | c :: d :: e :: r' =>
          ((b - 240) * 262144 + (c - 128) * 4096 + (d - 128) * 64 + (e - 128))%N
            :: utf8 r'
      | _ => []
      end
  end.

Definition py (s : string) : pystr :=
  utf8 (map N_of_ascii (String.list_ascii_of_string s)).

(** [chr c] for a one-character literal. *)
Definition ch (s : string) : N :=
  match py s with c :: _ => c | [] => 0%N end.

(** [str(n)] for a natural number, as used by the f-strings. *)
Definition str_nat (n : nat) : pystr :=
  py (DecimalString.NilZero.string_of_uint (Nat.to_uint n)).

(** [s.replace(old, new)] for a one-character [old]. *)
Definition replace_char (old : N) (new : pystr) (s : pystr) : pystr :=
  flat_map (fun c => if (c =? old)%N then new else [c]) s.

Fixpoint starts_with (p s : pystr) : bool :=
  match p, s with
  | [], _ => true
  | a :: p', b :: s' => (a =? b)%N && starts_with p' s'
  | _ :: _, [] => false
  end.

(** [sub in s]. *)
Fixpoint contains (sub s : pystr) : bool :=
  starts_with sub s ||
  match s with
  | [] => false
  | _ :: s' => contains sub s'
  end.

(** [s.split(sep)] for a non-empty [sep]: [cur] is the piece being read (in
    reverse), [skip] the number of characters of a separator still to pass. *)
Fixpoint split_go (sep : pystr) (cur : pystr) (skip : nat) (s : pystr)
  : list pystr :=
  match s with
  | [] => [rev cur]
  | c :: s' =>
    match skip with
    | S k => split_go sep cur k s'
    | O =>
      if starts_with sep s
      then rev cur :: split_go sep [] (Nat.pred (length sep)) s'
      else split_go sep (c :: cur) O s'
    end
  end.

Definition py_split (sep s : pystr) : list pystr := split_go sep [] O s.

(** [sep.join(parts)]. *)
Fixpoint join (sep : pystr) (parts : list pystr) : pystr :=
  match parts with
  | [] => []
  | [p] => p
  | p :: rest => p ++ sep ++ join sep rest
  end.

Definition pystr_eqb (a b : pystr) : bool := bool_decide (a = b).

(* ===================================================================== *)
(** ** Cell values and exceptions *)
(* ===================================================================== *)

(** What a JSON scalar, a DataFrame cell or a worksheet cell can hold.  A
    number is described by what the code observes of it: its [str()] text and
    whether it is non-zero. *)
Inductive value :=
| VNone
| VNaN
| VStr (s : pystr)
| VNum (repr : pystr) (nonzero : bool).

Global Instance value_eq_dec : EqDecision value.
Proof. solve_decision. Defined.

(** [bool(v)]. *)
Definition truthy (v : value) : bool :=
  match v with
  | VNone => false
  | VNaN => true
  | VStr s => negb (pystr_eqb s [])
  | VNum _ nz => nz
  end.

(** [str(v)] and pandas' [astype(str)] on an object column. *)
Definition py_str (v : value) : pystr :=
  match v with
  | VNone => py "None"
  | VNaN => py "nan"
  | VStr s => s
  | VNum r _ => r
  end.

(** [pd.notna(v)]. *)
Definition notna (v : value) : bool :=
  match v with
  | VNone | VNaN => false
  | _ => true
  end.

Inductive exn :=
| KeyError
| ValueError
| TypeError
| AttributeError
| RequestException.

Inductive result (A : Type) :=
| Ok (a : A)
| Raise (e : exn).
Arguments Ok {A} a.
Arguments Raise {A} e.

Global Instance result_ret : MRet result := fun A a => Ok a.

Global Instance result_bind : MBind result := fun A B k m =>
  match m with
  | Ok a => k a
  | Raise e => Raise e
  end.

(** What one HTTP exchange ([requests.get], [raise_for_status], [.json()])
    gives the caller. *)
Inductive response (A : Type) :=
| Failed (e : exn)
| Got (payload : A).
Arguments Failed {A} e.
Arguments Got {A} payload.

(** A JSON object with text fields; [get d k] is [d.get(k, '')]. *)
Abbreviation item := (gmap pystr pystr).

Definition get (d : item) (k : string) : pystr := default [] (d !! py k).

(* ===================================================================== *)
(** ** Naive datetimes *)
(* ===================================================================== *)

Record datetime := mkdt {
  year : Z; month : Z; day : Z;
  hour : Z; minute : Z; second : Z; microsecond : Z
}.

Global Instance datetime_eq_dec : EqDecision datetime.
Proof. solve_decision. Defined.

Definition fields (d : datetime) : list Z :=
  [year d; month d; day d; hour d; minute d; second d; microsecond d].

(** Tuple comparison, as [datetime._cmp] does it. *)
Fixpoint lex_compare (a b : list Z) : comparison :=
  match a, b with
  | x :: a', y :: b' =>
    match x ?= y with
    | Eq => lex_compare a' b'
    | c => c
    end
  | [], [] => Eq
  | [], _ :: _ => Lt
  | _ :: _, [] => Gt
  end.

(** [a >= b]. *)
Definition dt_geb (a b : datetime) : bool :=
  match lex_compare (fields a) (fields b) with
  | Lt => false
  | _ => true
  end.


Definition is_leap (y : Z) : bool :=
  (y mod 4 =? 0) && (negb (y mod 100 =? 0) || (y mod 400 =? 0)).

Definition days_in_month (y m : Z) : Z :=
  if m =? 2 then (if is_leap y then 29 else 28)
  else if (m =? 4) || (m =? 6) || (m =? 9) || (m =? 11) then 30
  else 31.

Definition days_before_year (y : Z) : Z :=
  let p := y - 1 in p * 365 + p / 4 - p / 100 + p / 400.

Fixpoint days_before_month_go (y : Z) (k : nat) (m : Z) : Z :=
  match k with
  | O => 0
  | S k' =>
    if Z.of_nat k <? m
    then days_in_month y (Z.of_nat k) + days_before_month_go y k' m
    else days_before_month_go y k' m
  end.

(** Days of the year before the first day of month [m]. *)
Definition days_before_month (y m : Z) : Z := days_before_month_go y 12 m.

(** Proleptic Gregorian ordinal: 0001-01-01 is day 1. *)
Definition ymd2ord (y m d : Z) : Z :=
  days_before_year y + days_before_month y m + d.

Fixpoint month_of_go (y : Z) (k : nat) (m : Z) (n : Z) : Z * Z :=
  match k with
  | O => (m, n)
  | S k' =>
    let dim := days_in_month y m in
    if dim <=? n then month_of_go y k' (m + 1) (n - dim) else (m, n)
  end.

(** The inverse of [ymd2ord]. *)
Definition ord2ymd (n : Z) : Z * Z * Z :=
  let n0 := n - 1 in
  let n400 := n0 / 146097 in
  let r400 := n0 mod 146097 in
  let n100 := r400 / 36524 in
  let r100 := r400 mod 36524 in
  let n4 := r100 / 1461 in
  let r4 := r100 mod 1461 in
  let n1 := r4 / 365 in
  let r1 := r4 mod 365 in
  let y := n400 * 400 + n100 * 100 + n4 * 4 + n1 + 1 in
  if (n1 =? 4) || (n100 =? 4) then (y - 1, 12, 31)
  else
    let '(m, r) := month_of_go y 11 1 r1 in
    (y, m, r + 1).

(** [d - timedelta(days=n)].  The clock is taken to be late enough for the
    result to be a date of the calendar. *)
Definition minus_days (d : datetime) (n : Z) : datetime :=
  let '(y, m, dd) := ord2ymd (ymd2ord (year d) (month d) (day d) - n) in
  mkdt y m dd (hour d) (minute d) (second d) (microsecond d).

(** The result of [datetime.fromisoformat]: the wall-clock fields, and
    whether the text carried a UTC offset (an aware datetime). *)
Record iso_datetime := mkiso { iso_fields : datetime; iso_aware : bool }.

(* ===================================================================== *)
(** ** The Python runtime *)
(* ===================================================================== *)

Class Runtime := {
  (** [ch.isspace()] for a code point from 128 on. *)
  unicode_isspace : N -> bool;
  (** The digit value of a code point of category Nd from 128 on. *)
  unicode_decimal : N -> option N;
  (** [datetime.fromisoformat]; [None] is its [ValueError]. *)
  fromisoformat : pystr -> option iso_datetime;
  (** [d.strftime('%Y-%m-%d')]. *)
  strftime_ymd : datetime -> pystr;
  (** One element of [pd.to_numeric(column, errors='coerce')]. *)
  to_numeric : value -> value
}.

Definition ascii_isspace (c : N) : bool :=
  ((9 <=? c) && (c <=? 13) || (28 <=? c) && (c <=? 32))%N.

Definition isspace `{Runtime} (c : N) : bool :=
  if (c <? 128)%N then ascii_isspace c else unicode_isspace c.

Definition ascii_digit (c : N) : option N :=
  if ((48 <=? c) && (c <=? 57))%N then Some (c - 48)%N else None.

(** The value of a character matched by the regular expression [\d]. *)
Definition decimal `{Runtime} (c : N) : option N :=
  if (c <? 128)%N then ascii_digit c else unicode_decimal c.

Fixpoint lstrip `{Runtime} (s : pystr) : pystr :=
  match s with
  | c :: s' => if isspace c then lstrip s' else s
  | [] => []
  end.

(** [s.strip()]. *)
Definition strip `{Runtime} (s : pystr) : pystr :=
  rev (lstrip (rev (lstrip s))).

(* ===================================================================== *)
(** ** [datetime.strptime(text, '%Y%m%d')] *)
(* ===================================================================== *)

Definition in_range (lo hi : string) (c : N) : bool :=
  ((ch lo <=? c) && (c <=? ch hi))%N.

(** The directive [%m] on two characters: [1[0-2]|0[1-9]]. *)
Definition two_char_month (a b : N) : option Z :=
  if (a =? ch "1")%N && in_range "0" "2" b then Some (10 + Z.of_N (b - 48))
  else if (a =? ch "0")%N && in_range "1" "9" b then Some (Z.of_N (b - 48))
  else None.

(** The directive [%d] on two characters:
    [3[0-1]|[1-2]\d|0[1-9]| [1-9]]. *)
Definition two_char_day `{Runtime} (a b : N) : option Z :=
  if (a =? ch "3")%N && in_range "0" "1" b then Some (30 + Z.of_N (b - 48))
  else if in_range "1" "2" a then
    match decimal b with
    | Some v => Some (10 * Z.of_N (a - 48) + Z.of_N v)
    | None => None
    end
  else if ((a =? ch "0") || (a =? ch " "))%N && in_range "1" "9" b
    then Some (Z.of_N (b - 48))
  else None.

(** The text handed over is always the first eight characters of a longer
    one.  [%Y] is [\d\d\d\d]; the one-character alternatives of [%m] and [%d]
    leave a character unconverted on eight characters, which is an error;
    [None] is the [ValueError]. *)
Definition strptime_Ymd `{Runtime} (s : pystr) : option datetime :=
  match s with
  | [y1; y2; y3; y4; m1; m2; d1; d2] =>
    match decimal y1, decimal y2, decimal y3, decimal y4 with
    | Some a, Some b, Some c, Some d =>
      let y := Z.of_N (1000 * a + 100 * b + 10 * c + d) in
      match two_char_month m1 m2, two_char_day d1 d2 with
      | Some m, Some dd =>
        if (1 <=? y) && (dd <=? days_in_month y m)
        then Some (mkdt y m dd 0 0 0 0)
        else None
      | _, _ => None
      end
    | _, _, _, _ => None
    end
  | _ => None
  end.

(* ===================================================================== *)
(** ** [float(text)] *)
(* ===================================================================== *)

(** The decimal value read, before it is rounded to a binary float: the
    rounding keeps the sign. *)
Inductive pyfloat :=
| Fnan
| Finf (neg : bool)
| Fdec (neg : bool) (mant : N) (exp10 : Z).

(** Non-ASCII digits and spaces are replaced by their ASCII counterparts;
    any other non-ASCII character makes the text invalid. *)
Fixpoint transform_decimal_and_space `{Runtime} (s : pystr) : option pystr :=
  match s with
  | [] => Some []
  | c :: r =>
    if (c <? 127)%N then cons c <$> transform_decimal_and_space r
    else if isspace c then cons 32%N <$> transform_decimal_and_space r
    else
      match decimal c with
      | Some d => cons (48 + d)%N <$> transform_decimal_and_space r
      | None => None
      end
  end.

Definition is_ascii_digit (c : N) : bool := in_range "0" "9" c.

(** Underscores are accepted between two digits only, and dropped. *)
Fixpoint strip_underscores (prev : N) (s : pystr) : option pystr :=
  match s with
  | [] => if (prev =? ch "_")%N then None else Some []
  | c :: r =>
    if (c =? ch "_")%N then
      if is_ascii_digit prev then strip_underscores c r else None
    else if (prev =? ch "_")%N && negb (is_ascii_digit c) then None
    else cons c <$> strip_underscores c r
  end.

Definition c_isspace (c : N) : bool :=
  ((9 <=? c) && (c <=? 13) || (c =? 32))%N.

Fixpoint c_lstrip (s : pystr) : pystr :=
  match s with
  | c :: s' => if c_isspace c then c_lstrip s' else s
  | [] => []
  end.

Fixpoint span_digits (s : pystr) : list N * pystr :=
  match s with
  | c :: r =>
    if is_ascii_digit c
    then let '(ds, rest) := span_digits r in ((c - 48)%N :: ds, rest)
    else ([], s)
  | [] => ([], [])
  end.

Definition digits_value (ds : list N) : N :=
  fold_left (fun acc d => (10 * acc + d)%N) ds 0%N.

(** An optional sign in front. *)
Definition take_sign (s : pystr) : bool * pystr :=
  match s with
  | c :: r =>
    if (c =? ch "-")%N then (true, r)
    else if (c =? ch "+")%N then (false, r)
    else (false, s)
  | [] => (false, [])
  end.

Definition lower (c : N) : N :=
  if in_range "A" "Z" c then (c + 32)%N else c.

Definition parse_inf_or_nan (s : pystr) : option pyfloat :=
  let '(neg, body) := take_sign s in
  let low := map lower body in
  if pystr_eqb low (py "inf") || pystr_eqb low (py "infinity")
  then Some (Finf neg)
  else if pystr_eqb low (py "nan") then Some Fnan
  else None.

(** The exponent part: consumed only when a digit follows. *)
Definition take_exponent (s : pystr) : Z * pystr :=
  match s with
  | c :: r =>
    if ((c =? ch "e") || (c =? ch "E"))%N then
      let '(eneg, r1) := take_sign r in
      match span_digits r1 with
      | ([], _) => (0, s)
      | (ds, rest) =>
        let e := Z.of_N (digits_value ds) in
        ((if eneg then - e else e), rest)
      end
    else (0, s)
  | [] => (0, [])
  end.

Definition parse_strtod (s : pystr) : option pyfloat :=
  let '(neg, s1) := take_sign s in
  let '(ip, s2) := span_digits s1 in
  let '(fp, s3) :=
    match s2 with
    | c :: r => if (c =? ch ".")%N then span_digits r else ([], s2)
    | [] => ([], [])
    end in
  match ip ++ fp with
  | [] => parse_inf_or_nan s
  | ds =>
    match take_exponent s3 with
    | (e, []) => Some (Fdec neg (digits_value ds) (e - Z.of_nat (length fp)))
    | (_, _ :: _) => None
    end
  end.

(** [float(text)]; [None] is its [ValueError]. *)
Definition py_float `{Runtime} (s : pystr) : option pyfloat :=
  a ← transform_decimal_and_space s;
  u ← strip_underscores 0%N a;
  parse_strtod (rev (c_lstrip (rev (c_lstrip u)))).

(* ===================================================================== *)
(** ** [naver_search_top_stocks.py]: text helpers *)
(* ===================================================================== *)

(** [NaverSearchTopStocks.clean_text]. *)
Definition clean_text `{Runtime} (text : pystr) : pystr :=
  if negb (pystr_eqb text [])
  then replace_char (ch ",") []
         (replace_char 9%N [] (replace_char 10%N [] (strip text)))
  else [].

(** [NaverSearchTopStocks.parse_number]: [None] is Python's [None]. *)
Definition parse_number `{Runtime} (text : pystr) : option pyfloat :=
  let cleaned := clean_text text in
  if pystr_eqb cleaned [] || pystr_eqb cleaned (py "N/A") then None
  else
    let cleaned :=
      replace_char (ch "%") []
        (replace_char (ch "-") [] (replace_char (ch "+") [] cleaned)) in
    py_float cleaned.

(** The stock code read off the link of a listing row
    ([get_search_top_stocks], lines 154-160); [href] is
    [stock_link.get('href')] when there is a link. *)
Definition listing_stock_code (href : option pystr) : pystr :=
  match href with
  | Some h =>
    if negb (pystr_eqb h []) && contains (py "code=") h
    then
      let after := default [] (py_split (py "code=") h !! 1%nat) in
      py "A" ++ default [] (py_split (py "&") after !! 0%nat)
    else []
  | None => []
  end.

(** The runtime used for concrete runs: the whitespace of [str.isspace]
    beyond ASCII, no digits beyond ASCII, dates of the form [YYYY-MM-DD] for
    [fromisoformat], and numbers left as they are by [to_numeric]. *)
Definition reference_isspace (c : N) : bool :=
  ((c =? 133) || (c =? 160) || (c =? 5760) || (8192 <=? c) && (c <=? 8202)
   || (c =? 8232) || (c =? 8233) || (c =? 8239) || (c =? 8287)
   || (c =? 12288))%N.

Definition pad (width : nat) (n : Z) : pystr :=
  let s := str_nat (Z.to_nat n) in
  replicate (width - length s) (ch "0") ++ s.

Definition reference_strftime (d : datetime) : pystr :=
  pad 4 (year d) ++ py "-" ++ pad 2 (month d) ++ py "-" ++ pad 2 (day d).

Definition reference_fromisoformat (s : pystr) : option iso_datetime :=
  match s with
  | [y1; y2; y3; y4; 45%N; m1; m2; 45%N; d1; d2] =>
    match ascii_digit y1, ascii_digit y2, ascii_digit y3, ascii_digit y4,
          ascii_digit m1, ascii_digit m2, ascii_digit d1, ascii_digit d2 with
    | Some a, Some b, Some c, Some d, Some e, Some f, Some g, Some h =>
      let y := Z.of_N (1000 * a + 100 * b + 10 * c + d) in
      let m := Z.of_N (10 * e + f) in
      let dd := Z.of_N (10 * g + h) in
      if (1 <=? y) && (1 <=? m) && (m <=? 12) && (1 <=? dd)
         && (dd <=? days_in_month y m)
      then Some (mkiso (mkdt y m dd 0 0 0 0) false)
      else None
    | _, _, _, _, _, _, _, _ => None
    end
  | _ => None
  end.

Definition reference_to_numeric (v : value) : value :=
  match v with
  | VNum r nz => VNum r nz
  | _ => VNaN
  end.

Definition reference_runtime : Runtime := {|
  unicode_isspace := reference_isspace;
  unicode_decimal := fun _ => None;
  fromisoformat := reference_fromisoformat;
  strftime_ymd := reference_strftime;
  to_numeric := reference_to_numeric
|}.

(* ===================================================================== *)
(** ** [NaverStockCollectorFinal]: the enrichment fetches *)
(* ===================================================================== *)

(** One element of a facet list, the dict with the keys ['제목'], ['일자']
    and ['링크']. *)
Record entry := mkentry { title : pystr; date : pystr; link : pystr }.

(** The payload of the news endpoint: [clusters] is absent when the object
    has no such key, and so is [items] in a cluster. *)
Record cluster := mkcluster { items : option (list item) }.
Record news_payload := mknews { clusters : option (list cluster) }.

(** The payload of the notice and IR endpoints: a JSON list or not. *)
Inductive list_payload :=
| NotAList
| Items (l : list item).

(** How a loop body leaves: to the next element, by [break], or by an
    exception. *)
Inductive signal :=
| Next
| Break
| Raised (e : exn).

(** [get_stock_detail]: the dict with the keys ['업종'] and ['종목설명']. *)
Record stock_detail := mkdetail { sector : pystr; description : pystr }.

Definition get_stock_detail (fetch : pystr -> response item)
    (stock_code : pystr) : stock_detail :=
  let clean_code := replace_char (ch "A") [] stock_code in
  match fetch clean_code with
  | Got data =>
    let descriptions :=
      flat_map (fun i : nat =>
                  let desc := default [] (data !! (py "comment" ++ str_nat i)) in
                  if negb (pystr_eqb desc []) then [desc] else [])
               [1; 2; 3]%nat in
    mkdetail (get data "upJongName") (join (py " ") descriptions)
  | Failed _ => mkdetail [] []
  end.

Definition news_entry `{Runtime} (it : item) (news_date : datetime) : entry :=
  mkentry (get it "title") (strftime_ymd news_date)
          (py "https://n.news.naver.com/mnews/article/"
             ++ get it "officeId" ++ py "/" ++ get it "articleId").

(** The inner loop of [get_recent_news] over the items of one cluster. *)
Fixpoint news_items `{Runtime} (cutoff_date : datetime) (max_news : nat)
    (its : list item) (news_list : list entry) : list entry * signal :=
  match its with
  | [] => (news_list, Next)
  | it :: rest =>
    let news_date_str := get it "datetime" in
    if (8 <=? length news_date_str)%nat then
      match strptime_Ymd (take 8 news_date_str) with
      | None => (news_list, Raised ValueError)
      | Some news_date =>
        if dt_geb news_date cutoff_date then
          let news_list := news_list ++ [news_entry it news_date] in
          if (max_news <=? length news_list)%nat then (news_list, Break)
          else news_items cutoff_date max_news rest news_list
        else news_items cutoff_date max_news rest news_list
      end
    else news_items cutoff_date max_news rest news_list
  end.

(** The outer loop of [get_recent_news] over the clusters. *)
Fixpoint news_clusters `{Runtime} (cutoff_date : datetime) (max_news : nat)
    (cs : list cluster) (news_list : list entry) : list entry * signal :=
  match cs with
  | [] => (news_list, Next)
  | c :: rest =>
    match items c with
    | None => (news_list, Raised KeyError)
    | Some its =>
      match news_items cutoff_date max_news its news_list with
      | (news_list, Raised e) => (news_list, Raised e)
      | (news_list, _) =>
        if (max_news <=? length news_list)%nat then (news_list, Break)
        else news_clusters cutoff_date max_news rest news_list
      end
    end
  end.

(** [get_recent_news]: whatever leaves the [try] block, the list built so
    far is returned. *)
Definition get_recent_news `{Runtime} (now : datetime)
    (fetch : pystr -> response news_payload)
    (stock_code : pystr) (months : Z) (max_news : nat) : list entry :=
  let clean_code := replace_char (ch "A") [] stock_code in
  let cutoff_date := minus_days now (months * 30) in
  match fetch clean_code with
  | Got data =>
    match clusters data with
    | Some cs => fst (news_clusters cutoff_date max_news cs [])
    | None => []
    end
  | Failed _ => []
  end.

Definition notice_link (biz_seq : pystr) : pystr :=
  if contains (py "_") biz_seq
  then py "https://dart.fss.or.kr/dsaf001/main.do?rcpNo="
         ++ default [] (py_split (py "_") biz_seq !! 0%nat)
  else [].

Definition notice_entry `{Runtime} (it : item) (notice_date : datetime)
  : entry :=
  mkentry (get it "title") (strftime_ymd notice_date)
          (notice_link (get it "bizdateSeq")).

(** The body of the inner [try] of [get_recent_notices] for one item: the
    entry to append, if any.  Comparing an aware datetime with the naive
    cutoff raises [TypeError]; like the [ValueError] of the parser it is
    swallowed by the inner [except]. *)
Definition notice_accept `{Runtime} (cutoff_date : datetime) (it : item)
  : option entry :=
  let notice_date_str := get it "datetime" in
  if negb (pystr_eqb notice_date_str []) then
    match fromisoformat (replace_char (ch "Z") (py "+00:00") notice_date_str)
    with
    | Some d =>
      if iso_aware d then None
      else if dt_geb (iso_fields d) cutoff_date
        then Some (notice_entry it (iso_fields d))
        else None
    | None => None
    end
  else None.

(** The loop shared by [get_recent_notices] and [get_recent_ir]: append what
    the body accepts, and [break] once the list holds [max] elements. *)
Fixpoint accept_loop (accept : item -> option entry) (max : nat)
    (its : list item) (acc : list entry) : list entry :=
  match its with
  | [] => acc
  | it :: rest =>
    match accept it with
    | Some e =>
      let acc := acc ++ [e] in
      if (max <=? length acc)%nat then acc
      else accept_loop accept max rest acc
    | None => accept_loop accept max rest acc
    end
  end.

Definition get_recent_notices `{Runtime} (now : datetime)
    (fetch : pystr -> response list_payload)
    (stock_code : pystr) (months : Z) (max_notices : nat) : list entry :=
  let clean_code := replace_char (ch "A") [] stock_code in
  let cutoff_date := minus_days now (months * 30) in
  match fetch clean_code with
  | Got (Items data) => accept_loop (notice_accept cutoff_date) max_notices data []
  | Got NotAList => []
  | Failed _ => []
  end.

Definition ir_entry `{Runtime} (it : item) (ir_date : datetime) : entry :=
  mkentry (get it "title") (strftime_ymd ir_date) [].

(** The body of the inner [try] of [get_recent_ir] for one item. *)
Definition ir_accept `{Runtime} (cutoff_date : datetime) (it : item)
  : option entry :=
  let ir_date_str := get it "writeDate" in
  if (8 <=? length ir_date_str)%nat then
    match strptime_Ymd (take 8 ir_date_str) with
    | Some ir_date =>
      if dt_geb ir_date cutoff_date then Some (ir_entry it ir_date) else None
    | None => None
    end
  else None.

Definition get_recent_ir `{Runtime} (now : datetime)
    (fetch : pystr -> response list_payload)
    (stock_code : pystr) (months : Z) (max_ir : nat) : list entry :=
  let clean_code := replace_char (ch "A") [] stock_code in
  let cutoff_date := minus_days now (months * 30) in
  match fetch clean_code with
  | Got (Items data) => accept_loop (ir_accept cutoff_date) max_ir data []
  | Got NotAList => []
  | Failed _ => []
  end.

(* ===================================================================== *)
(** ** [get_rising_stocks]: the field mapper *)
(* ===================================================================== *)

(** A raw provider record, and a row of the table. *)
Abbreviation record := (gmap pystr value).
Abbreviation row := (gmap pystr value).

(** [self.management_reason_map] and [self.market_alert_map]. *)
Definition management_reason_map : list (string * string) :=
  [("6024", "자본잠식"); ("6025", "영업손실 발생"); ("6026", "매출액 미달");
   ("6027", "법정관리"); ("6028", "주권 재상장"); ("6029", "지배구조 변경");
   ("6051", "기타"); ("6052", "합병"); ("6053", "분할"); ("6054", "주식이전")].

Definition market_alert_map : list (string * string) :=
  [("00", "없음"); ("01", "투자주의"); ("02", "투자경고"); ("03", "투자위험")].

(** The three dictionaries written in place in [get_rising_stocks]. *)
Definition sosok_map : list (string * string) :=
  [("0", "코스피"); ("1", "코스닥")].

Definition status_tag_map : list (string * string) :=
  [("0", "정상"); ("1", "관리종목"); ("2", "투자주의"); ("9", "거래정지")].

Definition risefall_map : list (string * string) :=
  [("1", "상한가"); ("2", "상승"); ("3", "보합"); ("4", "하한가"); ("5", "하락")].

(** [table.get(k)]: the last binding of a key is the one a dict literal
    keeps; the keys above are distinct. *)
Fixpoint dict_get (table : list (string * string)) (k : pystr)
  : option pystr :=
  match table with
  | [] => None
  | (k', v) :: rest =>
    if pystr_eqb (py k') k then Some (py v) else dict_get rest k
  end.

(** One element of [series.map(table)] for a dict: a value that is not a
    key becomes NaN. *)
Definition series_map_dict (table : list (string * string)) (x : value)
  : value :=
  match x with
  | VStr s =>
    match dict_get table s with
    | Some t => VStr t
    | None => VNaN
    end
  | _ => VNaN
  end.

(** One element of
    [series.map(lambda x: table.get(str(x), '') if pd.notna(x) else '')]. *)
Definition series_map_get (table : list (string * string)) (x : value)
  : value :=
  if notna x then VStr (default [] (dict_get table (py_str x))) else VStr [].

Definition columns_mapping : list (string * string) :=
  [("itemname", "종목명"); ("itemcode", "종목코드"); ("nowVal", "현재가");
   ("openVal", "시가"); ("highVal", "고가"); ("lowVal", "저가");
   ("changeVal", "전일대비"); ("changeRate", "등락률"); ("accQuant", "거래량");
   ("accAmount", "거래대금"); ("askBuy", "매수호가"); ("askSell", "매도호가");
   ("marketSum", "시가총액"); ("listedStockCnt", "상장주식수");
   ("frgnRate", "외국인비율"); ("propertyTotal", "자산총계");
   ("debtTotal", "부채총계"); ("sales", "매출액");
   ("salesIncreasingRate", "매출증가율"); ("operatingProfit", "영업이익");
   ("operatingProfitIncreasingRate", "영업이익증가율");
   ("netIncome", "당기순이익"); ("eps", "EPS"); ("per", "PER"); ("roe", "ROE");
   ("roa", "ROA"); ("pbr", "PBR"); ("reserveRatio", "유보율");
   ("dividend", "배당금"); ("dividendRate", "배당률");
   ("high52week", "52주최고"); ("low52week", "52주최저");
   ("upperLimit", "상한가"); ("lowerLimit", "하한가"); ("listedDate", "상장일")].

Definition numeric_cols : list string :=
  ["현재가"; "시가"; "고가"; "저가"; "전일대비"; "등락률"; "거래량"; "거래대금";
   "매수호가"; "매도호가"; "시가총액"; "상장주식수"; "외국인비율"; "자산총계";
   "부채총계"; "매출액"; "매출증가율"; "영업이익"; "영업이익증가율";
   "당기순이익"; "EPS"; "PER"; "ROE"; "ROA"; "PBR"; "유보율"; "배당금";
   "배당률"; "52주최고"; "52주최저"; "상한가"; "하한가"].

(** The code columns of the provider and the columns derived from them, with
    the element-wise function of each. *)
Definition derived_columns : list (string * string * (value -> value)) :=
  [("sosok", "시장구분", series_map_dict sosok_map);
   ("statusTag", "상태", series_map_dict status_tag_map);
   ("risefall", "등락구분", series_map_dict risefall_map);
   ("managementReasonCode", "관리사유", series_map_get management_reason_map);
   ("marketAlertType", "시장경보", series_map_get market_alert_map)].

(** [k in df.columns] for [df = pd.DataFrame(data)]: some record has the
    key.  A key missing from one record is NaN in its row. *)
Definition has_column (data : list record) (k : pystr) : bool :=
  existsb (fun r => bool_decide (is_Some (r !! k))) data.

Definition cell (r : record) (k : pystr) : value := default VNaN (r !! k).

(** [if src in df.columns: df[dst] = df[src].map(f)], on one row. *)
Definition derive (data : list record) (r : record)
    (d : string * string * (value -> value)) : record :=
  let '(src, dst, f) := d in
  if has_column data (py src) then <[py dst := f (cell r (py src))]> r else r.

(** [df[available_cols].copy()] followed by [rename]: the mapped provider
    columns and the derived columns that the frame has, on one row. *)
Definition select_rename (data : list record) (r : record) : row :=
  let mapped :=
    foldl (fun acc '(src, dst) =>
             if has_column data (py src)
             then <[py dst := cell r (py src)]> acc else acc)
          ∅ columns_mapping in
  foldl (fun acc '(src, dst, _) =>
           if has_column data (py src) || has_column data (py dst)
           then <[py dst := cell r (py dst)]> acc else acc)
        mapped derived_columns.

(** One row of the frame that [get_rising_stocks] returns; [stamp] is the
    formatted clock reading. *)
Definition map_record `{Runtime} (data : list record) (stamp : pystr)
    (r : record) : row :=
  let r := foldl (derive data) r derived_columns in
  let selected := select_rename data r in
  let selected :=
    foldl (fun acc col => alter to_numeric (py col) acc) selected numeric_cols in
  let selected :=
    alter (fun v => VStr (py "A" ++ py_str v)) (py "종목코드") selected in
  <[py "수집시간" := VStr stamp]> selected.

(** [get_rising_stocks]: the rows of the returned frame; an empty frame has
    no rows. *)
Definition get_rising_stocks `{Runtime} (reply : response (list record))
    (stamp : pystr) : list row :=
  match reply with
  | Got data => map (map_record data stamp) data
  | Failed _ => []
  end.

(* ===================================================================== *)
(** ** [collect_all_data] *)
(* ===================================================================== *)

Inductive facet := Profile | News | Filing | IR.

Global Instance facet_eq_dec : EqDecision facet.
Proof. solve_decision. Defined.

(** The world the collector talks to.  A listing request is answered
    according to its page size and start index; an enrichment request
    according to the index of the row it is made for and the code sent; the
    clock is read once in every facet fetch. *)
Record provider := mkprovider {
  listing : nat -> nat -> response (list record);
  listing_stamp : nat -> nat -> pystr;
  detail_reply : nat -> pystr -> response item;
  news_reply : nat -> pystr -> response news_payload;
  notice_reply : nat -> pystr -> response list_payload;
  ir_reply : nat -> pystr -> response list_payload;
  clock : nat -> facet -> datetime
}.

(** The variables of the first loop; [fetches] counts the calls of
    [get_rising_stocks], one per iteration. *)
Record loop_state := mkstate {
  all_data : list (list row);
  start_idx : nat;
  total_collected : nat;
  fetches : nat
}.

Definition loop_init : loop_state := mkstate [] 0 0 0.

(** [self.get_rising_stocks(page_size=page_size, start_idx=start_idx)]
    against the provider. *)
Definition fetch_page `{Runtime} (p : provider) (page_size start_idx : nat)
  : list row :=
  get_rising_stocks (listing p page_size start_idx)
                    (listing_stamp p page_size start_idx).

Definition count_fetch (st : loop_state) : loop_state :=
  mkstate (all_data st) (start_idx st) (total_collected st) (S (fetches st)).

(** [all_data.append(df); total_collected += len(df)]. *)
Definition append_page (df : list row) (st : loop_state) : loop_state :=
  mkstate (all_data st ++ [df]) (start_idx st)
          (total_collected st + length df) (fetches st).

(** [start_idx += page_size]. *)
Definition advance (page_size : nat) (st : loop_state) : loop_state :=
  mkstate (all_data st) (start_idx st + page_size) (total_collected st)
          (fetches st).

(** The [while] loop of stage 1; [fuel] bounds the number of iterations and
    [None] means that it did not suffice. *)
Fixpoint base_loop `{Runtime} (fuel : nat) (p : provider)
    (max_stocks page_size : nat) (st : loop_state) : option loop_state :=
  if (total_collected st <? max_stocks)%nat then
    match fuel with
    | O => None
    | S fuel' =>
      let df := fetch_page p page_size (start_idx st) in
      let st := count_fetch st in
      match df with
      | [] => Some st
      | _ :: _ =>
        let st := append_page df st in
        if (length df <? page_size)%nat then Some st
        else base_loop fuel' p max_stocks page_size (advance page_size st)
      end
    end
  else Some st.

(** [pd.concat(all_data, ignore_index=True)]; no page gives the empty
    frame. *)
Definition concat_pages (st : loop_state) : list row := concat (all_data st).

(** [row[col]] where the code goes on to call [str] methods on it. *)
Definition row_text (r : row) (col : string) : result pystr :=
  match r !! py col with
  | None => Raise KeyError
  | Some (VStr s) => Ok s
  | Some _ => Raise AttributeError
  end.

(** Stage 2 for the row of index [idx]: its detail, placed next to it by
    [pd.concat(..., axis=1)]. *)
Definition detail_row (p : provider) (idx : nat) (r : row) : result row :=
  stock_code ← row_text r "종목코드";
  let detail := get_stock_detail (detail_reply p idx) stock_code in
  Ok (<[py "종목설명" := VStr (description detail)]>
        (<[py "업종" := VStr (sector detail)]> r)).

(** [f'{prefix}{i+1}{suffix}']. *)
Definition slot_column (prefix : string) (i : nat) (suffix : string) : pystr :=
  py prefix ++ str_nat (i + 1) ++ py suffix.

(** One turn of [for i in range(3)]: the assignments [result_df.at[idx, ...]]
    for slot [i]; the IR loop has no link column. *)
Definition write_slot (prefix : string) (with_link : bool)
    (found : list entry) (r : row) (i : nat) : row :=
  let '(t, d, l) :=
    match found !! i with
    | Some e => (take 50 (title e), date e, link e)
    | None => ([], [], [])
    end in
  let r := <[slot_column prefix i "" := VStr t]> r in
  let r := <[slot_column prefix i "_일자" := VStr d]> r in
  if with_link then <[slot_column prefix i "_링크" := VStr l]> r else r.

Definition write_slots (prefix : string) (with_link : bool)
    (found : list entry) (r : row) : row :=
  foldl (write_slot prefix with_link found) r [0; 1; 2]%nat.

(** Stage 3 for the row of index [idx]. *)
Definition facets_row `{Runtime} (p : provider) (idx : nat) (r : row)
  : result row :=
  stock_code ← row_text r "종목코드";
  let news := get_recent_news (clock p idx News) (news_reply p idx)
                              stock_code 3 3 in
  let r := write_slots "뉴스" true news r in
  let notices := get_recent_notices (clock p idx Filing) (notice_reply p idx)
                                    stock_code 3 3 in
  let r := write_slots "공시" true notices r in
  let ir_list := get_recent_ir (clock p idx IR) (ir_reply p idx)
                               stock_code 3 3 in
  Ok (write_slots "IR" false ir_list r).

(** [for idx, row in result_df.iterrows()]: an exception in the body leaves
    the loop and the function. *)
Fixpoint for_rows (body : nat -> row -> result row) (idx : nat)
    (rows : list row) : result (list row) :=
  match rows with
  | [] => Ok []
  | r :: rest =>
    r' ← body idx r;
    rest' ← for_rows body (S idx) rest;
    Ok (r' :: rest')
  end.

Definition enrich_details (p : provider) (rows : list row)
  : result (list row) :=
  for_rows (detail_row p) 0 rows.

Definition enrich_facets `{Runtime} (p : provider) (rows : list row)
  : result (list row) :=
  for_rows (facets_row p) 0 rows.

(** Stages 2 and 3 of [collect_all_data], each run only when its flag is
    set. *)
Definition enrich_stages `{Runtime} (p : provider)
    (include_detail include_news : bool) (result_df : list row)
  : result (list row) :=
  result_df ← (if include_detail then enrich_details p result_df
               else Ok result_df);
  if include_news then enrich_facets p result_df else Ok result_df.

(** [collect_all_data]; the page size is the constant 100 of the source. *)
Definition collect_all_data `{Runtime} (fuel : nat) (p : provider)
    (max_stocks : nat) (include_detail include_news : bool)
  : option (result (list row)) :=
  st ← base_loop fuel p max_stocks 100 loop_init;
  Some (match concat_pages st with
        | [] => Ok []
        | result_df => enrich_stages p include_detail include_news result_df
        end).

(* ===================================================================== *)
(** ** [save_to_excel_with_hyperlinks] *)
(* ===================================================================== *)

(** The worksheet ['상승종목'] as [load_workbook] returns it: row 1 holds the
    column names, the rows from 2 on the records.  Rows and columns are
    numbered from 1; a column letter is identified with its number.
    [assigned] holds the cells that were given a value after loading: the
    setter of [Cell.hyperlink] puts the target into a cell whose value is
    [None]. *)
Record sheet := mksheet {
  header : list pystr;
  body : list (list value);
  assigned : gmap (nat * nat) value;
  hyperlink : gmap (nat * nat) value;
  font : gmap (nat * nat) (pystr * pystr);
  hidden : gset nat;
  width : gmap nat nat
}.

(** The sheet right after [df.to_excel]: values only. *)
Definition written_sheet (columns : list pystr) (rows : list (list value))
  : sheet :=
  mksheet columns rows ∅ ∅ ∅ ∅ ∅.

Definition max_row (ws : sheet) : nat := 1 + length (body ws).

(** [ws.cell(row=r, column=c).value] for a row of records. *)
Definition cell_value (ws : sheet) (r c : nat) : value :=
  match assigned ws !! (r, c) with
  | Some v => v
  | None =>
    default VNone
      (body ws !! (r - 2)%nat ≫= fun cells => cells !! (c - 1)%nat)
  end.

(** [l.index(x)], counted from 0; [None] is its [ValueError]. *)
Fixpoint index (x : pystr) (l : list pystr) : option nat :=
  match l with
  | [] => None
  | y :: l' => if pystr_eqb y x then Some O else S <$> index x l'
  end.

Definition title_columns : list string :=
  ["뉴스1"; "뉴스2"; "뉴스3"; "공시1"; "공시2"; "공시3"].

(** [cell.hyperlink = target; cell.font = Font(...)] for the cell of row
    [r] and column [c]: the setter keeps the target, and puts it into the
    cell when the cell has no value. *)
Definition set_hyperlink (ws : sheet) (r c : nat) (target : value) : sheet :=
  mksheet (header ws) (body ws)
          (if bool_decide (cell_value ws r c = VNone)
           then <[(r, c) := target]> (assigned ws) else assigned ws)
          (<[(r, c) := target]> (hyperlink ws))
          (<[(r, c) := (py "0563C1", py "single")]> (font ws))
          (hidden ws) (width ws).

(** The body of the inner loop at lines 457-466.  The setter of
    [Cell.hyperlink] takes a text: for any other true value it raises
    [TypeError]. *)
Definition link_title (row_idx : nat) (ws : sheet) (col_name : string)
  : result sheet :=
  match index (py col_name) (header ws) with
  | Some i =>
    let col_idx := (i + 1)%nat in
    match index (py col_name ++ py "_링크") (header ws) with
    | Some k =>
      let link_col_idx := (k + 1)%nat in
      let link_value := cell_value ws row_idx link_col_idx in
      if truthy link_value then
        match link_value with
        | VStr _ => Ok (set_hyperlink ws row_idx col_idx link_value)
        | _ => Raise TypeError
        end
      else Ok ws
    | None => Raise ValueError
    end
  | None => Ok ws
  end.

(** A [for] loop whose body may raise. *)
Fixpoint for_each {St A : Type} (body : St -> A -> result St)
    (xs : list A) (s : St) : result St :=
  match xs with
  | [] => Ok s
  | x :: rest => s' ← body s x; for_each body rest s'
  end.

(** Lines 455-466: [for row_idx in range(2, ws.max_row + 1)]. *)
Definition apply_hyperlinks (ws : sheet) : result sheet :=
  for_each (fun ws row_idx => for_each (link_title row_idx) title_columns ws)
           (seq 2 (max_row ws - 1)) ws.

(** The body of the loop at lines 469-472. *)
Definition hide_column (ws : sheet) (col_name : pystr) : sheet :=
  if contains (py "_링크") col_name then
    match index col_name (header ws) with
    | Some i =>
      mksheet (header ws) (body ws) (assigned ws) (hyperlink ws) (font ws)
              ({[ (i + 1)%nat ]} ∪ hidden ws) (width ws)
    | None => ws
    end
  else ws.

(** Lines 469-472: [for col_name in header]. *)
Definition hide_link_columns (ws : sheet) : sheet :=
  foldl hide_column ws (header ws).

(** The cells of column [c], header included, as [ws.columns] gives them. *)
Definition column_cells (ws : sheet) (c : nat) : list value :=
  VStr (default [] (header ws !! (c - 1)%nat))
    :: map (fun r => cell_value ws r c) (seq 2 (max_row ws - 1)).

(** The body of the loop at lines 475-485. *)
Definition adjust_width (ws : sheet) (c : nat) : sheet :=
  if bool_decide (c ∈ hidden ws) then ws
  else
    let max_length :=
      foldl (fun m v => Nat.max m (length (py_str v))) 0%nat
            (column_cells ws c) in
    mksheet (header ws) (body ws) (assigned ws) (hyperlink ws) (font ws)
            (hidden ws)
            (<[c := Nat.min (max_length + 2) 50]> (width ws)).

(** Lines 475-485: [for column in ws.columns]. *)
Definition adjust_widths (ws : sheet) : sheet :=
  foldl adjust_width ws (seq 1 (length (header ws))).

(** [save_to_excel_with_hyperlinks] from the point where the workbook
    written by [df.to_excel] has been loaded again. *)
Definition save_to_excel_with_hyperlinks (ws : sheet) : result sheet :=
  ws ← apply_hyperlinks ws;
  Ok (adjust_widths (hide_link_columns ws)).

(* ===================================================================== *)
(** * Vocabulary of the statements *)
(* ===================================================================== *)

(** [ceil(a / b)]. *)
Definition ceil_div (a b : nat) : nat := ((a + b - 1) / b)%nat.

(** What holds of the loop variables of stage 1 before every test of the
    condition: each earlier iteration appended a full page. *)
Record loop_inv (page_size : nat) (st : loop_state) : Prop := {
  inv_total : total_collected st = length (concat (all_data st));
  inv_full : (fetches st * page_size <= total_collected st)%nat;
  inv_idx : start_idx st = (fetches st * page_size)%nat
}.

(** The number of rows of a finished run. *)
Definition row_count (run : option (result (list row))) : option nat :=
  match run with
  | Some (Ok rows) => Some (length rows)
  | _ => None
  end.

(** *** Sample inputs *)

Definition sample_record (code : string) : record :=
  {[ py "itemcode" := VStr (py code);
     py "itemname" := VStr (py "삼성전자");
     py "sosok" := VStr (py "0") ]}.

Definition noon : datetime := mkdt 2024 3 31 12 0 0 0.

(** A provider whose [k]-th listing page has [sizes !! k] records and whose
    enrichment endpoints are down. *)
Definition paged_provider (sizes : list nat) : provider :=
  mkprovider
    (fun page_size start =>
       Got (replicate (default 0%nat (sizes !! (start / page_size)%nat))
                      (sample_record "005930")))
    (fun _ _ => py "2024-03-31 12:00:00")
    (fun _ _ => Failed RequestException)
    (fun _ _ => Failed RequestException)
    (fun _ _ => Failed RequestException)
    (fun _ _ => Failed RequestException)
    (fun _ _ => noon).

(** The code columns resolved with [table.get(str(x), '')], and those
    resolved with [series.map(table)]. *)
Definition get_resolved : list (string * string * list (string * string)) :=
  [("managementReasonCode", "관리사유", management_reason_map);
   ("marketAlertType", "시장경보", market_alert_map)].

Definition map_resolved : list (string * string * list (string * string)) :=
  [("sosok", "시장구분", sosok_map);
   ("statusTag", "상태", status_tag_map);
   ("risefall", "등락구분", risefall_map)].

(** A record whose codes are in none of the tables. *)
Definition unknown_codes_record : record :=
  {[ py "itemcode" := VStr (py "005930");
     py "sosok" := VStr (py "7");
     py "statusTag" := VStr (py "5");
     py "risefall" := VStr (py "0");
     py "managementReasonCode" := VStr (py "9999");
     py "marketAlertType" := VStr (py "77") ]}.

Definition minus : N := ch "-".

(** A float that is a number and is not below zero. *)
Definition nonnegative (v : pyfloat) : Prop :=
  match v with
  | Fnan => False
  | Finf neg => neg = false
  | Fdec neg _ _ => neg = false
  end.

(** *** Slots *)

Definition slot_title (found : list entry) (i : nat) : pystr :=
  match found !! i with
  | Some e => take 50 (title e)
  | None => []
  end.

Definition slot_date (found : list entry) (i : nat) : pystr :=
  match found !! i with
  | Some e => date e
  | None => []
  end.

Definition slot_link (found : list entry) (i : nat) : pystr :=
  match found !! i with
  | Some e => link e
  | None => []
  end.

(** The columns that one facet loop of stage 3 writes. *)
Definition slot_columns (prefix : string) (with_link : bool) : list pystr :=
  flat_map (fun i : nat =>
              [slot_column prefix i ""; slot_column prefix i "_일자"]
                ++ (if with_link then [slot_column prefix i "_링크"] else []))
           [0; 1; 2]%nat.

(** The columns that belong to a facet. *)
Definition facet_columns (f : facet) : list pystr :=
  match f with
  | Profile => [py "업종"; py "종목설명"]
  | News => slot_columns "뉴스" true
  | Filing => slot_columns "공시" true
  | IR => slot_columns "IR" false
  end.

(** The provider [p], except that the fetch of facet [f] for the row of
    index [i] fails with [e]. *)
Definition fail_at (f : facet) (i : nat) (e : exn) (p : provider) : provider :=
  mkprovider (listing p) (listing_stamp p)
    (fun j code =>
       if bool_decide (f = Profile /\ j = i) then Failed e
       else detail_reply p j code)
    (fun j code =>
       if bool_decide (f = News /\ j = i) then Failed e
       else news_reply p j code)
    (fun j code =>
       if bool_decide (f = Filing /\ j = i) then Failed e
       else notice_reply p j code)
    (fun j code =>
       if bool_decide (f = IR /\ j = i) then Failed e
       else ir_reply p j code)
    (clock p).

(** The row carries its exchange code as a text. *)
Definition has_code (r : row) : Prop :=
  exists code, r !! py "종목코드" = Some (VStr code).

(** What the three facet fetches of stage 3 return for a row. *)
Definition found_news `{Runtime} (p : provider) (idx : nat) (code : pystr)
  : list entry :=
  get_recent_news (clock p idx News) (news_reply p idx) code 3 3.

Definition found_notices `{Runtime} (p : provider) (idx : nat) (code : pystr)
  : list entry :=
  get_recent_notices (clock p idx Filing) (notice_reply p idx) code 3 3.

Definition found_ir `{Runtime} (p : provider) (idx : nat) (code : pystr)
  : list entry :=
  get_recent_ir (clock p idx IR) (ir_reply p idx) code 3 3.

(** A provider with two news items, one filing and one IR notice for every
    row, seen on 31 March 2024 at noon. *)
Definition text_item (fields : list (string * string)) : item :=
  list_to_map (map (fun kv => (py kv.1, py kv.2)) fields).

Definition long_title : string :=
  "삼성전자, 2024년 1분기 잠정 실적 발표: 매출 71조원, 영업이익 6조 6천억원으로 시장 전망치를 크게 웃돌아".

Definition sample_news : news_payload :=
  mknews (Some [mkcluster (Some
    [text_item [("datetime", "20240329103000"); ("title", long_title);
                ("officeId", "001"); ("articleId", "0014600001")];
     text_item [("datetime", "20240105090000"); ("title", "신년 전망");
                ("officeId", "015"); ("articleId", "0004900002")];
     text_item [("datetime", "20231201090000"); ("title", "지난 분기");
                ("officeId", "015"); ("articleId", "0004800003")]])]).

Definition sample_notices : list_payload :=
  Items [text_item [("datetime", "2024-03-20"); ("title", "주주총회 결과");
                    ("bizdateSeq", "20240320000123_1")]].

Definition sample_ir : list_payload :=
  Items [text_item [("writeDate", "20240215"); ("title", "기업설명회 개최")]].

Definition sample_detail : item :=
  text_item [("upJongName", "반도체"); ("comment1", "메모리 반도체");
             ("comment3", "스마트폰")].

Definition sample_provider : provider :=
  mkprovider
    (fun page_size start =>
       if (start =? 0)%nat
       then Got [sample_record "005930"; sample_record "000660"]
       else Got [])
    (fun _ _ => py "2024-03-31 12:00:00")
    (fun _ _ => Got sample_detail)
    (fun _ _ => Got sample_news)
    (fun _ _ => Got sample_notices)
    (fun _ _ => Got sample_ir)
    (fun _ _ => noon).

Definition sample_row : row :=
  {[ py "종목코드" := VStr (py "A005930"); py "종목명" := VStr (py "삼성전자") ]}.

(** The exchange code of a row that has one. *)
Definition row_code (r : row) : pystr :=
  match r !! py "종목코드" with
  | Some (VStr s) => s
  | _ => []
  end.

(** What stage 2 and stage 3 make of a row that carries its code. *)
Definition with_detail (p : provider) (idx : nat) (r : row) : row :=
  let detail := get_stock_detail (detail_reply p idx) (row_code r) in
  <[py "종목설명" := VStr (description detail)]>
    (<[py "업종" := VStr (sector detail)]> r).

Definition with_facets `{Runtime} (p : provider) (idx : nat) (r : row) : row :=
  write_slots "IR" false (found_ir p idx (row_code r))
    (write_slots "공시" true (found_notices p idx (row_code r))
       (write_slots "뉴스" true (found_news p idx (row_code r)) r)).

(** All the columns that stage 3 writes. *)
Definition written_columns : list pystr :=
  slot_columns "뉴스" true ++ slot_columns "공시" true ++ slot_columns "IR" false.

(** *** The cutoff *)

(** What one turn of the inner loop of [get_recent_news] appends when the
    date of the item can be read. *)
Definition news_accept `{Runtime} (cutoff_date : datetime) (it : item)
  : option entry :=
  let news_date_str := get it "datetime" in
  if (8 <=? length news_date_str)%nat then
    match strptime_Ymd (take 8 news_date_str) with
    | Some news_date =>
      if dt_geb news_date cutoff_date then Some (news_entry it news_date)
      else None
    | None => None
    end
  else None.







(** *** The worksheet *)

(** The hyperlink that the body of the loop sets for row [r] and the title
    column [n]: the number of the title column and the value of the link
    cell, when that value is true. *)
Definition link_of (ws : sheet) (r : nat) (n : string) : option (nat * value) :=
  match index (py n) (header ws), index (py n ++ py "_링크") (header ws) with
  | Some i, Some k =>
    let v := cell_value ws r (k + 1)%nat in
    if truthy v then Some ((i + 1)%nat, v) else None
  | _, _ => None
  end.

(** The cells of row [r] that get a hyperlink, in the order of the loop. *)
Definition title_writes (ws : sheet) (names : list string) (r : nat)
  : list (nat * nat * value) :=
  flat_map (fun n => match link_of ws r n with
                     | Some (c, v) => [(r, c, v)]
                     | None => []
                     end) names.

(** The sheet after the given hyperlinks have been set, in order. *)
Definition put_links (ws : sheet) (writes : list (nat * nat * value)) : sheet :=
  foldl (fun ws w => set_hyperlink ws w.1.1 w.1.2 w.2) ws writes.

(** The exception that the body of the loop raises for row [r] and the
    title column [n], if any: [ValueError] from [header.index] when the link
    column is missing, [TypeError] from the setter when the link cell holds
    a true value that is no text. *)
Definition title_error (ws : sheet) (r : nat) (n : string) : option exn :=
  match index (py n) (header ws) with
  | Some _ =>
    match index (py n ++ py "_링크") (header ws) with
    | Some k =>
      match cell_value ws r (k + 1)%nat with
      | VStr _ => None
      | v => if truthy v then Some TypeError else None
      end
    | None => Some ValueError
    end
  | None => None
  end.

(** The exceptions waiting in the rows [rs], in the order of the loops. *)
Definition title_errors (ws : sheet) (rs : list nat) : list exn :=
  flat_map (fun r => omap (title_error ws r) title_columns) rs.

(** The sheet [ws] has the header of [ws0] and its link cells. *)
Definition same_links (ws ws0 : sheet) : Prop :=
  header ws = header ws0
  /\ forall r n k,
       n ∈ title_columns ->
       index (py n ++ py "_링크") (header ws0) = Some k ->
       cell_value ws r (k + 1)%nat = cell_value ws0 r (k + 1)%nat.

(** A write to a title cell. *)
Definition title_write (ws0 : sheet) (w : nat * nat * value) : Prop :=
  exists n i, n ∈ title_columns /\ index (py n) (header ws0) = Some i
              /\ w.1.2 = (i + 1)%nat.

(** Every link cell of a title column holds a text or nothing true. *)
Definition link_cells_text (columns : list pystr) (rows : list (list value))
  : Prop :=
  forall j cells n i k v,
    rows !! j = Some cells -> n ∈ title_columns ->
    index (py n) columns = Some i ->
    index (py n ++ py "_링크") columns = Some k ->
    cells !! k = Some v -> truthy v = true -> exists s, v = VStr s.



Definition sample_columns : list pystr :=
  [py "종목코드"; py "뉴스1"; py "뉴스1_링크"; py "공시1"; py "공시1_링크";
   py "IR1"].

Definition sample_cells : list (list value) :=
  [[VStr (py "A005930"); VStr (py "실적 발표");
    VStr (py "https://n.news.naver.com/mnews/article/001/0014600001");
    VStr (py "주주총회 결과"); VNone; VStr (py "기업설명회")];
   [VStr (py "A000660"); VNone; VNone; VStr (py "분기보고서");
    VStr (py "https://dart.fss.or.kr/dsaf001/main.do?rcpNo=20240320000123");
    VNone]].

(** The link column of every title column of the header is there. *)
Definition links_present (columns : list pystr) : Prop :=
  forall n, n ∈ title_columns -> py n ∈ columns ->
            py n ++ py "_링크" ∈ columns.

(* ===================================================================== *)
(** * The rest of the two collectors *)
(* ===================================================================== *)

(** ** [NaverSearchTopStocks.get_search_top_stocks] *)

(** The listing page as the HTML parser presents it.  A [td] has its text,
    whether it carries a [colspan] attribute, its first link (text and
    [href]) and the class lists of its [span]s in document order. *)
Record td := mktd {
  td_text : pystr;
  td_colspan : bool;
  td_link : option (pystr * option pystr);
  td_spans : list (list pystr)
}.

(** A [tr]: its [class] attribute and its [td]s. *)
Record tr := mktr {
  tr_class : option (list pystr);
  tr_cols : list td
}.

(** A [table]: its classes, its [summary], the length of its markup, the
    rows of its first [tbody] when it has one, and all its rows. *)
Record table := mktable {
  t_class : list pystr;
  t_summary : option pystr;
  t_size : nat;
  t_tbody : option (list tr);
  t_rows : list tr
}.

(** One record of the listing: the dict [stock_info], field by field. *)
Record stock_info := mkinfo {
  rank : pystr;
  stock_name : pystr;
  stock_code : pystr;
  search_ratio : option pyfloat;
  current_price : option pyfloat;
  change_val : option pyfloat;
  change_rate : option pyfloat;
  change_type : pystr;
  volume : option pyfloat;
  open_price : option pyfloat;
  high_price : option pyfloat;
  low_price : option pyfloat;
  per : option pyfloat;
  roe : option pyfloat
}.

(** The columns of the frame built from the records, in order. *)
Definition listing_columns : list pystr :=
  map py ["순위"; "종목명"; "종목코드"; "검색비율"; "현재가"; "전일대비";
          "등락률"; "등락구분"; "거래량"; "시가"; "고가"; "저가"; "PER"; "ROE";
          "수집시간"].

(** The loop over the spans of the change cell (lines 174-189): a span of
    class [blind] is passed over, and the first other span whose classes
    mention a colour decides. *)
Fixpoint classify_spans (spans : list (list pystr)) : pystr :=
  match spans with
  | [] => py "보합"
  | span_class :: rest =>
    if bool_decide (py "blind" ∈ span_class) then classify_spans rest
    else
      let span_class_str := join (py " ") span_class in
      if contains (py "red") span_class_str then py "상승"
      else if contains (py "nv") span_class_str
              || contains (py "blue") span_class_str then py "하락"
      else classify_spans rest
  end.

(** The text of the cell at [i]; the rows that are read have the cell. *)
Definition col_text (cols : list td) (i : nat) : pystr :=
  default [] (td_text <$> cols !! i).

(** The body of the [try] block for one row (lines 148-244). *)
Definition parse_row `{Runtime} (cols : list td) : stock_info :=
  let stock_link := cols !! 1%nat ≫= td_link in
  {| rank := clean_text (col_text cols 0);
     stock_name := match stock_link with
                   | Some (text, _) => clean_text text
                   | None => []
                   end;
     stock_code := listing_stock_code (stock_link ≫= snd);
     search_ratio := parse_number (col_text cols 2);
     current_price := parse_number (col_text cols 3);
     change_val := parse_number (col_text cols 4);
     change_rate := parse_number (col_text cols 5);
     change_type := classify_spans (default [] (td_spans <$> cols !! 4%nat));
     volume := parse_number (col_text cols 6);
     open_price := parse_number (col_text cols 7);
     high_price := parse_number (col_text cols 8);
     low_price := parse_number (col_text cols 9);
     per := parse_number (col_text cols 10);
     roe := if (11 <? length cols)%nat
            then parse_number (col_text cols 11) else None |}.

(** The three tests that make the loop pass over a row (lines 138-146). *)
Definition skipped (row : tr) : bool :=
  let cols := tr_cols row in
  bool_decide (cols = []) || bool_decide (tr_class row = Some [py "type1"])
  || (bool_decide (length cols = 1%nat)
      && default false (td_colspan <$> cols !! 0%nat))
  || (length cols <? 11)%nat.

(** The loop over the rows: [stocks_data]. *)
Definition parse_rows `{Runtime} (rows : list tr) : list stock_info :=
  flat_map (fun row => if skipped row then [] else [parse_row (tr_cols row)])
           rows.

(** [max(all_tables, key=lambda t: len(str(t)))]: the first of the largest. *)
Fixpoint largest (best : table) (ts : list table) : table :=
  match ts with
  | [] => best
  | t :: rest =>
    if (t_size best <? t_size t)%nat then largest t rest else largest best rest
  end.

(** The search for the data table (lines 97-117): by class, then by
    summary, then the largest table of the page. *)
Definition find_table (tables : list table) : option table :=
  match list_find (fun t => py "type_5" ∈ t_class t) tables with
  | Some (_, t) => Some t
  | None =>
    match list_find (fun t => t_summary t = Some (py "검색 상위 종목")) tables
    with
    | Some (_, t) => Some t
    | None =>
      match tables with
      | [] => None
      | t :: rest => Some (largest t rest)
      end
    end
  end.

(** [get_search_top_stocks]: the records with the time of collection, in
    the order of the frame returned.  [sort_values] stands for
    [df.sort_values(by, ascending, na_position='last')] followed by
    [reset_index]. *)
Definition get_search_top_stocks `{Runtime}
    (sort_values : pystr -> bool -> list stock_info -> list stock_info)
    (reply : response (list table)) (stamp : pystr)
    (sort : pystr) (ascending : bool) : list (stock_info * pystr) :=
  match reply with
  | Failed _ => []
  | Got tables =>
    match find_table tables with
    | None => []
    | Some t =>
      let rows := match t_tbody t with
                  | Some rows => rows
                  | None => t_rows t
                  end in
      let stocks_data := parse_rows rows in
      let df := if bool_decide (sort ∈ listing_columns)
                then sort_values sort ascending stocks_data
                else stocks_data in
      map (fun info => (info, stamp)) df
    end
  end.

(** The mask of [get_rising_stocks_only] on one record; [at_least] stands
    for the comparison of a rate that is a number with [min_change_rate].  A
    missing rate and NaN compare false. *)
Definition rising (at_least : pyfloat -> bool) (info : stock_info) : bool :=
  pystr_eqb (change_type info) (py "상승")
  && match change_rate info with
     | Some Fnan | None => false
     | Some v => at_least v
     end.

(** [get_rising_stocks_only]. *)
Definition get_rising_stocks_only `{Runtime}
    (sort_values : pystr -> bool -> list stock_info -> list stock_info)
    (at_least : pyfloat -> bool)
    (reply : response (list table)) (stamp : pystr)
  : list (stock_info * pystr) :=
  let df := get_search_top_stocks sort_values reply stamp
                                  (py "changeRate") false in
  List.filter (fun row => rising at_least row.1) df.

(** The keys that the docstring of [get_search_top_stocks] gives for
    [sort]. *)
Definition documented_sort_keys : list pystr :=
  map py ["changeRate"; "stockName"; "nowVal"; "changeVal"; "quant"; "amount"].

(** ** [naver_finance_reader.main] *)

(** The two flags that [main] derives from the answer typed in. *)
Definition enrichment_flags `{Runtime} (answer : pystr) : bool * bool :=
  let choice := if pystr_eqb (strip answer) [] then py "2" else strip answer in
  (bool_decide (choice ∈ [py "2"; py "3"]), pystr_eqb choice (py "3")).

(* ===================================================================== *)
(** * Vocabulary of the further statements *)
(* ===================================================================== *)

(** The names that [rename] gives to the provider columns, the names of the
    derived columns, and all the columns a mapped row can have. *)
Definition mapped_targets : list pystr := map (fun sd => py sd.2) columns_mapping.

Definition derived_targets : list pystr :=
  map (fun d => py d.1.2) derived_columns.

Definition output_columns : list pystr :=
  mapped_targets ++ derived_targets ++ [py "수집시간"].

(** What the mapper does to the cell of a provider column after renaming
    it to [dst]. *)
Definition finish `{Runtime} (dst : string) (v : value) : value :=
  if pystr_eqb (py dst) (py "종목코드") then VStr (py "A" ++ py_str v)
  else if bool_decide (py dst ∈ map py numeric_cols) then to_numeric v
  else v.

(** The pages that the first loop requests in turn. *)
Definition page_at `{Runtime} (p : provider) (page_size : nat) (j : nat)
  : list row :=
  fetch_page p page_size (j * page_size).

(** The first [n] pages of the listing. *)
Definition first_pages `{Runtime} (p : provider) (page_size : nat) (n : nat)
  : list (list row) :=
  map (page_at p page_size) (seq 0 n).

(** A news item whose date has eight characters or more and is rejected by
    [strptime]. *)
Definition unreadable `{Runtime} (it : item) : bool :=
  (8 <=? length (get it "datetime"))%nat
  && bool_decide (strptime_Ymd (take 8 (get it "datetime")) = None).



(** The longest text of column [c], header included. *)
Definition max_length (ws : sheet) (c : nat) : nat :=
  foldl (fun m v => Nat.max m (length (py_str v))) 0%nat (column_cells ws c).

(** The characters that [parse_number] removes, a text made of digits and
    of such characters, and the values of its digits in order. *)
Definition dropped : list N := [ch ","; ch "+"; ch "-"; ch "%"].

Definition digits_and_signs (text : pystr) : Prop :=
  Forall (fun c => is_ascii_digit c = true \/ c ∈ dropped) text.

Definition digits_of (text : pystr) : list N :=
  map (fun c => (c - 48)%N) (List.filter is_ascii_digit text).

(** The characters of a number as the listing prints it: the percent sign,
    the two signs, the comma, the point and the ten digits. *)
Definition printable (c : N) : Prop :=
  (c = 37 \/ c = 43 \/ c = 44 \/ c = 45 \/ c = 46 \/ 48 <= c <= 57)%N.

(* ===================================================================== *)
(** * Properties *)
(* ===================================================================== *)

(** ** The paginated collector *)

Section Collector.
Context `{Runtime}.
Variable p : provider.
Variables max_stocks page_size : nat.

Local Open Scope nat_scope.

Lemma ceil_div_covers : 0 < page_size ->
  max_stocks <= ceil_div max_stocks page_size * page_size.
Proof.
  intros Hp. unfold ceil_div.
  pose proof (Nat.div_mod_eq (max_stocks + page_size - 1) page_size) as E.
  pose proof (Nat.mod_upper_bound (max_stocks + page_size - 1) page_size).
  nia.
Qed.

(** One iteration, with the three ways of leaving the body spelled out. *)
Lemma base_loop_step fuel st :
  base_loop (S fuel) p max_stocks page_size st =
    if total_collected st <? max_stocks then
      let df := fetch_page p page_size (start_idx st) in
      if length df =? 0 then Some (count_fetch st)
      else if length df <? page_size
        then Some (append_page df (count_fetch st))
        else base_loop fuel p max_stocks page_size
               (advance page_size (append_page df (count_fetch st)))
    else Some st.
Proof.
  simpl. destruct (total_collected st <? max_stocks); [|done].
  by destruct (fetch_page p page_size (start_idx st)).
Qed.

Lemma loop_inv_init : loop_inv page_size loop_init.
Proof. by split. Qed.

Lemma base_loop_terminates fuel st :
  0 < page_size ->
  loop_inv page_size st ->
  ceil_div max_stocks page_size <= fetches st + fuel ->
  exists st',
    base_loop fuel p max_stocks page_size st = Some st'
    /\ total_collected st' = length (concat (all_data st'))
    /\ fetches st' <= Nat.max (fetches st) (ceil_div max_stocks page_size).
Proof.
  intros Hp. revert st. induction fuel as [|fuel IH]; intros st Hinv Hfuel.
  - pose proof ceil_div_covers Hp. destruct Hinv.
    simpl. destruct (Nat.ltb_spec (total_collected st) max_stocks); [nia|].
    exists st. repeat split; [done | lia].
  - pose proof ceil_div_covers Hp as Hc. destruct Hinv as [Ht Hf Hi].
    rewrite base_loop_step.
    destruct (Nat.ltb_spec (total_collected st) max_stocks) as [Hlt|Hge];
      [|exists st; repeat split; [done | lia]].
    assert (fetches st < ceil_div max_stocks page_size) by nia.
    cbv zeta.
    set (df := fetch_page p page_size (start_idx st)).
    destruct (Nat.eqb_spec (length df) 0) as [Hz|Hz].
    { eexists. split; [done|]. simpl. split; [done | lia]. }
    assert (Happ : total_collected (append_page df (count_fetch st)) =
                   length (concat (all_data (append_page df (count_fetch st))))).
    { simpl. rewrite concat_app, length_app. simpl. rewrite app_nil_r. lia. }
    destruct (Nat.ltb_spec (length df) page_size) as [Hs|Hfull].
    { eexists. split; [done|]. split; [done | simpl; lia]. }
    destruct (IH (advance page_size (append_page df (count_fetch st))))
      as (st' & Hrun & Htot & Hfet).
    + split; simpl in *; [done | nia | nia].
    + simpl. lia.
    + exists st'. split; [done|]. split; [done|]. simpl in Hfet. lia.
Qed.

(** The number of rows never exceeds the limit by a page or more, as long
    as no page is longer than what was asked for. *)
Lemma base_loop_bound fuel st st' :
  0 < page_size ->
  (forall i, length (fetch_page p page_size i) <= page_size) ->
  total_collected st <= max_stocks + page_size - 1 ->
  base_loop fuel p max_stocks page_size st = Some st' ->
  total_collected st' <= max_stocks + page_size - 1.
Proof.
  intros Hp Hpages. revert st. induction fuel as [|fuel IH]; intros st Hb.
  - simpl. destruct (total_collected st <? max_stocks); [done|].
    by intros [= <-].
  - rewrite base_loop_step.
    destruct (Nat.ltb_spec (total_collected st) max_stocks) as [Hlt|Hge];
      [|by intros [= <-]].
    cbv zeta. specialize (Hpages (start_idx st)).
    set (df := fetch_page p page_size (start_idx st)) in *.
    destruct (length df =? 0); [by intros [= <-]|].
    destruct (length df <? page_size).
    { intros [= <-]. simpl. lia. }
    apply IH. simpl. lia.
Qed.
End Collector.

(** C1 (as amended).  For every limit and page size above zero and every
    provider, the first loop of [collect_all_data] ends within
    [ceil(max_stocks / page_size) + 1] iterations; and when no page holds
    more records than the page size asked for, it returns at most
    [max_stocks + page_size - 1] rows. *)
Theorem collector_terminates_within_bound `{Runtime} (p : provider)
    (max_stocks page_size : nat) :
  (0 < max_stocks)%nat ->
  (0 < page_size)%nat ->
  exists st,
    base_loop (ceil_div max_stocks page_size + 1) p max_stocks page_size
              loop_init = Some st
    /\ (fetches st <= ceil_div max_stocks page_size + 1)%nat
    /\ ((forall i, (length (fetch_page p page_size i) <= page_size)%nat) ->
        (length (concat_pages st) <= max_stocks + page_size - 1)%nat).
Proof.
  intros _ Hp.
  destruct (base_loop_terminates p max_stocks page_size
              (ceil_div max_stocks page_size + 1) loop_init Hp
              (loop_inv_init page_size))
    as (st & Hrun & Htot & Hfet); [simpl; lia|].
  exists st. split; [done|]. split; [simpl in Hfet; lia|].
  intros Hpages. unfold concat_pages. rewrite <- Htot.
  eapply base_loop_bound; eauto. simpl. lia.
Qed.

Lemma collector_terminates_within_bound_witness :
  exists st,
    base_loop (H := reference_runtime) (ceil_div 1000 100 + 1)
              (paged_provider [100; 100; 37]%nat) 1000 100 loop_init = Some st
    /\ (fetches st <= ceil_div 1000 100 + 1)%nat
    /\ ((forall i,
           (length (fetch_page (H := reference_runtime)
                      (paged_provider [100; 100; 37]%nat) 100 i) <= 100)%nat) ->
        (length (concat_pages st) <= 1000 + 100 - 1)%nat).
Proof.
  apply (collector_terminates_within_bound
           (H := reference_runtime) (paged_provider [100; 100; 37]%nat)
           1000 100); lia.
Defined.

(** C1, as stated, fails when the provider answers with more records than
    the page size: with a limit of 1 and a first page of 101 records the
    collector returns 101 rows, more than 1 + 100 - 1. *)
Lemma collector_overfull_page :
  row_count (collect_all_data (H := reference_runtime) (ceil_div 1 100 + 1)
               (paged_provider [101%nat]) 1 false false) = Some 101%nat
  /\ (1 + 100 - 1 < 101)%nat.
Proof. split; [vm_compute; reflexivity | lia]. Qed.

Section Scenarios.
Context `{Runtime}.
Variable p : provider.
Variable max_stocks : nat.

Local Open Scope nat_scope.

Lemma ltb_true a b : a < b -> (a <? b) = true.
Proof. apply Nat.ltb_lt. Qed.

Lemma collect_base_only fuel st :
  base_loop fuel p max_stocks 100 loop_init = Some st ->
  collect_all_data fuel p max_stocks false false
    = Some (Ok (concat_pages st)).
Proof.
  intros Hrun. unfold collect_all_data, enrich_stages. rewrite Hrun. simpl.
  by destruct (concat_pages st).
Qed.

(** Pages of 100, 100 and 37 records. *)
Lemma three_pages fuel :
  3 <= fuel -> 200 < max_stocks ->
  length (fetch_page p 100 0) = 100 ->
  length (fetch_page p 100 100) = 100 ->
  length (fetch_page p 100 200) = 37 ->
  base_loop fuel p max_stocks 100 loop_init =
    Some (mkstate [fetch_page p 100 0; fetch_page p 100 100;
                   fetch_page p 100 200] 200 237 3).
Proof.
  intros Hfuel Hmax H0 H1 H2.
  destruct fuel as [|[|[|fuel]]]; try lia.
  rewrite base_loop_step. unfold loop_init.
  cbn [total_collected start_idx]. cbv zeta.
  rewrite (ltb_true 0 max_stocks) by lia. rewrite H0.
  change (100 =? 0) with false. change (100 <? 100) with false. cbv iota.
  rewrite base_loop_step.
  cbn [total_collected start_idx advance append_page count_fetch
       all_data fetches Nat.add].
  rewrite H0. change (0 + 100) with 100.
  rewrite (ltb_true 100 max_stocks) by lia. cbv zeta. rewrite H1.
  change (100 =? 0) with false. change (100 <? 100) with false. cbv iota.
  rewrite base_loop_step.
  cbn [total_collected start_idx advance append_page count_fetch
       all_data fetches Nat.add].
  rewrite H0, H1. change (0 + 100 + 100) with 200.
  change (100 + 100) with 200.
  rewrite (ltb_true 200 max_stocks) by lia. cbv zeta. rewrite H2.
  change (37 =? 0) with false. change (37 <? 100) with true. cbv iota.
  unfold append_page, count_fetch, advance. simpl. by rewrite H0, H1, H2.
Qed.

(** An empty answer to the second request. *)
Lemma empty_second_page fuel :
  2 <= fuel -> 0 < max_stocks ->
  fetch_page p 100 100 = [] ->
  exists st,
    base_loop fuel p max_stocks 100 loop_init = Some st
    /\ concat_pages st = fetch_page p 100 0
    /\ fetches st <= 2.
Proof.
  intros Hfuel Hmax H1.
  destruct fuel as [|[|fuel]]; try lia.
  rewrite base_loop_step. simpl total_collected. simpl start_idx.
  rewrite (ltb_true 0 max_stocks) by lia. cbv zeta.
  destruct (Nat.eqb_spec (length (fetch_page p 100 0)) 0) as [Hz|Hz].
  { eexists. split; [done|]. split; [|simpl; lia].
    apply length_zero_iff_nil in Hz. by rewrite Hz. }
  assert (Hcat : forall df : list row, concat ([] ++ [df]) = df)
    by (intros; simpl; apply app_nil_r).
  destruct (length (fetch_page p 100 0) <? 100).
  { eexists. split; [done|]. split; [apply Hcat | simpl; lia]. }
  rewrite base_loop_step. simpl total_collected. simpl start_idx.
  destruct (_ <? max_stocks).
  - cbv zeta. rewrite H1. simpl.
    eexists. split; [done|]. split; [apply Hcat | simpl; lia].
  - eexists. split; [done|]. split; [apply Hcat | simpl; lia].
Qed.
End Scenarios.

(** C4.  With pages of 100, 100 and 37 records and a limit that the first
    two pages do not reach, the collector makes exactly three requests and
    returns the 237 records of the three pages in order; and when the second
    request is answered by an empty page, it returns exactly the records of
    the first page. *)
Theorem collector_stops_on_short_or_empty_page `{Runtime} (p : provider)
    (max_stocks fuel : nat) :
  (3 <= fuel)%nat ->
  ((200 < max_stocks)%nat ->
   length (fetch_page p 100 0) = 100%nat ->
   length (fetch_page p 100 100) = 100%nat ->
   length (fetch_page p 100 200) = 37%nat ->
   exists st,
     base_loop fuel p max_stocks 100 loop_init = Some st
     /\ fetches st = 3%nat
     /\ concat_pages st =
          fetch_page p 100 0 ++ fetch_page p 100 100 ++ fetch_page p 100 200
     /\ length (concat_pages st) = 237%nat
     /\ collect_all_data fuel p max_stocks false false
          = Some (Ok (concat_pages st)))
  /\ ((0 < max_stocks)%nat ->
      fetch_page p 100 100 = [] ->
      exists st,
        base_loop fuel p max_stocks 100 loop_init = Some st
        /\ (fetches st <= 2)%nat
        /\ concat_pages st = fetch_page p 100 0
        /\ collect_all_data fuel p max_stocks false false
             = Some (Ok (fetch_page p 100 0))).
Proof.
  intros Hfuel. split.
  - intros Hmax H0 H1 H2.
    pose proof (three_pages p max_stocks fuel Hfuel Hmax H0 H1 H2) as Hrun.
    eexists. split; [exact Hrun|].
    assert (Hcat : concat_pages
                     (mkstate [fetch_page p 100 0; fetch_page p 100 100;
                               fetch_page p 100 200] 200 237 3)
                   = fetch_page p 100 0 ++ fetch_page p 100 100
                       ++ fetch_page p 100 200).
    { unfold concat_pages. simpl. by rewrite app_nil_r. }
    split; [done|]. split; [exact Hcat|]. split.
    + rewrite Hcat, !length_app, H0, H1, H2. reflexivity.
    + by apply collect_base_only.
  - intros Hmax H1.
    destruct (empty_second_page p max_stocks fuel) as (st & Hrun & Hcat & Hf);
      [lia | done | done |].
    exists st. split; [done|]. split; [done|]. split; [done|].
    rewrite <- Hcat. by apply collect_base_only.
Qed.

Lemma collector_stops_on_short_or_empty_page_witness :
  (exists st,
     base_loop (H := reference_runtime) 3 (paged_provider [100; 100; 37]%nat)
               1000 100 loop_init = Some st
     /\ fetches st = 3%nat
     /\ concat_pages st =
          fetch_page (H := reference_runtime)
                     (paged_provider [100; 100; 37]%nat) 100 0
          ++ fetch_page (H := reference_runtime)
                        (paged_provider [100; 100; 37]%nat) 100 100
          ++ fetch_page (H := reference_runtime)
                        (paged_provider [100; 100; 37]%nat) 100 200
     /\ length (concat_pages st) = 237%nat
     /\ collect_all_data (H := reference_runtime) 3
          (paged_provider [100; 100; 37]%nat) 1000 false false
          = Some (Ok (concat_pages st)))
  /\ (exists st,
        base_loop (H := reference_runtime) 3 (paged_provider [100%nat])
                  1000 100 loop_init = Some st
        /\ (fetches st <= 2)%nat
        /\ concat_pages st =
             fetch_page (H := reference_runtime) (paged_provider [100%nat])
                        100 0
        /\ collect_all_data (H := reference_runtime) 3
             (paged_provider [100%nat]) 1000 false false
             = Some (Ok (fetch_page (H := reference_runtime)
                           (paged_provider [100%nat]) 100 0))).
Proof.
  split.
  - apply (collector_stops_on_short_or_empty_page (H := reference_runtime)
             (paged_provider [100; 100; 37]%nat) 1000 3);
      [lia | lia | vm_compute; reflexivity ..].
  - apply (collector_stops_on_short_or_empty_page (H := reference_runtime)
             (paged_provider [100%nat]) 1000 3);
      [lia | lia | vm_compute; reflexivity].
Defined.

(** ** The field mapper *)

(** Distinct column names are told apart by evaluation. *)
Ltac key_ne :=
  let E := fresh "E" in intros E; vm_compute in E; discriminate E.

Lemma lookup_insert_if_ne {V} (c : bool) (i j : pystr) (x : V)
    (m : gmap pystr V) :
  i ≠ j -> (if c then <[i := x]> m else m) !! j = m !! j.
Proof. intros Hne. destruct c; [by apply lookup_insert_ne | done]. Qed.

(** Pass the writes to other columns. *)
Ltac skip_writes :=
  repeat first
    [ rewrite lookup_insert_ne by key_ne
    | rewrite lookup_alter_ne by key_ne
    | rewrite lookup_insert_if_ne by key_ne ].

Section Mapper.
Context `{Runtime}.
Variable data : list record.
Variable stamp : pystr.

Lemma derive_other (r : record) (src dst : string) (f : value -> value)
    (k : pystr) :
  py dst ≠ k -> derive data r (src, dst, f) !! k = r !! k.
Proof. intros Hne. unfold derive. by apply lookup_insert_if_ne. Qed.

Lemma derive_same (r : record) (src dst : string) (f : value -> value) :
  derive data r (src, dst, f) !! py dst =
    if has_column data (py src) then Some (f (cell r (py src)))
    else r !! py dst.
Proof.
  unfold derive. destruct (has_column data (py src)); [|done].
  apply lookup_insert_eq.
Qed.

(** The mapped provider columns leave every other key alone. *)
Lemma mapped_other (r : record) (l : list (string * string))
    (acc : row) (k : pystr) :
  Forall (fun sd => py sd.2 ≠ k) l ->
  foldl (fun acc '(src, dst) =>
           if has_column data (py src)
           then <[py dst := cell r (py src)]> acc else acc) acc l !! k
    = acc !! k.
Proof.
  intros Hl. revert acc.
  induction Hl as [|[src dst] l Hne _ IH]; intros acc; [done|].
  simpl. rewrite IH. by apply lookup_insert_if_ne.
Qed.

(** A mapped column that is written once. *)
Lemma mapped_once (r : record) (l1 l2 : list (string * string))
    (src dst : string) (acc : row) :
  Forall (fun sd => py sd.2 ≠ py dst) l1 ->
  Forall (fun sd => py sd.2 ≠ py dst) l2 ->
  foldl (fun acc '(src, dst) =>
           if has_column data (py src)
           then <[py dst := cell r (py src)]> acc else acc)
        acc (l1 ++ (src, dst) :: l2) !! py dst
    = if has_column data (py src) then Some (cell r (py src))
      else acc !! py dst.
Proof.
  intros H1 H2. rewrite foldl_app. cbn [foldl].
  rewrite mapped_other by done.
  destruct (has_column data (py src)).
  - apply lookup_insert_eq.
  - by apply mapped_other.
Qed.

Lemma numeric_other (l : list string) (acc : row) (k : pystr) :
  Forall (fun col => py col ≠ k) l ->
  foldl (fun acc col => alter to_numeric (py col) acc) acc l !! k = acc !! k.
Proof.
  intros Hl. revert acc.
  induction Hl as [|col l Hne _ IH]; intros acc; [done|].
  simpl. rewrite IH. by apply lookup_alter_ne.
Qed.
End Mapper.

(** Goals over the elements of a list given in full. *)
Ltac each_element :=
  repeat first [ apply Forall_nil_2 | apply Forall_cons_2 ].

(** A finite list of distinct column names is checked by evaluation. *)
Ltac keys_ne := each_element; key_ne.

Section MappedRow.
Context `{Runtime}.
Variable data : list record.
Variable stamp : pystr.
Variable r : record.

Ltac read_derived Hsrc :=
  unfold cell;
  repeat first [ rewrite derive_other by key_ne
               | rewrite derive_same, ?Hsrc; unfold cell ];
  reflexivity.

(** The value of a derived column in the mapped row. *)
Lemma map_record_derived :
  Forall (fun '(src, dst, f) =>
            map_record data stamp r !! py dst =
              if has_column data (py src) then Some (f (cell r (py src)))
              else if has_column data (py dst) then Some (cell r (py dst))
              else None)
         derived_columns.
Proof.
  unfold derived_columns at 1. each_element.
  all: unfold map_record.
  all: rewrite lookup_insert_ne by key_ne.
  all: rewrite lookup_alter_ne by key_ne.
  all: rewrite numeric_other by (unfold numeric_cols; keys_ne).
  all: unfold select_rename, derived_columns; cbn [foldl]; skip_writes.
  all: match goal with
       | |- context [has_column data (py ?s) || _] =>
         destruct (has_column data (py s)) eqn:Hsrc; cbn [orb]
       end.
  all: try (rewrite lookup_insert_eq; read_derived Hsrc).
  all: match goal with
       | |- context [if has_column data ?d then _ else _] =>
         destruct (has_column data d)
       end.
  all: try (rewrite lookup_insert_eq; read_derived Hsrc).
  all: skip_writes.
  all: rewrite mapped_other by (unfold columns_mapping; keys_ne).
  all: apply lookup_empty.
Qed.
End MappedRow.

(** C6 (as amended).  A code that is not a key of its table resolves to the
    empty string for the management-reason and market-alert columns, and to
    the missing-value marker NaN for the market-segment, status and
    change-classification columns; in no case does the mapper raise. *)
Theorem unknown_code_resolution `{Runtime} (data : list record)
    (stamp : pystr) (r : record) :
  (forall src dst table,
     (src, dst, table) ∈ get_resolved ->
     has_column data (py src) = true ->
     dict_get table (py_str (cell r (py src))) = None ->
     map_record data stamp r !! py dst = Some (VStr []))
  /\ (forall src dst table,
        (src, dst, table) ∈ map_resolved ->
        has_column data (py src) = true ->
        (forall s, cell r (py src) = VStr s -> dict_get table s = None) ->
        map_record data stamp r !! py dst = Some VNaN).
Proof.
  pose proof (map_record_derived data stamp r) as Hd.
  unfold derived_columns in Hd.
  repeat match goal with
         | Hf : Forall _ (_ :: _) |- _ =>
           apply Forall_cons in Hf; destruct Hf as [? Hf]
         end.
  split; intros src dst table Hin Hcol Hunk;
    unfold get_resolved, map_resolved in Hin;
    repeat match goal with
           | Hm : _ ∈ _ :: _ |- _ => apply elem_of_cons in Hm; destruct Hm as [Hm|Hm]
           | Hm : _ ∈ [] |- _ => by apply elem_of_nil in Hm
           | Hm : (_, _, _) = (_, _, _) |- _ => injection Hm as -> -> ->
           end;
    match goal with
    | Hv : map_record _ _ _ !! ?k = _ |- map_record _ _ _ !! ?k = _ =>
      rewrite Hv, Hcol
    end;
    f_equal; unfold series_map_get, series_map_dict.
  1, 2: destruct (notna _); [by rewrite Hunk | done].
  all: match goal with
       | |- context [cell ?r0 ?k] => destruct (cell r0 k) as [| |s|repr nz]
       end; try reflexivity.
  all: by rewrite (Hunk s eq_refl).
Qed.

Lemma unknown_code_resolution_witness :
  map_record (H := reference_runtime) [unknown_codes_record] []
             unknown_codes_record !! py "관리사유" = Some (VStr [])
  /\ map_record (H := reference_runtime) [unknown_codes_record] []
                unknown_codes_record !! py "시장구분" = Some VNaN.
Proof.
  destruct (unknown_code_resolution (H := reference_runtime)
              [unknown_codes_record] [] unknown_codes_record) as [Hget Hmap].
  split.
  - apply (Hget "managementReasonCode" "관리사유" management_reason_map);
      [apply elem_of_cons; by left | vm_compute; reflexivity
      | vm_compute; reflexivity].
  - apply (Hmap "sosok" "시장구분" sosok_map);
      [apply elem_of_cons; by left | vm_compute; reflexivity |].
    intros s Hs. vm_compute in Hs. injection Hs as <-.
    vm_compute. reflexivity.
Defined.

(** C6, as stated, fails for the three columns written with
    [series.map(table)]: the unknown segment code "7" gives NaN and not the
    empty string. *)
Lemma unknown_segment_code_is_nan :
  map (fun mapped : row => mapped !! py "시장구분")
      (get_rising_stocks (H := reference_runtime)
         (Got [unknown_codes_record]) [])
    = [Some VNaN]
  /\ VNaN ≠ VStr [].
Proof. split; [vm_compute; reflexivity | discriminate]. Qed.

(** ** The exchange code *)

Lemma columns_mapping_code :
  columns_mapping =
    take 1 columns_mapping ++ ("itemcode", "종목코드") :: drop 2 columns_mapping.
Proof. reflexivity. Qed.

Lemma map_record_code `{Runtime} (data : list record) (stamp : pystr)
    (r : record) :
  map_record data stamp r !! py "종목코드" =
    if has_column data (py "itemcode")
    then Some (VStr (py "A" ++ py_str (cell r (py "itemcode"))))
    else None.
Proof.
  unfold map_record.
  rewrite lookup_insert_ne by key_ne.
  rewrite lookup_alter_eq.
  rewrite numeric_other by (unfold numeric_cols; keys_ne).
  unfold select_rename, derived_columns. cbn [foldl]. skip_writes.
  rewrite columns_mapping_code.
  rewrite mapped_once by (unfold columns_mapping; cbn [take drop]; keys_ne).
  rewrite lookup_empty.
  destruct (has_column data (py "itemcode")); [|done].
  cbn [fmap option_fmap option_map]. unfold cell.
  repeat rewrite derive_other by key_ne. reflexivity.
Qed.

(** C8 (as amended).  The letter 'A' is put in front of every exchange code,
    whatever it starts with: the mapped code is 'A' followed by the text of
    the raw code, and the code of a listing row is 'A' followed by what the
    link carries after [code=]. *)
Theorem code_prefix_unconditional `{Runtime} (data : list record)
    (stamp : pystr) (r : record) (href : pystr) :
  (has_column data (py "itemcode") = true ->
   map_record data stamp r !! py "종목코드"
     = Some (VStr (py "A" ++ py_str (cell r (py "itemcode")))))
  /\ (contains (py "code=") href = true ->
      listing_stock_code (Some href)
        = py "A"
          ++ default []
               (py_split (py "&")
                  (default [] (py_split (py "code=") href !! 1%nat))
                !! 0%nat)).
Proof.
  split.
  - intros Hcol. by rewrite map_record_code, Hcol.
  - intros Hc. unfold listing_stock_code. rewrite Hc.
    destruct href; [done|]. reflexivity.
Qed.

Lemma code_prefix_unconditional_witness :
  map_record (H := reference_runtime) [sample_record "005930"] []
             (sample_record "005930") !! py "종목코드"
    = Some (VStr (py "A" ++ py_str (cell (sample_record "005930")
                                        (py "itemcode"))))
  /\ listing_stock_code (Some (py "/item/main.naver?code=005930&page=1"))
       = py "A"
         ++ default []
              (py_split (py "&")
                 (default []
                    (py_split (py "code=")
                       (py "/item/main.naver?code=005930&page=1") !! 1%nat))
               !! 0%nat).
Proof.
  destruct (code_prefix_unconditional (H := reference_runtime)
              [sample_record "005930"] [] (sample_record "005930")
              (py "/item/main.naver?code=005930&page=1")) as [Hmap Hhref].
  split; [apply Hmap | apply Hhref]; vm_compute; reflexivity.
Defined.

(** C8, as stated, fails on a code that already starts with 'A': the mapper
    and the listing variant both put a second 'A' in front. *)
Lemma code_prefix_doubled :
  map (fun mapped : row => mapped !! py "종목코드")
      (get_rising_stocks (H := reference_runtime)
         (Got [sample_record "A005930"]) [])
    = [Some (VStr (py "AA005930"))]
  /\ listing_stock_code (Some (py "/item/main.naver?code=A005930"))
       = py "AA005930".
Proof. split; vm_compute; reflexivity. Qed.

(** ** The numeric parser of the listing page *)

Section Sign.
Context `{Runtime}.

Lemma replace_char_drops (c : N) (s : pystr) : c ∉ replace_char c [] s.
Proof.
  induction s as [|a s IH]; simpl; [apply not_elem_of_nil|].
  destruct (N.eqb_spec a c); simpl; [done|].
  rewrite elem_of_cons. intros [->|?]; done.
Qed.

Lemma replace_char_keeps_out (x c : N) (s : pystr) :
  x ∉ s -> x ∉ replace_char c [] s.
Proof.
  induction s as [|a s IH]; simpl; [done|].
  rewrite not_elem_of_cons. intros [Hxa Hxs].
  destruct (a =? c)%N; simpl; [by apply IH|].
  rewrite not_elem_of_cons. split; [done | by apply IH].
Qed.

Lemma transform_keeps_out (s a : pystr) :
  minus ∉ s -> transform_decimal_and_space s = Some a -> minus ∉ a.
Proof.
  revert a. induction s as [|c s IH]; intros a; simpl.
  - intros _ [= <-]. apply not_elem_of_nil.
  - rewrite not_elem_of_cons. intros [Hc Hs].
    destruct (c <? 127)%N.
    + destruct (transform_decimal_and_space s) as [a'|]; [|done].
      intros [= <-]. rewrite not_elem_of_cons. split; [done | by apply IH].
    + destruct (isspace c).
      * destruct (transform_decimal_and_space s) as [a'|]; [|done].
        intros [= <-]. rewrite not_elem_of_cons.
        split; [by vm_compute | by apply IH].
      * destruct (decimal c) as [d|]; [|done].
        destruct (transform_decimal_and_space s) as [a'|]; [|done].
        intros [= <-]. rewrite not_elem_of_cons. split; [|by apply IH].
        unfold minus. change (ch "-") with 45%N. lia.
Qed.

Lemma strip_underscores_keeps_out (prev : N) (s u : pystr) :
  minus ∉ s -> strip_underscores prev s = Some u -> minus ∉ u.
Proof.
  revert prev u. induction s as [|c s IH]; intros prev u; simpl.
  - destruct (prev =? ch "_")%N; [done|].
    intros _ [= <-]. apply not_elem_of_nil.
  - rewrite not_elem_of_cons. intros [Hc Hs].
    destruct (c =? ch "_")%N.
    + destruct (is_ascii_digit prev); [by apply IH | done].
    + destruct ((prev =? ch "_")%N && negb (is_ascii_digit c)); [done|].
      destruct (strip_underscores c s) as [u'|] eqn:Hu; [|done].
      intros [= <-]. rewrite not_elem_of_cons. split; [done|].
      by eapply IH.
Qed.

Lemma elem_of_rev (x : N) (s : pystr) : x ∈ rev s <-> x ∈ s.
Proof. rewrite !list_elem_of_In. symmetry. apply in_rev. Qed.

Lemma c_lstrip_keeps_out (x : N) (s : pystr) : x ∉ s -> x ∉ c_lstrip s.
Proof.
  induction s as [|c s IH]; simpl; [done|].
  destruct (c_isspace c); [|done].
  rewrite not_elem_of_cons. intros [_ ?]. by apply IH.
Qed.

Lemma take_sign_positive (s : pystr) :
  minus ∉ s -> (take_sign s).1 = false.
Proof.
  destruct s as [|c s]; simpl; [done|].
  rewrite not_elem_of_cons. intros [Hc _].
  destruct (N.eqb_spec c (ch "-")); [done|].
  by destruct (c =? ch "+")%N.
Qed.

(** Without a minus sign in the text, the float read is not negative. *)
Lemma parse_strtod_sign (s : pystr) (v : pyfloat) :
  minus ∉ s -> parse_strtod s = Some v -> v = Fnan \/ nonnegative v.
Proof.
  intros Hs. pose proof (take_sign_positive s Hs) as Hsign.
  unfold parse_strtod, parse_inf_or_nan.
  destruct (take_sign s) as [neg s1]. simpl in Hsign. subst neg.
  destruct (span_digits s1) as [ip s2].
  destruct (match s2 with
            | [] => ([], [])
            | c :: r => if (c =? ch ".")%N then span_digits r else ([], s2)
            end) as [fp s3].
  destruct (ip ++ fp).
  - destruct (_ || _); [intros [= <-]; by right|].
    destruct (pystr_eqb _ _); [intros [= <-]; by left | done].
  - destruct (take_exponent s3) as [e [|]]; [|done].
    intros [= <-]. by right.
Qed.

Lemma py_float_sign (s : pystr) (v : pyfloat) :
  minus ∉ s -> py_float s = Some v -> v = Fnan \/ nonnegative v.
Proof.
  intros Hs. unfold py_float.
  destruct (transform_decimal_and_space s) as [a|] eqn:Ha; [|done].
  simpl. destruct (strip_underscores 0 a) as [u|] eqn:Hu; [|done].
  simpl. apply parse_strtod_sign.
  rewrite elem_of_rev. apply c_lstrip_keeps_out.
  rewrite elem_of_rev. apply c_lstrip_keeps_out.
  eapply strip_underscores_keeps_out; [|exact Hu].
  by eapply transform_keeps_out.
Qed.
End Sign.

(** C9 (as amended).  [parse_number] returns the missing marker, NaN, or a
    number that is not below zero: every '+', '-' and '%' is removed before
    the conversion, so that the sign of a falling stock's change value and
    change rate is lost and only the magnitude is read. *)
Theorem parse_number_discards_sign `{Runtime} (text : pystr) :
  (parse_number text = None
   \/ parse_number text = Some Fnan
   \/ exists v, parse_number text = Some v /\ nonnegative v)
  /\ parse_number (py "-1,250") = Some (Fdec false 1250 0)
  /\ parse_number (py "-3.52%") = Some (Fdec false 352 (-2)).
Proof.
  split; [|split; vm_compute; reflexivity].
  unfold parse_number.
  destruct (_ || _); [by left|].
  match goal with |- context [py_float ?s] => set (cleaned := s) end.
  destruct (py_float cleaned) as [v|] eqn:Hv; [|by left].
  destruct (py_float_sign cleaned v) as [->|Hnn]; [|done| |].
  - apply replace_char_keeps_out, replace_char_drops.
  - right. by left.
  - right. right. by exists v.
Qed.

(** C9, as stated, fails on the text "nan": the value returned is NaN, which
    is neither the missing marker nor a number at or above zero. *)
Lemma parse_number_nan :
  parse_number (H := reference_runtime) (py "nan") = Some Fnan
  /\ ~ nonnegative Fnan.
Proof. split; [vm_compute; reflexivity | intros []]. Qed.

(** ** The slots of stage 3 *)

(** Two slot columns of one facet differ as soon as their numbers or their
    suffixes do. *)
Ltac slot_ne :=
  let E := fresh "E" in
  intros E; unfold slot_column in E; apply app_inv_head in E;
  vm_compute in E; discriminate E.

Ltac other_column := first [ key_ne | slot_ne ].

Section Slots.
Variable prefix : string.
Variable with_link : bool.
Variable found : list entry.

Local Open Scope nat_scope.

(** The three assignments of one slot. *)
Lemma write_slot_eq (r : row) (i : nat) :
  write_slot prefix with_link found r i =
    let r1 :=
      <[slot_column prefix i "_일자" := VStr (slot_date found i)]>
        (<[slot_column prefix i "" := VStr (slot_title found i)]> r) in
    if with_link
    then <[slot_column prefix i "_링크" := VStr (slot_link found i)]> r1
    else r1.
Proof.
  unfold write_slot, slot_title, slot_date, slot_link.
  by destruct (found !! i).
Qed.

Lemma write_slot_frame (r : row) (i : nat) (k : pystr) :
  slot_column prefix i "" ≠ k ->
  slot_column prefix i "_일자" ≠ k ->
  (with_link = true -> slot_column prefix i "_링크" ≠ k) ->
  write_slot prefix with_link found r i !! k = r !! k.
Proof.
  intros Ht Hd Hl. rewrite write_slot_eq. cbv zeta.
  destruct with_link.
  - rewrite !lookup_insert_ne; auto.
  - rewrite !lookup_insert_ne; auto.
Qed.

(** A column that is not among those of the facet keeps its cell. *)
Lemma write_slots_frame (r : row) (k : pystr) :
  k ∉ slot_columns prefix with_link ->
  write_slots prefix with_link found r !! k = r !! k.
Proof.
  intros Hk. unfold write_slots. cbn [foldl].
  assert (Hin : forall i sfx,
             slot_column prefix i sfx ∈ slot_columns prefix with_link ->
             slot_column prefix i sfx ≠ k)
    by (intros i sfx Hi E; apply Hk; by rewrite <- E).
  unfold slot_columns in Hin. cbn [flat_map] in Hin.
  rewrite !write_slot_frame; [done|..];
    lazymatch goal with
    | |- _ = true -> _ =>
      let Hw := fresh "Hw" in intros Hw; rewrite Hw in Hin
    | |- _ => idtac
    end;
    apply Hin; rewrite ?elem_of_app, ?elem_of_cons; tauto.
Qed.

(** Equal cells stay equal under the writes of the facet. *)
Lemma write_slot_congr (r r' : row) (i : nat) (k : pystr) :
  r !! k = r' !! k ->
  write_slot prefix with_link found r i !! k
    = write_slot prefix with_link found r' i !! k.
Proof.
  intros Hk. rewrite !write_slot_eq. cbv zeta.
  destruct with_link; rewrite !lookup_insert; repeat case_decide; done.
Qed.

Lemma write_slots_congr (r r' : row) (k : pystr) :
  r !! k = r' !! k ->
  write_slots prefix with_link found r !! k
    = write_slots prefix with_link found r' !! k.
Proof.
  intros Hk. unfold write_slots. cbn [foldl].
  by do 3 apply write_slot_congr.
Qed.

(** What the cells of slot [i] hold after the loop. *)
Lemma write_slots_cells (r : row) (i : nat) :
  i < 3 ->
  let r' := write_slots prefix with_link found r in
  r' !! slot_column prefix i "" = Some (VStr (slot_title found i))
  /\ r' !! slot_column prefix i "_일자" = Some (VStr (slot_date found i))
  /\ (with_link = true ->
      r' !! slot_column prefix i "_링크" = Some (VStr (slot_link found i))).
Proof.
  intros Hi. cbv zeta. unfold write_slots. cbn [foldl].
  rewrite !write_slot_eq. cbv zeta.
  destruct i as [|[|[|i]]]; [| | |lia];
    (destruct with_link; repeat split; try discriminate; try intros _;
     repeat first [ apply lookup_insert_eq
                  | rewrite lookup_insert_ne by slot_ne ]).
Qed.
End Slots.

(** Membership of a given column in a list given in full. *)
Ltac not_in :=
  lazymatch goal with
  | |- ?x ∉ ?l =>
    apply (bool_decide_eq_false_1 (x ∈ l)); vm_compute; reflexivity
  end.

Section Enrichment.
Context `{Runtime}.

Local Open Scope nat_scope.

Lemma has_code_row_code (r : row) :
  has_code r -> r !! py "종목코드" = Some (VStr (row_code r)).
Proof. intros [code Hc]. unfold row_code. by rewrite Hc. Qed.

Lemma row_text_code (r : row) :
  has_code r -> row_text r "종목코드" = Ok (row_code r).
Proof.
  intros Hc. unfold row_text. by rewrite (has_code_row_code r Hc).
Qed.

Lemma detail_row_ok (p : provider) (idx : nat) (r : row) :
  has_code r -> detail_row p idx r = Ok (with_detail p idx r).
Proof. intros Hc. unfold detail_row. by rewrite row_text_code. Qed.

Lemma facets_row_ok (p : provider) (idx : nat) (r : row) :
  has_code r -> facets_row p idx r = Ok (with_facets p idx r).
Proof. intros Hc. unfold facets_row. by rewrite row_text_code. Qed.

Lemma with_detail_code (p : provider) (idx : nat) (r : row) :
  has_code r ->
  has_code (with_detail p idx r)
  /\ row_code (with_detail p idx r) = row_code r.
Proof.
  intros Hc. pose proof (has_code_row_code r Hc) as Hr.
  assert (Hl : with_detail p idx r !! py "종목코드" = Some (VStr (row_code r))).
  { unfold with_detail. by rewrite !lookup_insert_ne by key_ne. }
  split; [by eexists|]. unfold row_code at 1. by rewrite Hl.
Qed.

(** A loop whose body succeeds on every row is a map over the rows. *)
Lemma for_rows_total (body : nat -> row -> result row)
    (g : nat -> row -> row) (rows : list row) (idx : nat) :
  (forall j r, rows !! j = Some r -> body (idx + j) r = Ok (g (idx + j) r)) ->
  for_rows body idx rows = Ok (imap (fun j => g (idx + j)) rows).
Proof.
  revert idx. induction rows as [|r rows IH]; intros idx Hb; [done|].
  simpl. rewrite <- (Nat.add_0_r idx) at 1.
  rewrite (Hb 0 r eq_refl). simpl.
  rewrite (IH (S idx)).
  - simpl. do 2 f_equal. apply imap_ext. intros j x _. simpl.
    f_equal. lia.
  - intros j x Hx. replace (S idx + j) with (idx + S j) by lia.
    by apply Hb.
Qed.

(** Both enrichment stages on rows that carry their code. *)
Lemma enrich_stages_total (p : provider) (rows : list row) :
  Forall has_code rows ->
  enrich_stages p true true rows =
    Ok (imap (with_facets p) (imap (with_detail p) rows)).
Proof.
  intros Hrows. unfold enrich_stages, enrich_details, enrich_facets.
  rewrite (for_rows_total (detail_row p) (with_detail p)).
  - simpl. apply (for_rows_total (facets_row p) (with_facets p)).
    intros j r' Hj. rewrite list_lookup_imap in Hj.
    destruct (rows !! j) as [r|] eqn:Hr; [|done]. injection Hj as <-.
    apply facets_row_ok, with_detail_code.
    eapply Forall_lookup_1; eauto.
  - intros j r Hr. apply detail_row_ok. eapply Forall_lookup_1; eauto.
Qed.

(** *** A failing fetch *)

Variable p : provider.
Variable f : facet.
Variable i : nat.
Variable e : exn.

Lemma detail_fail (j : nat) (r : row) :
  with_detail (fail_at f i e p) j r =
    if bool_decide (f = Profile /\ j = i)
    then <[py "종목설명" := VStr []]> (<[py "업종" := VStr []]> r)
    else with_detail p j r.
Proof.
  unfold with_detail, get_stock_detail, fail_at. cbn [detail_reply].
  by case_bool_decide.
Qed.

Lemma found_news_fail (j : nat) (code : pystr) :
  found_news (fail_at f i e p) j code =
    if bool_decide (f = News /\ j = i) then [] else found_news p j code.
Proof.
  unfold found_news, get_recent_news, fail_at. cbn [news_reply clock].
  by case_bool_decide.
Qed.

Lemma found_notices_fail (j : nat) (code : pystr) :
  found_notices (fail_at f i e p) j code =
    if bool_decide (f = Filing /\ j = i) then [] else found_notices p j code.
Proof.
  unfold found_notices, get_recent_notices, fail_at.
  cbn [notice_reply clock]. by case_bool_decide.
Qed.

Lemma found_ir_fail (j : nat) (code : pystr) :
  found_ir (fail_at f i e p) j code =
    if bool_decide (f = IR /\ j = i) then [] else found_ir p j code.
Proof.
  unfold found_ir, get_recent_ir, fail_at. cbn [ir_reply clock].
  by case_bool_decide.
Qed.

(** Decide each test "this is the failing fetch". *)
Ltac no_failure :=
  repeat
    (let Hd := fresh "Hd" in
     case_bool_decide as Hd;
     [ try (destruct Hd as [? ?]; first [ discriminate | contradiction ])
     | try (exfalso; apply Hd; split; reflexivity) ]).

(** The rows of other indices are enriched as without the failure. *)
Lemma other_row_unchanged (j : nat) (r : row) :
  j ≠ i ->
  with_facets (fail_at f i e p) j (with_detail (fail_at f i e p) j r)
    = with_facets p j (with_detail p j r).
Proof.
  intros Hj. rewrite detail_fail. unfold with_facets.
  rewrite found_news_fail, found_notices_fail, found_ir_fail.
  by no_failure.
Qed.

(** The row of the failing fetch: the columns of the facet are empty, the
    others are as without the failure. *)
Lemma failed_row (r : row) :
  has_code r ->
  let r0 := with_facets p i (with_detail p i r) in
  let r1 := with_facets (fail_at f i e p) i (with_detail (fail_at f i e p) i r) in
  (forall c, c ∈ facet_columns f -> r1 !! c = Some (VStr []))
  /\ (forall c, c ∉ facet_columns f -> r1 !! c = r0 !! c).
Proof.
  intros Hc. cbv zeta.
  pose proof (with_detail_code p i r Hc) as [_ Hcode].
  assert (Hcode' : row_code (<[py "종목설명" := VStr []]>
                                (<[py "업종" := VStr []]> r)) = row_code r).
  { unfold row_code. by rewrite !lookup_insert_ne by key_ne. }
  rewrite detail_fail. unfold with_facets.
  rewrite found_news_fail, found_notices_fail, found_ir_fail.
  destruct f; no_failure;
    rewrite ?Hcode, ?Hcode'; split; intros c Hin.
  - (* profile *)
    rewrite !write_slots_frame.
    + cbn [facet_columns] in Hin.
      apply elem_of_cons in Hin as [->|Hin];
        [by rewrite lookup_insert_ne by key_ne; rewrite lookup_insert_eq|].
      apply elem_of_cons in Hin as [->|Hin]; [apply lookup_insert_eq|].
      by apply elem_of_nil in Hin.
    + cbn [facet_columns] in Hin.
      repeat (apply elem_of_cons in Hin as [->|Hin]; [not_in|]).
      by apply elem_of_nil in Hin.
    + cbn [facet_columns] in Hin.
      repeat (apply elem_of_cons in Hin as [->|Hin]; [not_in|]).
      by apply elem_of_nil in Hin.
    + cbn [facet_columns] in Hin.
      repeat (apply elem_of_cons in Hin as [->|Hin]; [not_in|]).
      by apply elem_of_nil in Hin.
  - do 3 apply write_slots_congr. unfold with_detail.
    cbn [facet_columns] in Hin.
    rewrite !not_elem_of_cons in Hin. destruct Hin as (? & ? & _).
    by rewrite !lookup_insert_ne.
  - (* news *)
    cbn [facet_columns] in Hin. unfold slot_columns in Hin.
    cbn [flat_map app] in Hin.
    repeat (apply elem_of_cons in Hin as [->|Hin];
            [ rewrite !write_slots_frame by not_in;
              first [ apply (write_slots_cells "뉴스" true [] _ 0); lia
                    | apply (write_slots_cells "뉴스" true [] _ 1); lia
                    | apply (write_slots_cells "뉴스" true [] _ 2); lia ] |]).
    by apply elem_of_nil in Hin.
  - do 2 apply write_slots_congr. by rewrite !(write_slots_frame "뉴스").
  - (* filing *)
    cbn [facet_columns] in Hin. unfold slot_columns in Hin.
    cbn [flat_map app] in Hin.
    repeat (apply elem_of_cons in Hin as [->|Hin];
            [ rewrite !(write_slots_frame "IR") by not_in;
              first [ apply (write_slots_cells "공시" true [] _ 0); lia
                    | apply (write_slots_cells "공시" true [] _ 1); lia
                    | apply (write_slots_cells "공시" true [] _ 2); lia ] |]).
    by apply elem_of_nil in Hin.
  - apply write_slots_congr. by rewrite !(write_slots_frame "공시").
  - (* IR *)
    cbn [facet_columns] in Hin. unfold slot_columns in Hin.
    cbn [flat_map app] in Hin.
    repeat (apply elem_of_cons in Hin as [->|Hin];
            [ first [ apply (write_slots_cells "IR" false [] _ 0); lia
                    | apply (write_slots_cells "IR" false [] _ 1); lia
                    | apply (write_slots_cells "IR" false [] _ 2); lia ] |]).
    by apply elem_of_nil in Hin.
  - by rewrite !(write_slots_frame "IR").
Qed.
End Enrichment.

(** The rows that [get_rising_stocks] makes of records with an [itemcode]
    column carry their code. *)
Lemma mapped_rows_have_code `{Runtime} (data : list record) (stamp : pystr) :
  has_column data (py "itemcode") = true ->
  Forall has_code (get_rising_stocks (Got data) stamp).
Proof.
  intros Hcol. unfold get_rising_stocks. apply Forall_fmap, Forall_forall.
  intros r _. simpl. eexists. by rewrite map_record_code, Hcol.
Qed.

(** C5.  A fetch that fails for one facet of the row of index [i] leaves
    the run complete: both enrichment stages still return a table of the
    same length, every other row is what it is without the failure, and in
    row [i] the columns of the failed facet hold empty strings while all
    other columns, those of the other facets included, are what they are
    without the failure.  For the profile the columns are the sector and the
    description. *)
Theorem facet_failure_is_isolated `{Runtime} (p : provider)
    (rows : list row) (f : facet) (i : nat) (e : exn) :
  Forall has_code rows ->
  exists t0 t1,
    enrich_stages p true true rows = Ok t0
    /\ enrich_stages (fail_at f i e p) true true rows = Ok t1
    /\ length t1 = length rows
    /\ (forall j, j ≠ i -> t1 !! j = t0 !! j)
    /\ (forall r0 r1, t0 !! i = Some r0 -> t1 !! i = Some r1 ->
        (forall c, c ∈ facet_columns f -> r1 !! c = Some (VStr []))
        /\ (forall c, c ∉ facet_columns f -> r1 !! c = r0 !! c)).
Proof.
  intros Hrows.
  exists (imap (with_facets p) (imap (with_detail p) rows)),
         (imap (with_facets (fail_at f i e p))
               (imap (with_detail (fail_at f i e p)) rows)).
  split; [by apply enrich_stages_total|].
  split; [by apply enrich_stages_total|].
  split; [by rewrite !length_imap|].
  split.
  - intros j Hj. rewrite !list_lookup_imap.
    destruct (rows !! j) as [r|]; [|done]. simpl.
    by rewrite other_row_unchanged.
  - intros r0 r1. rewrite !list_lookup_imap.
    destruct (rows !! i) as [r|] eqn:Hr; [|done]. simpl.
    intros [= <-] [= <-].
    apply failed_row. eapply Forall_lookup_1; eauto.
Qed.

Lemma facet_failure_is_isolated_witness :
  exists t0 t1,
    enrich_stages (H := reference_runtime) sample_provider true true
                  [sample_row; sample_row] = Ok t0
    /\ enrich_stages (H := reference_runtime)
         (fail_at Profile 0 RequestException sample_provider) true true
         [sample_row; sample_row] = Ok t1
    /\ length t1 = length [sample_row; sample_row]
    /\ (forall j, j ≠ 0%nat -> t1 !! j = t0 !! j)
    /\ (forall r0 r1, t0 !! 0%nat = Some r0 -> t1 !! 0%nat = Some r1 ->
        (forall c, c ∈ facet_columns Profile -> r1 !! c = Some (VStr []))
        /\ (forall c, c ∉ facet_columns Profile -> r1 !! c = r0 !! c)).
Proof.
  apply (facet_failure_is_isolated (H := reference_runtime) sample_provider
           [sample_row; sample_row] Profile 0 RequestException).
  repeat apply Forall_cons_2; try apply Forall_nil_2;
    exists (py "A005930"); vm_compute; reflexivity.
Defined.

(** ** The slots of a record *)

Lemma empty_slot (found : list entry) (i : nat) :
  (length found <= i)%nat ->
  slot_title found i = [] /\ slot_date found i = [] /\ slot_link found i = [].
Proof.
  intros Hi. unfold slot_title, slot_date, slot_link.
  by rewrite (lookup_ge_None_2 found i Hi).
Qed.

Lemma facets_row_frame `{Runtime} (p : provider) (idx : nat) (r : row)
    (k : pystr) :
  k ∉ written_columns -> with_facets p idx r !! k = r !! k.
Proof.
  unfold written_columns. rewrite !not_elem_of_app. intros (Hn & Hf & Hi).
  unfold with_facets.
  by rewrite (write_slots_frame "IR"), (write_slots_frame "공시"),
       (write_slots_frame "뉴스").
Qed.

(** The cells of slot [i] of the three facets after stage 3. *)
Lemma facets_row_cells `{Runtime} (p : provider) (idx : nat) (r : row)
    (i : nat) :
  (i < 3)%nat ->
  let r' := with_facets p idx r in
  let news := found_news p idx (row_code r) in
  let notices := found_notices p idx (row_code r) in
  let ir_list := found_ir p idx (row_code r) in
  (r' !! slot_column "뉴스" i "" = Some (VStr (slot_title news i))
   /\ r' !! slot_column "뉴스" i "_일자" = Some (VStr (slot_date news i))
   /\ r' !! slot_column "뉴스" i "_링크" = Some (VStr (slot_link news i)))
  /\ (r' !! slot_column "공시" i "" = Some (VStr (slot_title notices i))
      /\ r' !! slot_column "공시" i "_일자" = Some (VStr (slot_date notices i))
      /\ r' !! slot_column "공시" i "_링크" = Some (VStr (slot_link notices i)))
  /\ (r' !! slot_column "IR" i "" = Some (VStr (slot_title ir_list i))
      /\ r' !! slot_column "IR" i "_일자" = Some (VStr (slot_date ir_list i))).
Proof.
  intros Hi. cbv zeta. unfold with_facets.
  set (news := found_news p idx (row_code r)).
  set (notices := found_notices p idx (row_code r)).
  set (ir_list := found_ir p idx (row_code r)).
  pose proof (write_slots_cells "뉴스" true news r i Hi) as (Hn1 & Hn2 & Hn3).
  pose proof (write_slots_cells "공시" true notices
                (write_slots "뉴스" true news r) i Hi) as (Hf1 & Hf2 & Hf3).
  pose proof (write_slots_cells "IR" false ir_list
                (write_slots "공시" true notices
                   (write_slots "뉴스" true news r)) i Hi) as (Hi1 & Hi2 & _).
  cbv zeta in *.
  destruct i as [|[|[|i]]]; [| | |lia];
    (repeat split;
     rewrite ?(write_slots_frame "IR") by not_in;
     rewrite ?(write_slots_frame "공시") by not_in;
     auto).
Qed.

(** C2 (as amended).  After stage 3 every record has exactly three news
    slots and three filing slots, each a title, a date and a link, and three
    IR slots, each a title and a date only: the cells hold what the fetch
    found for the slot, and empty strings where it found nothing, however
    many items it found.  No other column is written; in particular the
    record gets no IR link column. *)
Theorem three_slots_per_facet `{Runtime} (p : provider) (idx : nat)
    (r : row) :
  has_code r ->
  exists r',
    facets_row p idx r = Ok r'
    /\ (forall i, (i < 3)%nat ->
        let news := found_news p idx (row_code r) in
        let notices := found_notices p idx (row_code r) in
        let ir_list := found_ir p idx (row_code r) in
        (r' !! slot_column "뉴스" i "" = Some (VStr (slot_title news i))
         /\ r' !! slot_column "뉴스" i "_일자" = Some (VStr (slot_date news i))
         /\ r' !! slot_column "뉴스" i "_링크" = Some (VStr (slot_link news i)))
        /\ (r' !! slot_column "공시" i "" = Some (VStr (slot_title notices i))
            /\ r' !! slot_column "공시" i "_일자"
                 = Some (VStr (slot_date notices i))
            /\ r' !! slot_column "공시" i "_링크"
                 = Some (VStr (slot_link notices i)))
        /\ (r' !! slot_column "IR" i "" = Some (VStr (slot_title ir_list i))
            /\ r' !! slot_column "IR" i "_일자"
                 = Some (VStr (slot_date ir_list i)))
        /\ r' !! slot_column "IR" i "_링크" = r !! slot_column "IR" i "_링크")
    /\ (forall found i, (length found <= i)%nat ->
        slot_title found i = [] /\ slot_date found i = []
        /\ slot_link found i = [])
    /\ (forall k, k ∉ written_columns -> r' !! k = r !! k).
Proof.
  intros Hc. exists (with_facets p idx r).
  split; [by apply facets_row_ok|].
  split; [|split; [apply empty_slot | apply facets_row_frame]].
  intros i Hi. cbv zeta.
  pose proof (facets_row_cells p idx r i Hi) as (Hn & Hf & Hir).
  cbv zeta in *. repeat split; try tauto.
  apply facets_row_frame.
  destruct i as [|[|[|i]]]; [not_in | not_in | not_in | lia].
Qed.

Lemma three_slots_per_facet_witness :
  exists r',
    facets_row (H := reference_runtime) sample_provider 0 sample_row = Ok r'
    /\ (forall i, (i < 3)%nat ->
        let news := found_news (H := reference_runtime) sample_provider 0
                               (row_code sample_row) in
        let notices := found_notices (H := reference_runtime) sample_provider 0
                                     (row_code sample_row) in
        let ir_list := found_ir (H := reference_runtime) sample_provider 0
                                (row_code sample_row) in
        (r' !! slot_column "뉴스" i "" = Some (VStr (slot_title news i))
         /\ r' !! slot_column "뉴스" i "_일자" = Some (VStr (slot_date news i))
         /\ r' !! slot_column "뉴스" i "_링크" = Some (VStr (slot_link news i)))
        /\ (r' !! slot_column "공시" i "" = Some (VStr (slot_title notices i))
            /\ r' !! slot_column "공시" i "_일자"
                 = Some (VStr (slot_date notices i))
            /\ r' !! slot_column "공시" i "_링크"
                 = Some (VStr (slot_link notices i)))
        /\ (r' !! slot_column "IR" i "" = Some (VStr (slot_title ir_list i))
            /\ r' !! slot_column "IR" i "_일자"
                 = Some (VStr (slot_date ir_list i)))
        /\ r' !! slot_column "IR" i "_링크"
             = sample_row !! slot_column "IR" i "_링크")
    /\ (forall found i, (length found <= i)%nat ->
        slot_title found i = [] /\ slot_date found i = []
        /\ slot_link found i = [])
    /\ (forall k, k ∉ written_columns -> r' !! k = sample_row !! k).
Proof.
  apply (three_slots_per_facet (H := reference_runtime) sample_provider 0
           sample_row).
  exists (py "A005930"). vm_compute. reflexivity.
Defined.

(** C2, as stated, fails for the IR slots: a record with an IR notice gets
    its title and its date, and no link cell. *)
Lemma ir_slot_has_no_link :
  match facets_row (H := reference_runtime) sample_provider 0 sample_row with
  | Ok r' =>
    r' !! py "IR1" = Some (VStr (py "기업설명회 개최"))
    /\ r' !! py "IR1_일자" = Some (VStr (py "2024-02-15"))
    /\ r' !! py "IR1_링크" = None
  | Raise _ => False
  end.
Proof. vm_compute. repeat split; reflexivity. Qed.

(** ** Titles *)

Lemma accept_loop_all (P : entry -> Prop) (accept : item -> option entry)
    (max : nat) (its : list item) (acc : list entry) :
  (forall it e, accept it = Some e -> P e) ->
  Forall P acc -> Forall P (accept_loop accept max its acc).
Proof.
  intros Ha. revert acc. induction its as [|it its IH]; intros acc Hacc;
    [done|].
  simpl. destruct (accept it) as [e|] eqn:He; [|by apply IH].
  assert (Forall P (acc ++ [e])).
  { apply Forall_app. split; [done|]. apply Forall_singleton. eauto. }
  destruct (_ <=? _)%nat; [done | by apply IH].
Qed.

(** The entries of [get_recent_ir] carry no link. *)
Lemma ir_entries_without_link `{Runtime} (p : provider) (idx : nat)
    (code : pystr) :
  Forall (fun e => link e = []) (found_ir p idx code).
Proof.
  unfold found_ir, get_recent_ir.
  destruct (ir_reply p idx _) as [|[|its]]; try apply Forall_nil_2.
  apply accept_loop_all; [|apply Forall_nil_2].
  intros it e. unfold ir_accept.
  destruct (_ <=? _)%nat; [|done].
  destruct (strptime_Ymd _); [|done].
  destruct (dt_geb _ _); [|done].
  by intros [= <-].
Qed.

(** C10.  The title written for a filled slot is the first 50 characters of
    the title that the fetch returned, so a longer title is cut and a title
    of at most 50 characters is kept whole; the date is written as returned,
    and so is the link of a news item or a filing.  An IR entry has the
    empty link and its slot has no link cell. *)
Theorem titles_cut_at_50 `{Runtime} (p : provider) (idx : nat) (r : row) :
  has_code r ->
  exists r',
    facets_row p idx r = Ok r'
    /\ (forall i e, (i < 3)%nat ->
        (found_news p idx (row_code r) !! i = Some e ->
         r' !! slot_column "뉴스" i "" = Some (VStr (take 50 (title e)))
         /\ r' !! slot_column "뉴스" i "_일자" = Some (VStr (date e))
         /\ r' !! slot_column "뉴스" i "_링크" = Some (VStr (link e)))
        /\ (found_notices p idx (row_code r) !! i = Some e ->
            r' !! slot_column "공시" i "" = Some (VStr (take 50 (title e)))
            /\ r' !! slot_column "공시" i "_일자" = Some (VStr (date e))
            /\ r' !! slot_column "공시" i "_링크" = Some (VStr (link e)))
        /\ (found_ir p idx (row_code r) !! i = Some e ->
            r' !! slot_column "IR" i "" = Some (VStr (take 50 (title e)))
            /\ r' !! slot_column "IR" i "_일자" = Some (VStr (date e))
            /\ link e = []))
    /\ (forall t : pystr,
        length (take 50 t) = Nat.min 50 (length t)
        /\ take 50 t `prefix_of` t
        /\ ((length t <= 50)%nat -> take 50 t = t)).
Proof.
  intros Hc. exists (with_facets p idx r).
  split; [by apply facets_row_ok|]. split.
  - intros i e Hi.
    pose proof (facets_row_cells p idx r i Hi) as (Hn & Hf & Hir).
    cbv zeta in *. unfold slot_title, slot_date, slot_link in *.
    split; [|split]; intros He; rewrite He in *; [tauto | tauto |].
    pose proof (ir_entries_without_link p idx (row_code r)) as Hl.
    split; [tauto|]. split; [tauto|].
    by apply (Forall_lookup_1 _ _ _ _ Hl He).
  - intros t. split; [apply length_take|].
    split; [apply prefix_take|]. apply take_ge.
Qed.

Lemma titles_cut_at_50_witness :
  exists r',
    facets_row (H := reference_runtime) sample_provider 0 sample_row = Ok r'
    /\ (forall i e, (i < 3)%nat ->
        (found_news (H := reference_runtime) sample_provider 0
                    (row_code sample_row) !! i = Some e ->
         r' !! slot_column "뉴스" i "" = Some (VStr (take 50 (title e)))
         /\ r' !! slot_column "뉴스" i "_일자" = Some (VStr (date e))
         /\ r' !! slot_column "뉴스" i "_링크" = Some (VStr (link e)))
        /\ (found_notices (H := reference_runtime) sample_provider 0
                          (row_code sample_row) !! i = Some e ->
            r' !! slot_column "공시" i "" = Some (VStr (take 50 (title e)))
            /\ r' !! slot_column "공시" i "_일자" = Some (VStr (date e))
            /\ r' !! slot_column "공시" i "_링크" = Some (VStr (link e)))
        /\ (found_ir (H := reference_runtime) sample_provider 0
                     (row_code sample_row) !! i = Some e ->
            r' !! slot_column "IR" i "" = Some (VStr (take 50 (title e)))
            /\ r' !! slot_column "IR" i "_일자" = Some (VStr (date e))
            /\ link e = []))
    /\ (forall t : pystr,
        length (take 50 t) = Nat.min 50 (length t)
        /\ take 50 t `prefix_of` t
        /\ ((length t <= 50)%nat -> take 50 t = t)).
Proof.
  apply (titles_cut_at_50 (H := reference_runtime) sample_provider 0
           sample_row).
  exists (py "A005930"). vm_compute. reflexivity.
Defined.

(** The first news title of the sample has 64 characters; 50 are written. *)
Example long_title_is_cut :
  match facets_row (H := reference_runtime) sample_provider 0 sample_row with
  | Ok r' => r' !! py "뉴스1" = Some (VStr (take 50 (py long_title)))
  | Raise _ => False
  end
  /\ length (py long_title) = 64%nat.
Proof. vm_compute. split; reflexivity. Qed.

(** ** The cutoff of the facet fetches *)

Section Order.
Lemma lex_compare_refl (a : list Z) : lex_compare a a = Eq.
Proof. induction a as [|x a IH]; [done|]. simpl. by rewrite Z.compare_refl. Qed.


Lemma dt_geb_refl (d : datetime) : dt_geb d d = true.
Proof. unfold dt_geb. by rewrite lex_compare_refl. Qed.


(** An item dated at midnight of the day of the cutoff is at or after the
    cutoff exactly when the cutoff is at midnight too. *)
Lemma same_day_midnight (y m d h mi s us : Z) :
  0 <= h -> 0 <= mi -> 0 <= s -> 0 <= us ->
  dt_geb (mkdt y m d 0 0 0 0) (mkdt y m d h mi s us) = true
  <-> h = 0 /\ mi = 0 /\ s = 0 /\ us = 0.
Proof.
  intros Hh Hmi Hs Hus. unfold dt_geb, fields. cbn [year month day hour
    minute second microsecond lex_compare].
  rewrite !Z.compare_refl.
  repeat match goal with
         | |- context [0 ?= ?x] => destruct (Z.compare_spec 0 x); subst
         end;
    (split;
     [ intros Ht; first [ discriminate Ht | lia | repeat split; lia ]
     | intros (? & ? & ? & ?); first [ reflexivity | lia ] ]).
Qed.
End Order.

Section Loops.
Local Open Scope nat_scope.
Local Arguments Nat.leb : simpl never.



End Loops.

Section Readable.
Context `{Runtime}.
Local Arguments Nat.leb : simpl never.
Variable cutoff_date : datetime.
Variable max_news : nat.
Local Open Scope nat_scope.


(** One turn of the inner loop of the news fetch. *)
Lemma news_items_step (it : item) (its : list item) (acc : list entry) :
  news_items cutoff_date max_news (it :: its) acc
    = if unreadable it then (acc, Raised ValueError)
      else match news_accept cutoff_date it with
           | Some e =>
             if max_news <=? length (acc ++ [e]) then (acc ++ [e], Break)
             else news_items cutoff_date max_news its (acc ++ [e])
           | None => news_items cutoff_date max_news its acc
           end.
Proof.
  cbn [news_items]. unfold unreadable, news_accept.
  destruct (8 <=? length (get it "datetime")); [|done]. cbn [andb].
  destruct (strptime_Ymd (take 8 (get it "datetime"))) as [d|]; [|done].
  rewrite bool_decide_eq_false_2 by done.
  by destruct (dt_geb d cutoff_date).
Qed.


End Readable.

Section WellFormed.
Context `{Runtime}.
Local Open Scope nat_scope.


End WellFormed.

Section Accepted.
Context `{Runtime}.
Variable cutoff : datetime.
Local Open Scope nat_scope.



End Accepted.




(** ** The worksheet *)

Section Index.
Local Open Scope nat_scope.

Lemma pystr_eqb_true (a b : pystr) : pystr_eqb a b = true <-> a = b.
Proof. unfold pystr_eqb. apply bool_decide_eq_true. Qed.

(** [index] finds the first place of a name. *)
Lemma index_lookup (x : pystr) (l : list pystr) (i : nat) :
  index x l = Some i -> l !! i = Some x.
Proof.
  revert i. induction l as [|y l IH]; intros i; [done|]. simpl.
  destruct (pystr_eqb y x) eqn:Hy.
  - intros [= <-]. apply pystr_eqb_true in Hy. by subst.
  - destruct (index x l) as [j|]; [|done]. intros [= <-]. by apply IH.
Qed.

Lemma index_elem (x : pystr) (l : list pystr) :
  x ∈ l -> is_Some (index x l).
Proof.
  induction l as [|y l IH]; [by intros ?%elem_of_nil|].
  rewrite elem_of_cons. simpl. intros [->|Hin].
  - unfold pystr_eqb. by rewrite bool_decide_eq_true_2.
  - destruct (pystr_eqb y x); [done|]. by destruct (IH Hin) as [j ->].
Qed.


Lemma starts_with_app (p s : pystr) : starts_with p (p ++ s) = true.
Proof. induction p; [done|]. simpl. by rewrite N.eqb_refl. Qed.

Lemma contains_prefix (sub s : pystr) :
  starts_with sub s = true -> contains sub s = true.
Proof. intros Hs. destruct s; simpl; by rewrite Hs. Qed.

End Index.

Section Writes.
Local Open Scope nat_scope.

(** A key that is not written keeps its entry. *)
Lemma writes_other {V} (f : nat * nat * value -> V)
    (writes : list (nat * nat * value)) (m : gmap (nat * nat) V)
    (k : nat * nat) :
  (forall w, w ∈ writes -> w.1 ≠ k) ->
  foldl (fun m w => <[w.1 := f w]> m) m writes !! k = m !! k.
Proof.
  revert m. induction writes as [|w writes IH]; intros m Hk; [done|].
  simpl. rewrite IH by (intros w' Hw'; apply Hk; by right).
  apply lookup_insert_ne. apply Hk. by left.
Qed.

End Writes.

Section Links.
Local Open Scope nat_scope.

Lemma put_links_app (ws : sheet) (w1 w2 : list (nat * nat * value)) :
  put_links (put_links ws w1) w2 = put_links ws (w1 ++ w2).
Proof. unfold put_links. by rewrite foldl_app. Qed.

Lemma put_links_nil (ws : sheet) : put_links ws [] = ws.
Proof. done. Qed.

(** Setting hyperlinks changes neither the header nor the loaded values,
    the hidden columns or the widths. *)
Lemma put_links_frame (ws : sheet) (writes : list (nat * nat * value)) :
  let ws' := put_links ws writes in
  header ws' = header ws /\ body ws' = body ws
  /\ hidden ws' = hidden ws /\ width ws' = width ws.
Proof.
  cbv zeta. revert ws. induction writes as [|w writes IH]; intros ws; [done|].
  cbn [put_links foldl]. fold (put_links (set_hyperlink ws w.1.1 w.1.2 w.2)
                                         writes).
  by destruct (IH (set_hyperlink ws w.1.1 w.1.2 w.2)) as (-> & -> & -> & ->).
Qed.

Lemma put_links_hyperlink (ws : sheet) (writes : list (nat * nat * value)) :
  hyperlink (put_links ws writes)
    = foldl (fun m w => <[w.1 := w.2]> m) (hyperlink ws) writes.
Proof.
  revert ws. induction writes as [|[[r c] v] writes IH]; intros ws; [done|].
  cbn [put_links foldl fst snd]. fold (put_links (set_hyperlink ws r c v) writes).
  by rewrite IH.
Qed.

Lemma put_links_font (ws : sheet) (writes : list (nat * nat * value)) :
  font (put_links ws writes)
    = foldl (fun m w => <[w.1 := (py "0563C1", py "single")]> m)
            (font ws) writes.
Proof.
  revert ws. induction writes as [|[[r c] v] writes IH]; intros ws; [done|].
  cbn [put_links foldl fst snd]. fold (put_links (set_hyperlink ws r c v) writes).
  by rewrite IH.
Qed.

(** *** The value of a cell after the hyperlinks *)

Lemma set_hyperlink_other (ws : sheet) (r c r' c' : nat) (v : value) :
  (r, c) ≠ (r', c') ->
  cell_value (set_hyperlink ws r c v) r' c' = cell_value ws r' c'.
Proof.
  intros Hne. unfold cell_value at 1, set_hyperlink. cbn [assigned body].
  case_bool_decide; [|done]. by rewrite lookup_insert_ne.
Qed.

Lemma set_hyperlink_same (ws : sheet) (r c : nat) (v : value) :
  cell_value (set_hyperlink ws r c v) r c
    = if bool_decide (cell_value ws r c = VNone) then v else cell_value ws r c.
Proof.
  unfold cell_value at 1, set_hyperlink. cbn [assigned body].
  case_bool_decide; [|done]. by rewrite lookup_insert_eq.
Qed.

(** A cell that is not written keeps its value. *)
Lemma put_links_other (ws : sheet) (writes : list (nat * nat * value))
    (r c : nat) :
  (forall w, w ∈ writes -> w.1 ≠ (r, c)) ->
  cell_value (put_links ws writes) r c = cell_value ws r c.
Proof.
  revert ws. induction writes as [|[[r0 c0] v0] writes IH]; intros ws Hk;
    [done|].
  cbn [put_links foldl fst snd]. fold (put_links (set_hyperlink ws r0 c0 v0) writes).
  rewrite IH by (intros w Hw; apply Hk; by right).
  apply set_hyperlink_other. apply (Hk (r0, c0, v0)). by left.
Qed.

(** A cell with a value keeps it. *)
Lemma put_links_valued (ws : sheet) (writes : list (nat * nat * value))
    (r c : nat) :
  cell_value ws r c ≠ VNone ->
  cell_value (put_links ws writes) r c = cell_value ws r c.
Proof.
  revert ws. induction writes as [|[[r0 c0] v0] writes IH]; intros ws Hv;
    [done|].
  cbn [put_links foldl fst snd]. fold (put_links (set_hyperlink ws r0 c0 v0) writes).
  assert (cell_value (set_hyperlink ws r0 c0 v0) r c = cell_value ws r c)
    as Hstep.
  { destruct (decide ((r0, c0) = (r, c))) as [[= -> ->]|Hne].
    - rewrite set_hyperlink_same. by rewrite bool_decide_eq_false_2.
    - by apply set_hyperlink_other. }
  rewrite IH; [done|]. by rewrite Hstep.
Qed.

(** A cell without a value takes the target of its hyperlink. *)
Lemma put_links_blank (ws : sheet) (writes : list (nat * nat * value))
    (r c : nat) (v : value) :
  cell_value ws r c = VNone -> v ≠ VNone ->
  (r, c, v) ∈ writes ->
  (forall v', (r, c, v') ∈ writes -> v' = v) ->
  cell_value (put_links ws writes) r c = v.
Proof.
  revert ws. induction writes as [|[[r0 c0] v0] writes IH];
    intros ws Hnone Hv Hin Hall; [by apply elem_of_nil in Hin|].
  cbn [put_links foldl fst snd]. fold (put_links (set_hyperlink ws r0 c0 v0) writes).
  destruct (decide ((r0, c0) = (r, c))) as [[= -> ->]|Hne].
  - assert (v0 = v) as -> by (apply Hall; by left).
    rewrite put_links_valued; rewrite set_hyperlink_same,
      bool_decide_eq_true_2 by done; done.
  - apply IH; [by rewrite set_hyperlink_other | done | |].
    + apply elem_of_cons in Hin as [[= <- <- <-]|Hin]; done.
    + intros v' Hv'. apply Hall. by right.
Qed.

(** *** The loops *)

(** No title column has the name of a link column. *)
Lemma title_no_link (n n' : string) :
  n ∈ title_columns -> n' ∈ title_columns -> py n ≠ py n' ++ py "_링크".
Proof.
  intros Hn Hn' Heq. apply (f_equal length) in Heq.
  rewrite length_app in Heq. unfold title_columns in Hn, Hn'.
  repeat (apply elem_of_cons in Hn as [->|Hn]);
    try (by apply elem_of_nil in Hn).
  all: repeat (apply elem_of_cons in Hn' as [->|Hn']);
    try (by apply elem_of_nil in Hn').
  all: vm_compute in Heq; discriminate Heq.
Qed.

Lemma same_links_refl (ws : sheet) : same_links ws ws.
Proof. by split. Qed.

(** A hyperlink on a title cell leaves the link cells as they are. *)
Lemma same_links_set (ws ws0 : sheet) (r : nat) (w : nat * nat * value) :
  same_links ws ws0 -> title_write ws0 w ->
  same_links (set_hyperlink ws w.1.1 w.1.2 w.2) ws0.
Proof.
  intros [Hh Hcells] (n & i & Hn & Hi & Hc). split; [done|].
  intros r' n' k Hn' Hk. rewrite set_hyperlink_other; [by eapply Hcells|].
  rewrite Hc. intros [= _ Heq]. assert (i = k) as -> by lia.
  apply index_lookup in Hi, Hk. rewrite Hi in Hk. injection Hk as Hk.
  exact (title_no_link n n' Hn Hn' Hk).
Qed.

Lemma same_links_put (ws ws0 : sheet) (writes : list (nat * nat * value)) :
  same_links ws ws0 -> Forall (title_write ws0) writes ->
  same_links (put_links ws writes) ws0.
Proof.
  intros Hsame Hwrites. revert ws Hsame.
  induction Hwrites as [|w writes Hw _ IH]; intros ws Hsame; [done|].
  cbn [put_links foldl]. apply IH. by apply (same_links_set ws ws0 0).
Qed.

Lemma link_of_same (ws ws0 : sheet) (r : nat) (n : string) :
  same_links ws ws0 -> n ∈ title_columns ->
  link_of ws r n = link_of ws0 r n.
Proof.
  intros [Hh Hcells] Hn. unfold link_of. rewrite Hh.
  destruct (index (py n) _); [|done].
  destruct (index (py n ++ _) _) as [k|] eqn:Hk; [|done].
  by rewrite (Hcells r n k).
Qed.

Lemma title_error_same (ws ws0 : sheet) (r : nat) (n : string) :
  same_links ws ws0 -> n ∈ title_columns ->
  title_error ws r n = title_error ws0 r n.
Proof.
  intros [Hh Hcells] Hn. unfold title_error. rewrite Hh.
  destruct (index (py n) _); [|done].
  destruct (index (py n ++ _) _) as [k|] eqn:Hk; [|done].
  by rewrite (Hcells r n k).
Qed.

(** The writes of the loop are writes to title cells. *)
Lemma title_writes_titles (ws0 : sheet) (names : list string) (r : nat) :
  (forall n, n ∈ names -> n ∈ title_columns) ->
  Forall (title_write ws0) (title_writes ws0 names r).
Proof.
  intros Hnames. apply Forall_forall. intros w Hw.
  apply list_elem_of_In in Hw. unfold title_writes in Hw.
  apply in_flat_map in Hw as (n & Hn & Hw).
  unfold link_of in Hw.
  destruct (index (py n) (header ws0)) as [i|] eqn:Hi; [|done].
  destruct (index (py n ++ _) _) as [k|]; [|done]. cbv zeta in Hw.
  destruct (truthy _); [|done]. destruct Hw as [<-|[]].
  exists n, i. split; [by apply Hnames, list_elem_of_In|done].
Qed.

(** The body of the loop. *)
Lemma link_title_eq (ws : sheet) (r : nat) (n : string) :
  link_title r ws n
    = match title_error ws r n with
      | Some e => Raise e
      | None => Ok (put_links ws (title_writes ws [n] r))
      end.
Proof.
  unfold link_title, title_error, title_writes, link_of. cbn [flat_map].
  destruct (index (py n) (header ws)) as [i|]; [|done].
  destruct (index (py n ++ _) _) as [k|]; [|done]. cbv zeta.
  by destruct (cell_value ws r (k + 1)) as [| |s|repr []] eqn:Hv;
    cbn [truthy]; try destruct (negb _).
Qed.

(** The inner loop, over the title columns. *)
Lemma title_loop_eq (names : list string) (ws0 ws : sheet) (r : nat) :
  same_links ws ws0 ->
  (forall n, n ∈ names -> n ∈ title_columns) ->
  for_each (link_title r) names ws
    = match omap (title_error ws0 r) names with
      | e :: _ => Raise e
      | [] => Ok (put_links ws (title_writes ws0 names r))
      end.
Proof.
  intros Hsame Hnames. revert ws Hsame.
  induction names as [|n names IH]; intros ws Hsame; [done|].
  assert (n ∈ title_columns) as Hn by (apply Hnames; by left).
  cbn [for_each]. rewrite link_title_eq, (title_error_same ws ws0) by done.
  change (omap (title_error ws0 r) (n :: names))
    with (match title_error ws0 r n with
          | Some e => e :: omap (title_error ws0 r) names
          | None => omap (title_error ws0 r) names
          end).
  destruct (title_error ws0 r n) as [e|]; [done|].
  cbn [mbind result_bind].
  assert (title_writes ws [n] r = title_writes ws0 [n] r) as ->.
  { unfold title_writes. cbn [flat_map]. by rewrite (link_of_same ws ws0). }
  rewrite IH.
  - destruct (omap _ names); [|done]. rewrite put_links_app.
    unfold title_writes. cbn [flat_map]. by rewrite app_nil_r.
  - intros n' Hn'. apply Hnames. by right.
  - apply same_links_put; [done|]. apply title_writes_titles.
    intros n' Hn'. apply elem_of_cons in Hn' as [->|Hn']; [done|].
    by apply elem_of_nil in Hn'.
Qed.

(** The outer loop, over the rows. *)
Lemma row_loop_eq (rs : list nat) (ws0 ws : sheet) :
  same_links ws ws0 ->
  for_each (fun ws row_idx => for_each (link_title row_idx) title_columns ws)
           rs ws
    = match title_errors ws0 rs with
      | e :: _ => Raise e
      | [] => Ok (put_links ws (flat_map (title_writes ws0 title_columns) rs))
      end.
Proof.
  revert ws. induction rs as [|r rs IH]; intros ws Hsame; [done|].
  cbn [for_each title_errors flat_map].
  rewrite (title_loop_eq title_columns ws0) by done.
  destruct (omap (title_error ws0 r) title_columns) as [|e es]; [|done].
  cbn [mbind result_bind app]. rewrite IH.
  - fold (title_errors ws0 rs). destruct (title_errors ws0 rs); [|done].
    by rewrite put_links_app.
  - apply same_links_put; [done|]. by apply title_writes_titles.
Qed.

Lemma apply_hyperlinks_eq (ws : sheet) :
  apply_hyperlinks ws
    = match title_errors ws (seq 2 (max_row ws - 1)) with
      | e :: _ => Raise e
      | [] => Ok (put_links ws
                    (flat_map (title_writes ws title_columns)
                              (seq 2 (max_row ws - 1))))
      end.
Proof. unfold apply_hyperlinks. apply row_loop_eq, same_links_refl. Qed.

(** Every hyperlink set comes from a title column of its row. *)
Lemma title_write_inv (ws : sheet) (rs : list nat) (r c : nat) (v : value) :
  (r, c, v) ∈ flat_map (title_writes ws title_columns) rs ->
  r ∈ rs /\ exists n, n ∈ title_columns /\ link_of ws r n = Some (c, v).
Proof.
  rewrite list_elem_of_In, in_flat_map. intros (r' & Hr' & Hw).
  unfold title_writes in Hw. rewrite in_flat_map in Hw.
  destruct Hw as (n & Hn & Hw).
  destruct (link_of ws r' n) as [[c' v']|] eqn:Hl; [|done].
  destruct Hw as [[= -> -> ->]|[]].
  split; [by apply list_elem_of_In|].
  exists n. split; [by apply list_elem_of_In | done].
Qed.


(** The writes to one cell carry one target. *)
Lemma title_writes_functional (ws : sheet) (rs : list nat) (r c : nat)
    (v v' : value) :
  (r, c, v) ∈ flat_map (title_writes ws title_columns) rs ->
  (r, c, v') ∈ flat_map (title_writes ws title_columns) rs ->
  v' = v.
Proof.
  intros (_ & n & _ & Hl)%title_write_inv (_ & n' & _ & Hl')%title_write_inv.
  unfold link_of in Hl, Hl'.
  destruct (index (py n) (header ws)) as [i|] eqn:Hi; [|done].
  destruct (index (py n') (header ws)) as [i'|] eqn:Hi'; [|done].
  destruct (index (py n ++ _) _) as [k|] eqn:Hk; [|done].
  destruct (index (py n' ++ _) _) as [k'|] eqn:Hk'; [|done].
  cbv zeta in Hl, Hl'.
  destruct (truthy (cell_value ws r (k + 1))); [|done].
  destruct (truthy (cell_value ws r (k' + 1))); [|done].
  injection Hl as Hc <-. injection Hl' as Hc' <-.
  assert (i' = i) as -> by lia.
  apply index_lookup in Hi, Hi'. rewrite Hi in Hi'. injection Hi' as Hnn.
  rewrite Hnn in Hk. rewrite Hk in Hk'. by injection Hk' as <-.
Qed.
End Links.

Section Styling.
Local Open Scope nat_scope.

(** Hiding columns changes nothing but the set of hidden columns, which
    grows by the link columns. *)
Lemma hide_fold (l : list pystr) (ws : sheet) :
  let ws' := foldl hide_column ws l in
  header ws' = header ws /\ body ws' = body ws
  /\ hyperlink ws' = hyperlink ws /\ font ws' = font ws
  /\ hidden ws ⊆ hidden ws'
  /\ (forall name i, name ∈ l -> contains (py "_링크") name = true ->
                     index name (header ws) = Some i ->
                     (i + 1) ∈ hidden ws').
Proof.
  cbv zeta. revert ws. induction l as [|x l IH]; intros ws.
  - simpl. repeat split; try done. by intros name i ?%elem_of_nil.
  - simpl. destruct (IH (hide_column ws x)) as (Hh & Hb & Hy & Hf & Hs & Hin).
    assert (Hstep : header (hide_column ws x) = header ws
                    /\ body (hide_column ws x) = body ws
                    /\ hyperlink (hide_column ws x) = hyperlink ws
                    /\ font (hide_column ws x) = font ws
                    /\ hidden ws ⊆ hidden (hide_column ws x)).
    { unfold hide_column. destruct (contains _ x); [|done].
      destruct (index x (header ws)); [|done]. simpl.
      repeat split; try done. apply union_subseteq_r. }
    destruct Hstep as (Hh1 & Hb1 & Hy1 & Hf1 & Hs1).
    repeat split; try congruence; [by etrans|].
    intros name i Hname Hc Hi. apply elem_of_cons in Hname as [->|Hname].
    + apply Hs. unfold hide_column. rewrite Hc, Hi. simpl.
      apply elem_of_union_l. by apply elem_of_singleton.
    + apply (Hin name i Hname Hc). by rewrite Hh1.
Qed.

(** Sizing columns changes nothing but the widths. *)
Lemma width_fold (l : list nat) (ws : sheet) :
  let ws' := foldl adjust_width ws l in
  header ws' = header ws /\ body ws' = body ws
  /\ hyperlink ws' = hyperlink ws /\ font ws' = font ws
  /\ hidden ws' = hidden ws.
Proof.
  cbv zeta. revert ws. induction l as [|c l IH]; intros ws; [done|].
  simpl. destruct (IH (adjust_width ws c)) as (Hh & Hb & Hy & Hf & Hd).
  assert (Hstep : header (adjust_width ws c) = header ws
                  /\ body (adjust_width ws c) = body ws
                  /\ hyperlink (adjust_width ws c) = hyperlink ws
                  /\ font (adjust_width ws c) = font ws
                  /\ hidden (adjust_width ws c) = hidden ws).
  { unfold adjust_width. by destruct (bool_decide _). }
  destruct Hstep as (? & ? & ? & ? & ?). repeat split; congruence.
Qed.

End Styling.

Section Cells.
Local Open Scope nat_scope.

(** Hiding and sizing columns leave the value of every cell. *)
Lemma hide_fold_cells (l : list pystr) (ws : sheet) (r c : nat) :
  cell_value (foldl hide_column ws l) r c = cell_value ws r c.
Proof.
  revert ws. induction l as [|x l IH]; intros ws; [done|].
  cbn [foldl]. rewrite IH. unfold hide_column.
  destruct (contains _ x); [|done]. by destruct (index x (header ws)).
Qed.

Lemma width_fold_cells (l : list nat) (ws : sheet) (r c : nat) :
  cell_value (foldl adjust_width ws l) r c = cell_value ws r c.
Proof.
  revert ws. induction l as [|c0 l IH]; intros ws; [done|].
  cbn [foldl]. rewrite IH. unfold adjust_width. by case_bool_decide.
Qed.

Lemma styled_cells (ws : sheet) (r c : nat) :
  cell_value (adjust_widths (hide_link_columns ws)) r c = cell_value ws r c.
Proof.
  unfold adjust_widths, hide_link_columns.
  by rewrite width_fold_cells, hide_fold_cells.
Qed.

(** A cell of the sheet as it is loaded. *)
Lemma cell_value_written (columns : list pystr) (rows : list (list value))
    (j c : nat) :
  cell_value (written_sheet columns rows) (j + 2) (c + 1)
    = default VNone (rows !! j ≫= fun cells => cells !! c).
Proof.
  unfold cell_value. cbn [written_sheet assigned body].
  rewrite lookup_empty. by rewrite !Nat.add_sub.
Qed.

(** [save_to_excel_with_hyperlinks] raises the first exception waiting in
    the rows, and without one it returns the sheet with its hyperlinks,
    hidden columns and widths. *)
Lemma save_eq (ws : sheet) :
  save_to_excel_with_hyperlinks ws
    = match title_errors ws (seq 2 (max_row ws - 1)) with
      | e :: _ => Raise e
      | [] => Ok (adjust_widths
                    (hide_link_columns
                       (put_links ws
                          (flat_map (title_writes ws title_columns)
                                    (seq 2 (max_row ws - 1))))))
      end.
Proof.
  unfold save_to_excel_with_hyperlinks. rewrite apply_hyperlinks_eq.
  by destruct (title_errors _ _).
Qed.

Lemma max_row_written (columns : list pystr) (rows : list (list value)) :
  max_row (written_sheet columns rows) - 1 = length rows.
Proof. unfold max_row. cbn [written_sheet body]. lia. Qed.

(** No exception waits exactly when every body of the loop is safe. *)
Lemma title_errors_nil (ws : sheet) (rs : list nat) :
  title_errors ws rs = []
  <-> forall r n, r ∈ rs -> n ∈ title_columns -> title_error ws r n = None.
Proof.
  unfold title_errors. generalize title_columns. intros names.
  induction rs as [|r rs IH].
  - split; [|done]. by intros _ r n ?%elem_of_nil.
  - cbn [flat_map]. split.
    + intros [Hr Hrs]%app_eq_nil r' n [->|Hr']%elem_of_cons Hn.
      * clear -Hr Hn. induction names as [|n0 names IHn];
          [by apply elem_of_nil in Hn|].
        cbn in Hr. destruct (title_error ws r n0) eqn:Hn0; [done|].
        apply elem_of_cons in Hn as [->|Hn]; [done|by apply IHn].
      * by apply IH.
    + intros Hall.
      assert (omap (title_error ws r) names = []) as ->.
      { assert (forall n, n ∈ names -> title_error ws r n = None) as Hr
          by (intros n Hn; apply Hall; [by left|done]).
        clear -Hr. induction names as [|n0 names IHn]; [done|].
        cbn. rewrite (Hr n0) by (by left). apply IHn.
        intros n Hn. apply Hr. by right. }
      apply IH. intros r' n Hr' Hn. apply Hall; [by right|done].
Qed.

End Cells.

Section Materializer.
Variable columns : list pystr.
Variable rows : list (list value).
Hypothesis columns_distinct : NoDup columns.

Local Open Scope nat_scope.


End Materializer.

(** The loaded sheet is safe when the link columns are there and hold
    texts. *)
Lemma written_sheet_safe (columns : list pystr) (rows : list (list value)) :
  links_present columns -> link_cells_text columns rows ->
  title_errors (written_sheet columns rows) (seq 2 (length rows)) = [].
Proof.
  intros Hlinks Htext. apply title_errors_nil. intros r n Hr Hn.
  apply elem_of_seq in Hr. unfold title_error. cbn [written_sheet header].
  destruct (index (py n) columns) as [i|] eqn:Hi; [|done].
  destruct (index_elem (py n ++ py "_링크") columns) as [k Hk].
  { apply Hlinks; [done|]. by eapply list_elem_of_lookup_2, index_lookup. }
  rewrite Hk. replace r with (r - 2 + 2)%nat by lia.
  rewrite cell_value_written.
  destruct (rows !! (r - 2)%nat) as [cells|] eqn:Hrow; [|done].
  cbn [mbind option_bind]. destruct (cells !! k) as [v|] eqn:Hv; [|done].
  cbn [default from_option id]. unfold id.
  destruct (truthy v) eqn:Ht.
  - by destruct (Htext _ _ _ _ _ _ Hrow Hn Hi Hk Hv Ht) as [s ->].
  - destruct v; cbn [truthy] in Ht |- *; try done. by rewrite Ht.
Qed.


Lemma sample_links_present : links_present sample_columns.
Proof.
  intros n Hn Hin. unfold title_columns in Hn.
  repeat (apply elem_of_cons in Hn as [->|Hn];
          [ first [ apply (bool_decide_unpack (_ ∈ sample_columns));
                    vm_compute; exact I
                  | exfalso; revert Hin;
                    apply (bool_decide_eq_false_1 (_ ∈ sample_columns));
                    vm_compute; reflexivity ] |]).
  by apply elem_of_nil in Hn.
Qed.

Lemma sample_link_cells_text : link_cells_text sample_columns sample_cells.
Proof.
  intros j cells n i k v Hrow Hn Hi Hk Hv Ht. unfold title_columns in Hn.
  destruct j as [|[|j]]; [| |done]; injection Hrow as <-.
  all: repeat (apply elem_of_cons in Hn as [->|Hn]);
    try (by apply elem_of_nil in Hn).
  all: vm_compute in Hi; vm_compute in Hk; try discriminate Hk;
    try discriminate Hi.
  all: injection Hk as <-; vm_compute in Hv; injection Hv as <-.
  all: vm_compute in Ht; try discriminate Ht; by eexists.
Qed.


(* ===================================================================== *)
(** * Further properties *)
(* ===================================================================== *)

(** ** The mapped row *)

Section MappedColumns.
Context `{Runtime}.
Variable data : list record.
Variable stamp : pystr.
Variable r : record.

(** The derived columns are added to the record under names that no
    provider column of the mapping has. *)
Lemma derived_keeps (k : pystr) :
  k ∉ derived_targets ->
  foldl (derive data) r derived_columns !! k = r !! k.
Proof.
  unfold derived_targets, derived_columns. cbn [map foldl fst snd].
  rewrite !not_elem_of_cons. intros (? & ? & ? & ? & ? & _).
  by rewrite !derive_other.
Qed.

(** A column that the numeric conversion does not create. *)
Lemma numeric_none (l : list string) (acc : row) (k : pystr) :
  acc !! k = None ->
  foldl (fun acc col => alter to_numeric (py col) acc) acc l !! k = None.
Proof.
  revert acc. induction l as [|col l IH]; intros acc Hk; [done|].
  simpl. apply IH. rewrite lookup_alter. case_decide; [subst|done].
  by rewrite Hk.
Qed.

(** The numeric conversion, column by column. *)
Lemma numeric_lookup (l : list string) (acc : row) (k : pystr) :
  NoDup (map py l) ->
  foldl (fun acc col => alter to_numeric (py col) acc) acc l !! k
    = if bool_decide (k ∈ map py l) then to_numeric <$> acc !! k
      else acc !! k.
Proof.
  revert acc. induction l as [|col l IH]; intros acc Hnd; [done|].
  apply NoDup_cons in Hnd as [Hcol Hnd]. cbn [foldl map].
  rewrite IH by done. rewrite lookup_alter.
  destruct (decide (py col = k)) as [<-|Hne].
  - rewrite (bool_decide_eq_false_2 _ Hcol).
    by rewrite bool_decide_eq_true_2 by (by left).
  - destruct (decide (k ∈ map py l)) as [Hin|Hout].
    + by rewrite !bool_decide_eq_true_2 by (done || by right).
    + rewrite !bool_decide_eq_false_2; [done | | done].
      rewrite not_elem_of_cons. split; [done | done].
Qed.

(** A provider column of the mapping, after selection and renaming. *)
Lemma mapped_lookup (l : list (string * string)) (rd : record)
    (src dst : string) :
  NoDup (map (fun sd => py sd.2) l) ->
  (src, dst) ∈ l ->
  foldl (fun acc '(src, dst) =>
           if has_column data (py src)
           then <[py dst := cell rd (py src)]> acc else acc)
        (∅ : row) l !! py dst
    = if has_column data (py src) then Some (cell rd (py src)) else None.
Proof.
  intros Hnd Hin. apply list_elem_of_split in Hin as (l1 & l2 & ->).
  rewrite map_app in Hnd. cbn [map] in Hnd.
  apply NoDup_app in Hnd as (_ & Hl1 & Hnd).
  apply NoDup_cons in Hnd as [Hl2 _].
  rewrite mapped_once.
  - by rewrite lookup_empty.
  - apply Forall_forall. intros sd Hsd Heq. apply (Hl1 (py sd.2)).
    + apply list_elem_of_fmap. by exists sd.
    + apply elem_of_cons. by left.
  - apply Forall_forall. intros sd Hsd Heq. apply Hl2.
    apply list_elem_of_fmap. by exists sd.
Qed.
End MappedColumns.

Lemma not_elem_of_map_Forall {A} (f : A -> pystr) (l : list A) (k : pystr) :
  k ∉ map f l -> Forall (fun x => f x ≠ k) l.
Proof.
  intros Hk. apply Forall_forall. intros x Hx Heq. apply Hk.
  rewrite <- Heq. apply list_elem_of_fmap. by exists x.
Qed.

Lemma numeric_cols_distinct : NoDup (map py numeric_cols).
Proof. apply (bool_decide_unpack _). vm_compute. exact I. Qed.

Lemma mapped_targets_distinct : NoDup mapped_targets.
Proof. apply (bool_decide_unpack _). vm_compute. exact I. Qed.

Lemma mapping_sources_not_derived :
  Forall (fun sd : string * string => py sd.1 ∉ derived_targets)
         columns_mapping.
Proof. each_element; not_in. Qed.

Lemma mapping_targets_not_derived :
  Forall (fun sd : string * string => py sd.2 ∉ derived_targets)
         columns_mapping.
Proof. each_element; not_in. Qed.

Lemma mapping_targets_not_stamp :
  Forall (fun sd : string * string => py sd.2 ≠ py "수집시간") columns_mapping.
Proof. keys_ne. Qed.

Section MappedRows.
Context `{Runtime}.
Variable data : list record.
Variable stamp : pystr.
Variable r : record.

(** The second pass of the selection leaves the other columns alone. *)
Lemma select_rename_mapped (rd : record) (k : pystr) :
  k ∉ derived_targets ->
  select_rename data rd !! k
    = foldl (fun acc '(src, dst) =>
               if has_column data (py src)
               then <[py dst := cell rd (py src)]> acc else acc)
            (∅ : row) columns_mapping !! k.
Proof.
  unfold select_rename, derived_targets, derived_columns.
  cbn [map foldl fst snd]. rewrite !not_elem_of_cons.
  intros (? & ? & ? & ? & ? & _).
  by rewrite !lookup_insert_if_ne.
Qed.

(** A name outside the schema is not a column of the mapped row. *)
Lemma map_record_closed (k : pystr) :
  k ∉ output_columns -> map_record data stamp r !! k = None.
Proof.
  unfold output_columns. rewrite !not_elem_of_app, not_elem_of_cons.
  intros (Hm & Hd & Hs & _). unfold map_record.
  rewrite lookup_insert_ne by done.
  rewrite lookup_alter_ne.
  - apply numeric_none. rewrite select_rename_mapped by done.
    rewrite mapped_other by (by apply not_elem_of_map_Forall).
    apply lookup_empty.
  - intros <-. apply Hm.
    apply (bool_decide_unpack _). vm_compute. exact I.
Qed.

(** The cell of a provider column of the mapping in the mapped row. *)
Lemma map_record_mapped (src dst : string) :
  (src, dst) ∈ columns_mapping ->
  map_record data stamp r !! py dst
    = if has_column data (py src)
      then Some (finish dst (cell r (py src))) else None.
Proof.
  intros Hin.
  pose proof (proj1 (Forall_forall _ _) mapping_sources_not_derived _ Hin)
    as Hsrc.
  pose proof (proj1 (Forall_forall _ _) mapping_targets_not_derived _ Hin)
    as Hdst.
  pose proof (proj1 (Forall_forall _ _) mapping_targets_not_stamp _ Hin)
    as Hst.
  cbn [fst snd] in Hsrc, Hdst, Hst.
  assert (cell (foldl (derive data) r derived_columns) (py src)
          = cell r (py src)) as Hcell.
  { unfold cell. by rewrite derived_keeps. }
  assert (select_rename data (foldl (derive data) r derived_columns) !! py dst
          = if has_column data (py src) then Some (cell r (py src)) else None)
    as Hsel.
  { rewrite select_rename_mapped by done.
    rewrite (mapped_lookup data _ _ src dst); [by rewrite Hcell | | done].
    apply mapped_targets_distinct. }
  unfold map_record, finish, pystr_eqb.
  rewrite lookup_insert_ne by done.
  rewrite lookup_alter. case_decide as Hcode.
  - rewrite numeric_lookup by apply numeric_cols_distinct.
    rewrite bool_decide_eq_false_2 by not_in.
    rewrite Hcode, Hsel, bool_decide_eq_true_2 by done.
    by destruct (has_column data (py src)).
  - rewrite numeric_lookup by apply numeric_cols_distinct.
    rewrite Hsel, (bool_decide_eq_false_2 (py dst = _)) by done.
    case_bool_decide; by destruct (has_column data (py src)).
Qed.
End MappedRows.

(** X1.  [get_rising_stocks] returns one row for every record of the
    provider's reply, and no row when the request fails.  Every row carries
    the time of collection under ['수집시간'], and all its columns are among
    the Korean names of the mapping, the five derived columns and
    ['수집시간']: no provider key is left under its own name. *)
Theorem mapped_frame_schema `{Runtime} (reply : response (list record))
    (stamp : pystr) :
  length (get_rising_stocks reply stamp)
    = match reply with Got data => length data | Failed _ => 0%nat end
  /\ Forall (fun mapped : row =>
               mapped !! py "수집시간" = Some (VStr stamp)
               /\ forall k, is_Some (mapped !! k) -> k ∈ output_columns)
            (get_rising_stocks reply stamp).
Proof.
  destruct reply as [e|data]; cbn [get_rising_stocks]; [done|].
  split; [by rewrite length_map|].
  apply Forall_forall. intros mapped Hin.
  apply list_elem_of_fmap in Hin as (r & -> & _). split.
  - unfold map_record. apply lookup_insert_eq.
  - intros k Hk. destruct (decide (k ∈ output_columns)) as [|Hout]; [done|].
    rewrite map_record_closed in Hk by done. by destruct Hk.
Qed.

(** X2.  Every provider column of the mapping is carried over on its own.
    When no record of the reply has the key, the row has no such column.
    When this record has a text under the key, the cell is that text,
    converted by [pd.to_numeric] for the numeric columns, prefixed with
    ['A'] for the code, and unchanged for the name and the listing date.
    When this record lacks a key that another record has, the cell of a
    column other than the code is NaN, converted likewise.  (Nothing is
    said here of a number or a null of the provider, whose form in the
    frame depends on the other cells of its column, nor of the code of a
    record without one.) *)
Theorem provider_columns_carried_over `{Runtime} (data : list record)
    (stamp : pystr) (r : record) :
  Forall (fun '(src, dst) =>
            (has_column data (py src) = false ->
             map_record data stamp r !! py dst = None)
            /\ (forall s,
                  has_column data (py src) = true ->
                  r !! py src = Some (VStr s) ->
                  map_record data stamp r !! py dst
                    = Some (finish dst (VStr s)))
            /\ (has_column data (py src) = true ->
                r !! py src = None ->
                py dst ≠ py "종목코드" ->
                map_record data stamp r !! py dst = Some (finish dst VNaN)))
         columns_mapping
  /\ (forall s, finish "종목코드" (VStr s) = VStr (py "A" ++ s))
  /\ (forall v, finish "종목명" v = v /\ finish "상장일" v = v)
  /\ (forall dst v, dst ∈ numeric_cols -> finish dst v = to_numeric v).
Proof.
  split; [|split; [|split]].
  - apply Forall_forall. intros [src dst] Hin.
    pose proof (map_record_mapped data stamp r src dst Hin) as Hcell.
    unfold cell in Hcell. split; [|split].
    + intros Hcol. by rewrite Hcell, Hcol.
    + intros s Hcol Hr. by rewrite Hcell, Hcol, Hr.
    + intros Hcol Hr _. by rewrite Hcell, Hcol, Hr.
  - done.
  - done.
  - intros dst v Hin. unfold numeric_cols in Hin.
    repeat (apply elem_of_cons in Hin as [->|Hin]; [done|]).
    by apply elem_of_nil in Hin.
Qed.

Lemma provider_columns_carried_over_witness :
  map_record (H := reference_runtime) [sample_record "005930"] []
             (sample_record "005930") !! py "종목코드"
    = Some (VStr (py "A005930"))
  /\ map_record (H := reference_runtime) [sample_record "005930"] []
                (sample_record "005930") !! py "현재가" = None.
Proof.
  destruct (provider_columns_carried_over (H := reference_runtime)
              [sample_record "005930"] [] (sample_record "005930"))
    as [Hall _].
  pose proof (proj1 (Forall_forall _ _) Hall) as Hcol. split.
  - destruct (Hcol ("itemcode", "종목코드")) as (_ & Htext & _).
    { unfold columns_mapping. apply elem_of_cons. right.
      apply elem_of_cons. by left. }
    apply (Htext (py "005930")); vm_compute; reflexivity.
  - destruct (Hcol ("nowVal", "현재가")) as (Hnone & _).
    { unfold columns_mapping. do 2 (apply elem_of_cons; right).
      apply elem_of_cons. by left. }
    apply Hnone. vm_compute. reflexivity.
Defined.

(** X3.  A code that arrives as a text and is a key of its table resolves
    to the text of the table, in all five derived columns.  The three
    columns read with [Series.map] give NaN for a code that arrives as a
    number, and the two columns read with [table.get(str(x), '')] give ['']
    for a missing code. *)
Theorem known_code_resolution `{Runtime} (data : list record)
    (stamp : pystr) (r : record) :
  (forall src dst table s t,
     (src, dst, table) ∈ get_resolved ++ map_resolved ->
     has_column data (py src) = true ->
     cell r (py src) = VStr s ->
     dict_get table s = Some t ->
     map_record data stamp r !! py dst = Some (VStr t))
  /\ (forall src dst table repr nz,
        (src, dst, table) ∈ map_resolved ->
        has_column data (py src) = true ->
        cell r (py src) = VNum repr nz ->
        map_record data stamp r !! py dst = Some VNaN)
  /\ (forall src dst table,
        (src, dst, table) ∈ get_resolved ->
        has_column data (py src) = true ->
        notna (cell r (py src)) = false ->
        map_record data stamp r !! py dst = Some (VStr [])).
Proof.
  pose proof (map_record_derived data stamp r) as Hd.
  unfold derived_columns in Hd.
  repeat match goal with
         | Hf : Forall _ (_ :: _) |- _ =>
           apply Forall_cons in Hf; destruct Hf as [? Hf]
         end.
  split; [|split].
  1: intros src dst table s t Hin Hcol Hcell Hkey.
  2: intros src dst table repr nz Hin Hcol Hcell.
  3: intros src dst table Hin Hcol Hcell.
  all: unfold get_resolved, map_resolved in Hin; cbn [app] in Hin.
  all: repeat match goal with
         | Hm : _ ∈ _ :: _ |- _ =>
           apply elem_of_cons in Hm; destruct Hm as [Hm|Hm]
         | Hm : _ ∈ [] |- _ => by apply elem_of_nil in Hm
         | Hm : (_, _, _) = (_, _, _) |- _ => injection Hm as -> -> ->
         end.
  all: match goal with
       | Hv : map_record _ _ _ !! ?k = _ |- map_record _ _ _ !! ?k = _ =>
         rewrite Hv, Hcol
       end.
  all: f_equal; unfold series_map_get, series_map_dict.
  all: try rewrite Hcell; cbn [notna py_str]; try rewrite Hkey; done.
Qed.

Lemma known_code_resolution_witness :
  map_record (H := reference_runtime) [sample_record "005930"] []
             (sample_record "005930") !! py "시장구분"
    = Some (VStr (py "코스피")).
Proof.
  destruct (known_code_resolution (H := reference_runtime)
              [sample_record "005930"] [] (sample_record "005930"))
    as [Hs _].
  apply (Hs "sosok" "시장구분" sosok_map (py "0") (py "코스피")).
  - apply elem_of_app. right. by left.
  - vm_compute. reflexivity.
  - vm_compute. reflexivity.
  - vm_compute. reflexivity.
Defined.

(** ** The pages of the first stage *)

Section Pages.
Context `{Runtime}.
Variable p : provider.
Variables max_stocks page_size : nat.
Local Open Scope nat_scope.

Lemma first_pages_S (k : nat) :
  first_pages p page_size (S k)
    = first_pages p page_size k ++ [page_at p page_size k].
Proof. unfold first_pages. by rewrite seq_S, map_app. Qed.

Lemma first_pages_total (k : nat) :
  length (concat (first_pages p page_size (S k)))
    = length (concat (first_pages p page_size k))
      + length (page_at p page_size k).
Proof.
  rewrite first_pages_S, concat_app, length_app. cbn [concat].
  by rewrite app_nil_r.
Qed.

(** The state of the loop after [k] full pages. *)
Lemma base_loop_pages (fuel k : nat) (st' : loop_state) :
  (forall j, j < k ->
     page_size <= length (page_at p page_size j)
     /\ page_at p page_size j ≠ []
     /\ length (concat (first_pages p page_size j)) < max_stocks) ->
  base_loop fuel p max_stocks page_size
            (mkstate (first_pages p page_size k) (k * page_size)
                     (length (concat (first_pages p page_size k))) k)
    = Some st' ->
  exists n,
    all_data st' = first_pages p page_size n
    /\ total_collected st' = length (concat (first_pages p page_size n))
    /\ (fetches st' = n \/ fetches st' = S n /\ page_at p page_size n = [])
    /\ (forall j, j < n ->
          page_at p page_size j ≠ []
          /\ length (concat (first_pages p page_size j)) < max_stocks)
    /\ (forall j, S j < n -> page_size <= length (page_at p page_size j))
    /\ (total_collected st' < max_stocks ->
        fetches st' = S n
        \/ exists j, n = S j /\ length (page_at p page_size j) < page_size).
Proof.
  revert k. induction fuel as [|fuel IH]; intros k Hk Hrun.
  - cbn [base_loop total_collected] in Hrun.
    destruct (_ <? max_stocks) eqn:Htest; [done|].
    injection Hrun as <-. exists k. cbn.
    apply Nat.ltb_ge in Htest.
    repeat split; try done; try (by left); try (intros; lia).
    + by apply Hk.
    + by apply Hk.
    + intros j Hj. apply Hk. lia.
  - rewrite base_loop_step in Hrun. cbn [total_collected start_idx] in Hrun.
    destruct (_ <? max_stocks) eqn:Htest.
    2: { injection Hrun as <-. exists k. cbn.
         apply Nat.ltb_ge in Htest.
         repeat split; try done; try (by left); try (intros; lia).
         - by apply Hk.
         - by apply Hk.
         - intros j Hj. apply Hk. lia. }
    apply Nat.ltb_lt in Htest.
    fold (page_at p page_size k) in Hrun. cbn zeta in Hrun.
    destruct (length (page_at p page_size k) =? 0) eqn:Hempty.
    { injection Hrun as <-. exists k. cbn.
      apply Nat.eqb_eq, nil_length_inv in Hempty.
      repeat split; try done; try (by right); try (by left).
      - by apply Hk.
      - by apply Hk.
      - intros j Hj. apply Hk. lia. }
    apply Nat.eqb_neq in Hempty.
    assert (forall j, j < S k ->
              page_at p page_size j ≠ []
              /\ length (concat (first_pages p page_size j)) < max_stocks)
      as Hnext.
    { intros j Hj. destruct (decide (j = k)) as [->|].
      - split; [|done]. intros Hnil. by rewrite Hnil in Hempty.
      - split; apply Hk; lia. }
    destruct (length (page_at p page_size k) <? page_size) eqn:Hshort.
    { injection Hrun as <-. exists (S k).
      cbn [append_page count_fetch all_data total_collected fetches].
      apply Nat.ltb_lt in Hshort.
      split; [by rewrite first_pages_S|].
      split; [by rewrite first_pages_total|].
      split; [by left|]. split; [done|].
      split; [intros j Hj; apply Hk; lia|].
      intros _. right. by exists k. }
    apply Nat.ltb_ge in Hshort.
    apply (IH (S k)).
    + intros j Hj. destruct (decide (j = k)) as [->|].
      * split; [done|]. by apply Hnext.
      * split; [apply Hk; lia|]. apply Hnext. lia.
    + rewrite <- Hrun. f_equal.
      rewrite first_pages_total, first_pages_S.
      unfold advance, append_page, count_fetch.
      cbn [all_data total_collected fetches start_idx]. f_equal. lia.
Qed.
End Pages.

(** X4.  With a positive page size the first stage ends, and what it has
    gathered is the first [n] pages of the listing in the order of their
    arrival, requested at the offsets 0, [page_size], twice [page_size] and
    so on.  None of these pages is empty, all but the last hold at least
    [page_size] rows, and each was requested while fewer than [max_stocks]
    rows were at hand.  At most one request more was made, and it was
    answered with nothing.  When the stage ends below [max_stocks] it does so
    on that empty answer or on a short last page. *)
Theorem pages_collected_in_order `{Runtime} (p : provider)
    (max_stocks page_size : nat) :
  (0 < page_size)%nat ->
  exists st n,
    base_loop (ceil_div max_stocks page_size + 1) p max_stocks page_size
              loop_init = Some st
    /\ concat_pages st = concat (first_pages p page_size n)
    /\ (fetches st = n \/ fetches st = S n /\ page_at p page_size n = [])
    /\ (forall j, (j < n)%nat ->
          page_at p page_size j ≠ []
          /\ (length (concat (first_pages p page_size j)) < max_stocks)%nat)
    /\ (forall j, (S j < n)%nat ->
          (page_size <= length (page_at p page_size j))%nat)
    /\ ((length (concat_pages st) < max_stocks)%nat ->
        fetches st = S n
        \/ exists j, n = S j
                     /\ (length (page_at p page_size j) < page_size)%nat).
Proof.
  intros Hps.
  destruct (base_loop_terminates p max_stocks page_size
              (ceil_div max_stocks page_size + 1) loop_init Hps
              (loop_inv_init page_size))
    as (st & Hrun & Htotal & _); [cbn; lia|].
  destruct (base_loop_pages p max_stocks page_size
              (ceil_div max_stocks page_size + 1) 0 st) as
    (n & Hall & Hcount & Hfetch & Hpages & Hfull & Hstop);
    [intros j Hj; lia | exact Hrun |].
  exists st, n. unfold concat_pages. rewrite Hall.
  rewrite Hcount in Hstop. by repeat (split; [done|]).
Qed.

Lemma pages_collected_in_order_witness :
  exists st n,
    base_loop (H := reference_runtime) (ceil_div 1000 100 + 1)
              (paged_provider [100; 100; 37]%nat) 1000 100 loop_init = Some st
    /\ concat_pages st
         = concat (first_pages (H := reference_runtime)
                     (paged_provider [100; 100; 37]%nat) 100 n)
    /\ (fetches st = n
        \/ fetches st = S n
           /\ page_at (H := reference_runtime)
                (paged_provider [100; 100; 37]%nat) 100 n = [])
    /\ (forall j, (j < n)%nat ->
          page_at (H := reference_runtime)
            (paged_provider [100; 100; 37]%nat) 100 j ≠ []
          /\ (length (concat (first_pages (H := reference_runtime)
                                (paged_provider [100; 100; 37]%nat) 100 j))
              < 1000)%nat)
    /\ (forall j, (S j < n)%nat ->
          (100 <= length (page_at (H := reference_runtime)
                            (paged_provider [100; 100; 37]%nat) 100 j))%nat)
    /\ ((length (concat_pages st) < 1000)%nat ->
        fetches st = S n
        \/ exists j, n = S j
                     /\ (length (page_at (H := reference_runtime)
                                   (paged_provider [100; 100; 37]%nat) 100 j)
                         < 100)%nat).
Proof.
  apply (pages_collected_in_order (H := reference_runtime)
           (paged_provider [100; 100; 37]%nat) 1000 100).
  lia.
Defined.

Lemma pages_rows_exist `{Runtime} (p : provider) (max_stocks : nat) :
  exists st n,
    base_loop (ceil_div max_stocks 100 + 1) p max_stocks 100 loop_init
      = Some st
    /\ all_data st = first_pages p 100 n.
Proof.
  destruct (base_loop_terminates p max_stocks 100
              (ceil_div max_stocks 100 + 1) loop_init)
    as (st & Hrun & _); [lia | apply loop_inv_init | cbn; lia |].
  destruct (base_loop_pages p max_stocks 100
              (ceil_div max_stocks 100 + 1) 0 st) as (n & Hall & _);
    [intros j Hj; lia | exact Hrun |].
  by exists st, n.
Qed.

(** X5.  When nothing is asked for, or the first listing request fails or
    brings no record, [collect_all_data] returns the empty frame, whatever
    the two flags: no enrichment request is made and nothing is raised. *)
Theorem empty_listing_collects_nothing `{Runtime} (p : provider)
    (max_stocks fuel : nat) (include_detail include_news : bool) :
  max_stocks = 0%nat
  \/ ((0 < fuel)%nat
      /\ ((exists e, listing p 100 0 = Failed e) \/ listing p 100 0 = Got [])) ->
  collect_all_data fuel p max_stocks include_detail include_news
    = Some (Ok []).
Proof.
  intros [->|[Hfuel Hfirst]]; unfold collect_all_data.
  - by destruct fuel.
  - destruct fuel as [|fuel]; [lia|].
    assert (fetch_page p 100 0 = []) as Hpage.
    { unfold fetch_page. by destruct Hfirst as [[e ->]| ->]. }
    rewrite base_loop_step. cbn [loop_init total_collected start_idx].
    rewrite Hpage. cbn zeta. cbn [length Nat.eqb].
    by destruct (0 <? max_stocks)%nat.
Qed.

Lemma empty_listing_collects_nothing_witness :
  collect_all_data (H := reference_runtime) 1 (paged_provider []) 1000
                   true true = Some (Ok []).
Proof.
  apply (empty_listing_collects_nothing (H := reference_runtime)).
  right. split; [lia|]. right. vm_compute. reflexivity.
Defined.

(** ** The enrichment stages *)

Section Stages.
Context `{Runtime}.
Local Open Scope nat_scope.

(** The loop over the rows stops at the first row whose body raises. *)
Lemma for_rows_raise (body : nat -> row -> result row) (rows : list row)
    (idx i : nat) (r : row) (e : exn) :
  (forall j r0, j < i -> rows !! j = Some r0 ->
                exists r', body (idx + j) r0 = Ok r') ->
  rows !! i = Some r ->
  body (idx + i) r = Raise e ->
  for_rows body idx rows = Raise e.
Proof.
  revert idx i. induction rows as [|r0 rows IH]; intros idx i Hok Hi He;
    [done|].
  destruct i as [|i].
  - injection Hi as ->. rewrite Nat.add_0_r in He.
    cbn [for_rows]. by rewrite He.
  - destruct (Hok 0 r0) as [r' Hr']; [lia | done |].
    rewrite Nat.add_0_r in Hr'. cbn [for_rows]. rewrite Hr'.
    cbn [mbind result_bind].
    rewrite (IH (S idx) i); [done | | done |].
    + intros j r1 Hj Hr1. replace (S idx + j) with (idx + S j) by lia.
      apply Hok; [lia | done].
    + by replace (S idx + i) with (idx + S i) by lia.
Qed.

(** When the loop ends, the body has returned for every row. *)
Lemma for_rows_ok_inv (body : nat -> row -> result row) (rows t : list row)
    (idx : nat) :
  for_rows body idx rows = Ok t ->
  forall j r, rows !! j = Some r -> exists r', body (idx + j) r = Ok r'.
Proof.
  revert idx t. induction rows as [|r0 rows IH]; intros idx t Hrun j r Hj;
    [done|].
  cbn [for_rows] in Hrun.
  destruct (body idx r0) as [r0'|e] eqn:Hb; [|done].
  cbn [mbind result_bind] in Hrun.
  destruct (for_rows body (S idx) rows) as [rest|e] eqn:Hrest; [|done].
  destruct j as [|j].
  - injection Hj as <-. rewrite Nat.add_0_r. by exists r0'.
  - replace (idx + S j) with (S idx + j) by lia. by eapply IH.
Qed.

Lemma row_text_ok_inv (r : row) (s : pystr) :
  row_text r "종목코드" = Ok s -> has_code r.
Proof.
  unfold row_text, has_code. destruct (r !! _) as [[]|]; try done.
  intros _. by eexists.
Qed.

Lemma detail_row_ok_inv (p : provider) (idx : nat) (r r' : row) :
  detail_row p idx r = Ok r' -> has_code r.
Proof.
  unfold detail_row. destruct (row_text r _) as [s|e] eqn:Hs; [|done].
  intros _. by eapply row_text_ok_inv.
Qed.

Lemma facets_row_ok_inv (p : provider) (idx : nat) (r r' : row) :
  facets_row p idx r = Ok r' -> has_code r.
Proof.
  unfold facets_row. destruct (row_text r _) as [s|e] eqn:Hs; [|done].
  intros _. by eapply row_text_ok_inv.
Qed.

(** What a row without a text code does to the body of either stage. *)
Lemma bodies_raise (p : provider) (idx : nat) (r : row) (e : exn) :
  row_text r "종목코드" = Raise e ->
  detail_row p idx r = Raise e /\ facets_row p idx r = Raise e.
Proof. unfold detail_row, facets_row. by intros ->. Qed.

Lemma with_details_have_code (p : provider) (rows : list row) :
  Forall has_code rows -> Forall has_code (imap (with_detail p) rows).
Proof.
  intros Hrows. apply Forall_lookup. intros j r' Hj.
  rewrite list_lookup_imap in Hj.
  destruct (rows !! j) as [r|] eqn:Hr; [|done]. injection Hj as <-.
  apply with_detail_code. eapply Forall_lookup_1; eauto.
Qed.

Lemma enrich_details_closed (p : provider) (rows : list row) :
  Forall has_code rows ->
  enrich_details p rows = Ok (imap (with_detail p) rows).
Proof.
  intros Hrows. apply (for_rows_total (detail_row p) (with_detail p)).
  intros j r Hr. apply detail_row_ok. eapply Forall_lookup_1; eauto.
Qed.

Lemma enrich_facets_closed (p : provider) (rows : list row) :
  Forall has_code rows ->
  enrich_facets p rows = Ok (imap (with_facets p) rows).
Proof.
  intros Hrows. apply (for_rows_total (facets_row p) (with_facets p)).
  intros j r Hr. apply facets_row_ok. eapply Forall_lookup_1; eauto.
Qed.

(** The two stages on rows that carry their code, for any flags. *)
Lemma enrich_stages_closed (p : provider) (d n : bool) (rows : list row) :
  Forall has_code rows ->
  enrich_stages p d n rows
    = Ok ((if n then imap (with_facets p) else id)
            ((if d then imap (with_detail p) else id) rows)).
Proof.
  intros Hrows. unfold enrich_stages. destruct d.
  - rewrite enrich_details_closed by done. cbn [mbind result_bind].
    destruct n; [|done].
    by apply enrich_facets_closed, with_details_have_code.
  - cbn [mbind result_bind]. destruct n; [|done].
    by apply enrich_facets_closed.
Qed.

(** A stage that is run and returns has found a code in every row. *)
Lemma enrich_stages_ok_inv (p : provider) (d n : bool) (rows t : list row) :
  d || n = true ->
  enrich_stages p d n rows = Ok t -> Forall has_code rows.
Proof.
  intros Hflag Hrun. apply Forall_lookup. intros j r Hj.
  unfold enrich_stages in Hrun. destruct d.
  - destruct (enrich_details p rows) as [t'|e] eqn:Hd; [|done].
    destruct (for_rows_ok_inv _ _ _ _ Hd j r Hj) as [r' Hr'].
    by eapply detail_row_ok_inv.
  - destruct n; [|done]. cbn [mbind result_bind] in Hrun.
    destruct (for_rows_ok_inv _ _ _ _ Hrun j r Hj) as [r' Hr'].
    by eapply facets_row_ok_inv.
Qed.

(** The first row without a text code ends the stages with its error. *)
Lemma enrich_stages_raise (p : provider) (d n : bool) (rows : list row)
    (i : nat) (r : row) (e : exn) :
  d || n = true ->
  Forall has_code (take i rows) ->
  rows !! i = Some r ->
  row_text r "종목코드" = Raise e ->
  enrich_stages p d n rows = Raise e.
Proof.
  intros Hflag Hbefore Hi He.
  assert (forall j r0, j < i -> rows !! j = Some r0 -> has_code r0) as Hcode.
  { intros j r0 Hj Hr0. eapply (Forall_lookup_1 _ _ j); [exact Hbefore|].
    by rewrite lookup_take_lt. }
  unfold enrich_stages. destruct d.
  - unfold enrich_details.
    rewrite (for_rows_raise (detail_row p) rows 0 i r e); [done | | done |].
    + intros j r0 Hj Hr0. eexists. apply detail_row_ok. by eapply Hcode.
    + by apply bodies_raise.
  - destruct n; [|done]. cbn [mbind result_bind]. unfold enrich_facets.
    apply (for_rows_raise (facets_row p) rows 0 i r e); [ | done |].
    + intros j r0 Hj Hr0. eexists. apply facets_row_ok. by eapply Hcode.
    + by apply bodies_raise.
Qed.
End Stages.

(** X6.  A stage of enrichment that is switched on reads the code of every
    row as a text: when the stages return, every row has one.  With the
    details alone switched on, they return exactly when every row has one,
    whatever the detail endpoint answers.  On a frame without the column
    ['종목코드'] the stages end with [KeyError] at the first row.  A row whose
    code is not a text (NaN, a number) ends them with [AttributeError] when
    it is the first row, or when the details are switched on and every row
    before it has a text code: the error leaves [collect_all_data], and the
    rows enriched before it are lost. *)
Theorem enrichment_needs_text_codes `{Runtime} (p : provider)
    (include_detail include_news : bool) (rows : list row) :
  include_detail || include_news = true ->
  ((exists t, enrich_stages p include_detail include_news rows = Ok t) ->
   Forall has_code rows)
  /\ (include_news = false ->
      ((exists t, enrich_stages p include_detail include_news rows = Ok t)
       <-> Forall has_code rows))
  /\ (rows ≠ [] ->
      Forall (fun r : row => r !! py "종목코드" = None) rows ->
      enrich_stages p include_detail include_news rows = Raise KeyError)
  /\ (forall i r v,
        include_detail = true \/ i = 0%nat ->
        Forall has_code (take i rows) ->
        rows !! i = Some r ->
        r !! py "종목코드" = Some v ->
        (forall s, v ≠ VStr s) ->
        enrich_stages p include_detail include_news rows
          = Raise AttributeError).
Proof.
  intros Hflag. split; [|split; [|split]].
  - intros [t Ht]. by eapply enrich_stages_ok_inv.
  - intros _. split.
    + intros [t Ht]. by eapply enrich_stages_ok_inv.
    + intros Hrows. eexists. by apply enrich_stages_closed.
  - intros Hne Hnone. destruct rows as [|r rows]; [done|].
    apply (enrich_stages_raise p _ _ _ 0 r); [done | by rewrite take_0 | done |].
    apply Forall_cons in Hnone as [Hr _]. unfold row_text. by rewrite Hr.
  - intros i r v _ Hbefore Hi Hv Htext.
    apply (enrich_stages_raise p _ _ _ i r); [done | done | done |].
    unfold row_text. rewrite Hv.
    destruct v as [| |s|]; try done. by destruct (Htext s).
Qed.

Lemma enrichment_needs_text_codes_witness :
  (exists t, enrich_stages (H := reference_runtime) sample_provider true
                           false [sample_row] = Ok t)
  /\ enrich_stages (H := reference_runtime) sample_provider false true
                   [<[py "종목코드" := VNaN]> sample_row]
     = Raise AttributeError.
Proof.
  split.
  - destruct (enrichment_needs_text_codes (H := reference_runtime)
                sample_provider true false [sample_row] eq_refl)
      as (_ & Hiff & _).
    apply (Hiff eq_refl).
    apply Forall_cons_2; [|apply Forall_nil_2].
    exists (py "A005930"). vm_compute. reflexivity.
  - destruct (enrichment_needs_text_codes (H := reference_runtime)
                sample_provider false true
                [<[py "종목코드" := VNaN]> sample_row] eq_refl)
      as (_ & _ & _ & Hattr).
    apply (Hattr 0%nat (<[py "종목코드" := VNaN]> sample_row) VNaN).
    + by right.
    + apply Forall_nil_2.
    + reflexivity.
    + apply lookup_insert_eq.
    + intros s. discriminate.
Defined.

(** X7.  When the stages return, the table has the rows it had, in their
    order: stage 2 has set the two profile columns of every row and stage 3
    its twenty-four slot columns, each stage only if its flag is set, and
    every other cell is as it was.  With both flags off the table is
    returned as it is. *)
Theorem enrichment_keeps_the_table `{Runtime} (p : provider)
    (include_detail include_news : bool) (rows t : list row) :
  enrich_stages p include_detail include_news rows = Ok t ->
  length t = length rows
  /\ t = (if include_news then imap (with_facets p) else id)
           ((if include_detail then imap (with_detail p) else id) rows)
  /\ (forall j r r' k,
        rows !! j = Some r -> t !! j = Some r' ->
        k ∉ (if include_detail then facet_columns Profile else [])
            ++ (if include_news then written_columns else []) ->
        r' !! k = r !! k).
Proof.
  intros Hrun.
  assert (t = (if include_news then imap (with_facets p) else id)
                ((if include_detail then imap (with_detail p) else id) rows))
    as ->.
  { destruct (include_detail || include_news) eqn:Hflag.
    - rewrite enrich_stages_closed in Hrun
        by (by eapply enrich_stages_ok_inv).
      by injection Hrun as <-.
    - apply orb_false_elim in Hflag as [-> ->]. by injection Hrun as <-. }
  split; [|split; [done|]].
  - destruct include_detail, include_news; cbn [id];
      by rewrite ?length_imap.
  - intros j r r' k Hr Hr' Hk.
    destruct include_detail, include_news; cbn [id] in Hr'.
    all: cbv iota in Hk; apply not_elem_of_app in Hk as [Hd Hn].
    all: rewrite ?list_lookup_imap, ?Hr in Hr'.
    all: cbn [fmap option_fmap option_map] in Hr'.
    all: rewrite ?list_lookup_imap, ?Hr in Hr'.
    all: cbn [fmap option_fmap option_map] in Hr'.
    all: injection Hr' as <-.
    all: rewrite ?facets_row_frame by done.
    all: try done.
    all: unfold with_detail; cbn [facet_columns] in Hd.
    all: apply not_elem_of_cons in Hd as [? Hd].
    all: apply not_elem_of_cons in Hd as [? _].
    all: by rewrite !lookup_insert_ne.
Qed.

Lemma enrichment_keeps_the_table_witness :
  let t := imap (with_detail sample_provider) [sample_row; sample_row] in
  length t = length [sample_row; sample_row]
  /\ t = id (imap (with_detail sample_provider) [sample_row; sample_row])
  /\ (forall j r r' k,
        [sample_row; sample_row] !! j = Some r -> t !! j = Some r' ->
        k ∉ facet_columns Profile ++ [] ->
        r' !! k = r !! k).
Proof.
  apply (enrichment_keeps_the_table (H := reference_runtime) sample_provider
           true false [sample_row; sample_row]).
  apply (enrich_stages_closed (H := reference_runtime) sample_provider
           true false).
  each_element; exists (py "A005930"); vm_compute; reflexivity.
Defined.

Lemma page_rows_have_code `{Runtime} (p : provider) (page_size start : nat) :
  (forall data, listing p page_size start = Got data -> data ≠ [] ->
                has_column data (py "itemcode") = true) ->
  Forall has_code (fetch_page p page_size start).
Proof.
  intros Hcol. unfold fetch_page.
  destruct (listing p page_size start) as [e|data] eqn:Hreply; [done|].
  destruct data as [|r data]; [done|].
  by apply mapped_rows_have_code, Hcol.
Qed.

(** Records that all carry a key make a frame with its column. *)
Lemma text_key_column (data : list record) (k : pystr) :
  Forall (fun r : record => exists s, r !! k = Some (VStr s)) data ->
  data ≠ [] -> has_column data k = true.
Proof.
  intros Hall Hne. destruct data as [|r data]; [done|].
  apply Forall_cons in Hall as [[s Hs] _].
  unfold has_column. cbn [existsb]. rewrite Hs.
  by rewrite bool_decide_eq_true_2.
Qed.

(** X8.  When every record of every listing page carries its code
    ['itemcode'] as a text and the news stage is switched off,
    [collect_all_data] raises nothing, with or without the details and
    whatever the detail endpoint answers: it returns the table of the pages
    gathered, row for row, each row with its code as a text. *)
Theorem collection_never_raises `{Runtime} (p : provider) (max_stocks : nat)
    (include_detail : bool) :
  (forall start data,
     listing p 100 start = Got data ->
     Forall (fun r : record => exists s, r !! py "itemcode" = Some (VStr s))
            data) ->
  exists st t,
    base_loop (ceil_div max_stocks 100 + 1) p max_stocks 100 loop_init
      = Some st
    /\ collect_all_data (ceil_div max_stocks 100 + 1) p max_stocks
                        include_detail false = Some (Ok t)
    /\ length t = length (concat_pages st)
    /\ Forall has_code (concat_pages st)
    /\ (forall j r r', concat_pages st !! j = Some r -> t !! j = Some r' ->
                       row_code r' = row_code r).
Proof.
  intros Htext.
  destruct (pages_rows_exist p max_stocks) as (st & n & Hrun & Hall).
  assert (Forall has_code (concat_pages st)) as Hcode.
  { unfold concat_pages. rewrite Hall. apply Forall_concat, Forall_forall.
    intros page Hpage. apply list_elem_of_fmap in Hpage as (j & -> & _).
    apply page_rows_have_code. intros data Hdata.
    apply text_key_column. by eapply Htext. }
  pose proof (enrich_stages_closed p include_detail false
                (concat_pages st) Hcode) as Hrich.
  exists st, ((if include_detail then imap (with_detail p) else id)
                (concat_pages st)).
  split; [done|]. split; [|split; [|split; [done|]]].
  - unfold collect_all_data. rewrite Hrun. cbn [mbind option_bind].
    destruct (concat_pages st) as [|r rows] eqn:Hrows; [|by rewrite Hrich].
    by destruct include_detail.
  - destruct include_detail; cbn [id]; by rewrite ?length_imap.
  - intros j r r' Hr Hr'.
    pose proof (Forall_lookup_1 _ _ _ _ Hcode Hr) as Hrc.
    destruct include_detail; cbn [id] in Hr'.
    all: rewrite ?list_lookup_imap, ?Hr in Hr'.
    all: cbn [fmap option_fmap option_map] in Hr'.
    all: injection Hr' as <-.
    all: unfold row_code at 1.
    all: try (unfold with_detail; rewrite !lookup_insert_ne by key_ne).
    all: done.
Qed.

Lemma collection_never_raises_witness :
  exists st t,
    base_loop (H := reference_runtime) (ceil_div 1000 100 + 1)
              sample_provider 1000 100 loop_init = Some st
    /\ collect_all_data (H := reference_runtime) (ceil_div 1000 100 + 1)
                        sample_provider 1000 true false = Some (Ok t)
    /\ length t = length (concat_pages st)
    /\ Forall has_code (concat_pages st)
    /\ (forall j r r', concat_pages st !! j = Some r -> t !! j = Some r' ->
                       row_code r' = row_code r).
Proof.
  apply (collection_never_raises (H := reference_runtime) sample_provider
           1000 true).
  intros start data. cbn [sample_provider listing].
  destruct (start =? 0)%nat; intros [= <-]; [|done].
  repeat (apply Forall_cons_2; [eexists; vm_compute; reflexivity|]).
  apply Forall_nil_2.
Defined.

(** ** The enrichment fetches *)

Section ReadableParts.
Context `{Runtime}.



End ReadableParts.




Section Bounds.
Context `{Runtime}.
Local Arguments Nat.leb : simpl never.
Variable cutoff_date : datetime.
Variable max : nat.
Local Open Scope nat_scope.

Lemma accept_loop_bound (accept : item -> option entry) (its : list item)
    (acc : list entry) :
  length acc < Nat.max 1 max ->
  length (accept_loop accept max its acc) <= Nat.max 1 max.
Proof.
  revert acc. induction its as [|it its IH]; intros acc Hacc;
    cbn [accept_loop]; [lia|].
  destruct (accept it) as [e|]; [|by apply IH].
  destruct (Nat.leb_spec max (length (acc ++ [e]))) as [Hfull|Hmore].
  - rewrite length_app. cbn. lia.
  - apply IH. lia.
Qed.

Lemma news_items_bound (its : list item) (acc : list entry) :
  length acc < Nat.max 1 max ->
  length (news_items cutoff_date max its acc).1 <= Nat.max 1 max.
Proof.
  revert acc. induction its as [|it its IH]; intros acc Hacc.
  - cbn. lia.
  - rewrite news_items_step. destruct (unreadable it); [cbn; lia|].
    destruct (news_accept cutoff_date it) as [e|]; [|by apply IH].
    destruct (Nat.leb_spec max (length (acc ++ [e]))) as [Hfull|Hmore].
    + cbn [fst]. rewrite length_app. cbn. lia.
    + apply IH. lia.
Qed.

Lemma news_clusters_bound (cs : list cluster) (acc : list entry) :
  length acc < Nat.max 1 max ->
  length (news_clusters cutoff_date max cs acc).1 <= Nat.max 1 max.
Proof.
  revert acc. induction cs as [|c cs IH]; intros acc Hacc;
    cbn [news_clusters].
  - cbn. lia.
  - destruct (items c) as [its|]; [|cbn; lia].
    pose proof (news_items_bound its acc Hacc) as Hin.
    destruct (news_items cutoff_date max its acc) as [got sg].
    cbn [fst] in Hin.
    assert (length (if max <=? length got
                    then (got, Break)
                    else news_clusters cutoff_date max cs got).1
            <= Nat.max 1 max) as Hgo.
    { destruct (Nat.leb_spec max (length got)); [done|]. apply IH. lia. }
    by destruct sg.
Qed.
End Bounds.

(** X10.  Whatever the provider answers, a failure or any payload, readable
    or not, each of the three facet fetches returns at most [max] entries;
    with a limit of 0 the test after the append still lets one entry
    through. *)
Theorem facet_lists_bounded `{Runtime} (now : datetime)
    (news : pystr -> response news_payload)
    (notices ir : pystr -> response list_payload)
    (code : pystr) (months : Z) (max : nat) :
  (length (get_recent_news now news code months max) <= Nat.max 1 max)%nat
  /\ (length (get_recent_notices now notices code months max)
      <= Nat.max 1 max)%nat
  /\ (length (get_recent_ir now ir code months max) <= Nat.max 1 max)%nat.
Proof.
  unfold get_recent_news, get_recent_notices, get_recent_ir.
  split; [|split].
  - destruct (news _) as [e|[[cs|]]]; cbn [clusters length]; try lia.
    apply news_clusters_bound. cbn. lia.
  - destruct (notices _) as [e|[|its]]; cbn [length]; try lia.
    apply accept_loop_bound. cbn. lia.
  - destruct (ir _) as [e|[|its]]; cbn [length]; try lia.
    apply accept_loop_bound. cbn. lia.
Qed.

Lemma replace_char_id (c : N) (s : pystr) :
  c ∉ s -> replace_char c [] s = s.
Proof.
  unfold replace_char. induction s as [|x s IH]; [done|].
  rewrite not_elem_of_cons. intros [Hx Hs]. cbn [flat_map].
  destruct (N.eqb_spec x c) as [->|_]; [done|]. by rewrite IH.
Qed.

Lemma replace_char_prefix (c : N) (s : pystr) :
  c ∉ s -> replace_char c [] (c :: s) = s.
Proof.
  intros Hs. unfold replace_char. cbn [flat_map]. rewrite N.eqb_refl.
  by apply replace_char_id.
Qed.

(** X11.  The four enrichment fetches remove every letter ['A'] from the
    code before they ask the provider, not only a leading one.  The provider
    is thus never asked about a code that contains the letter, and for the
    code ['A'] followed by a code without the letter, as the mapper writes
    it, the request is made for that code. *)
Theorem code_letters_stripped `{Runtime} (now : datetime)
    (detail : pystr -> response item)
    (news : pystr -> response news_payload)
    (notices ir : pystr -> response list_payload)
    (months : Z) (max : nat) :
  (forall code,
     let guard {A} (fetch : pystr -> response A) (c : pystr) :=
       if bool_decide (ch "A" ∈ c) then Failed RequestException else fetch c in
     get_stock_detail detail code = get_stock_detail (guard detail) code
     /\ get_recent_news now news code months max
        = get_recent_news now (guard news) code months max
     /\ get_recent_notices now notices code months max
        = get_recent_notices now (guard notices) code months max
     /\ get_recent_ir now ir code months max
        = get_recent_ir now (guard ir) code months max)
  /\ (forall raw,
        ch "A" ∉ raw ->
        get_stock_detail detail (py "A" ++ raw)
          = get_stock_detail (fun _ => detail raw) (py "A" ++ raw)
        /\ get_recent_news now news (py "A" ++ raw) months max
           = get_recent_news now (fun _ => news raw) (py "A" ++ raw)
                             months max
        /\ get_recent_notices now notices (py "A" ++ raw) months max
           = get_recent_notices now (fun _ => notices raw) (py "A" ++ raw)
                                months max
        /\ get_recent_ir now ir (py "A" ++ raw) months max
           = get_recent_ir now (fun _ => ir raw) (py "A" ++ raw) months max).
Proof.
  split.
  - intros code guard.
    unfold get_stock_detail, get_recent_news, get_recent_notices,
      get_recent_ir, guard.
    by rewrite !bool_decide_eq_false_2 by apply replace_char_drops.
  - intros raw Hraw.
    unfold get_stock_detail, get_recent_news, get_recent_notices,
      get_recent_ir.
    change (py "A" ++ raw) with (ch "A" :: raw).
    by rewrite !replace_char_prefix.
Qed.

Lemma code_letters_stripped_witness :
  get_stock_detail (fun _ => Got sample_detail) (py "A" ++ py "005930")
    = get_stock_detail (fun _ => (fun _ => Got sample_detail) (py "005930"))
                       (py "A" ++ py "005930")
  /\ get_recent_news (H := reference_runtime) noon (fun _ => Got sample_news)
                     (py "A" ++ py "005930") 3 3
     = get_recent_news (H := reference_runtime) noon
                       (fun _ => (fun _ => Got sample_news) (py "005930"))
                       (py "A" ++ py "005930") 3 3
  /\ get_recent_notices (H := reference_runtime) noon
                        (fun _ => Got sample_notices)
                        (py "A" ++ py "005930") 3 3
     = get_recent_notices (H := reference_runtime) noon
                          (fun _ => (fun _ => Got sample_notices)
                                      (py "005930"))
                          (py "A" ++ py "005930") 3 3
  /\ get_recent_ir (H := reference_runtime) noon (fun _ => Got sample_ir)
                   (py "A" ++ py "005930") 3 3
     = get_recent_ir (H := reference_runtime) noon
                     (fun _ => (fun _ => Got sample_ir) (py "005930"))
                     (py "A" ++ py "005930") 3 3.
Proof.
  destruct (code_letters_stripped (H := reference_runtime) noon
              (fun _ => Got sample_detail) (fun _ => Got sample_news)
              (fun _ => Got sample_notices) (fun _ => Got sample_ir) 3 3)
    as [_ Hraw].
  apply (Hraw (py "005930")). not_in.
Defined.

Section Split.
Local Open Scope nat_scope.

(** [c in s] for a one-character pattern. *)
Lemma contains_single (c : N) (s : pystr) :
  contains [c] s = true <-> c ∈ s.
Proof.
  induction s as [|x s IH]; cbn [contains starts_with].
  - split; [done|]. by intros ?%elem_of_nil.
  - rewrite orb_true_iff, andb_true_r, N.eqb_eq, IH, elem_of_cons.
    split; intros [?|?]; auto.
Qed.

(** The first piece of a split on one character is the text before its
    first occurrence. *)
Lemma split_first_piece (c : N) (front back cur : pystr) :
  c ∉ front ->
  split_go [c] cur 0 (front ++ c :: back) !! 0 = Some (rev cur ++ front).
Proof.
  revert cur. induction front as [|x front IH]; intros cur Hfront.
  - cbn [app split_go starts_with]. rewrite N.eqb_refl. cbn.
    by rewrite app_nil_r.
  - apply not_elem_of_cons in Hfront as [Hx Hfront].
    cbn [app split_go starts_with].
    destruct (N.eqb_spec c x) as [->|_]; [done|]. cbn [andb].
    rewrite IH by done. cbn [rev]. by rewrite <- app_assoc.
Qed.

(** Without the character there is one piece, the text itself. *)
Lemma split_no_separator (c : N) (s cur : pystr) :
  c ∉ s -> split_go [c] cur 0 s = [rev cur ++ s].
Proof.
  revert cur. induction s as [|x s IH]; intros cur Hs.
  - cbn. by rewrite app_nil_r.
  - apply not_elem_of_cons in Hs as [Hx Hs]. cbn [split_go starts_with].
    destruct (N.eqb_spec c x) as [->|_]; [done|]. cbn [andb].
    rewrite IH by done. cbn [rev]. by rewrite <- app_assoc.
Qed.
End Split.

(** X12.  The link of a filing is built from the text of ['bizdateSeq']
    before its first underscore, whatever follows it, and there is no link
    when the field has no underscore (or is absent). *)
Theorem notice_link_shape (front back biz_seq : pystr) :
  (ch "_" ∉ front ->
   notice_link (front ++ py "_" ++ back)
     = py "https://dart.fss.or.kr/dsaf001/main.do?rcpNo=" ++ front)
  /\ (notice_link biz_seq = [] <-> ch "_" ∉ biz_seq).
Proof.
  assert (forall s, ch "_" ∉ s -> notice_link s = []) as Hnone.
  { intros s Hs. unfold notice_link.
    destruct (contains (py "_") s) eqn:Hc; [|done].
    by apply (contains_single (ch "_")) in Hc. }
  split; [|split; [|apply Hnone]].
  - intros Hfront. unfold notice_link.
    assert (contains (py "_") (front ++ py "_" ++ back) = true) as ->.
    { apply (contains_single (ch "_")), elem_of_app. right. by left. }
    unfold py_split.
    change (py "_" ++ back) with (ch "_" :: back).
    change (py "_") with [ch "_"].
    by rewrite split_first_piece.
  - intros Hlink Hin. unfold notice_link in Hlink.
    apply (contains_single (ch "_")) in Hin.
    change [ch "_"] with (py "_") in Hin. rewrite Hin in Hlink.
    discriminate Hlink.
Qed.

Lemma notice_link_shape_witness :
  notice_link (py "20240320000123" ++ py "_" ++ py "1_2")
    = py "https://dart.fss.or.kr/dsaf001/main.do?rcpNo="
      ++ py "20240320000123".
Proof.
  apply (notice_link_shape (py "20240320000123") (py "1_2") []).
  not_in.
Defined.

(** ** The worksheet *)

Section Exceptions.
Local Open Scope nat_scope.


Lemma index_Some_elem (x : pystr) (l : list pystr) (i : nat) :
  index x l = Some i -> x ∈ l.
Proof. intros Hi%index_lookup. by eapply list_elem_of_lookup_2. Qed.





(** The sheet that [save_to_excel_with_hyperlinks] returns. *)
Lemma save_ok_form (columns : list pystr) (rows : list (list value))
    (ws : sheet) :
  save_to_excel_with_hyperlinks (written_sheet columns rows) = Ok ws ->
  title_errors (written_sheet columns rows) (seq 2 (length rows)) = []
  /\ ws = adjust_widths
            (hide_link_columns
               (put_links (written_sheet columns rows)
                  (flat_map (title_writes (written_sheet columns rows)
                                          title_columns)
                            (seq 2 (length rows))))).
Proof.
  rewrite save_eq, max_row_written.
  destruct (title_errors _ _); [|done]. by intros [= <-].
Qed.

End Exceptions.



Section LinkedCells.
Local Open Scope nat_scope.

(** A cell that holds something after the writes held it before or was
    written. *)
Lemma writes_lookup_inv {V} (f : nat * nat * value -> V)
    (writes : list (nat * nat * value)) (m : gmap (nat * nat) V)
    (k : nat * nat) (x : V) :
  foldl (fun m w => <[w.1 := f w]> m) m writes !! k = Some x ->
  m !! k = Some x \/ exists w, w ∈ writes /\ w.1 = k /\ f w = x.
Proof.
  revert m. induction writes as [|w writes IH]; intros m; [by left|].
  cbn [foldl]. intros [Hm|(w' & Hw' & Hk & Hx)]%IH.
  - destruct (decide (w.1 = k)) as [<-|Hne].
    + rewrite lookup_insert_eq in Hm. injection Hm as <-.
      right. exists w. split; [by left|done].
    + rewrite lookup_insert_ne in Hm by done. by left.
  - right. exists w'. split; [by right|done].
Qed.

(** A cell that was written holds something. *)
Lemma writes_lookup_some {V} (f : nat * nat * value -> V)
    (writes : list (nat * nat * value)) (m : gmap (nat * nat) V)
    (k : nat * nat) :
  Exists (fun w => w.1 = k) writes ->
  is_Some (foldl (fun m w => <[w.1 := f w]> m) m writes !! k).
Proof.
  revert m. induction writes as [|w0 writes IH]; intros m Hw.
  - by apply Exists_nil in Hw.
  - cbn [foldl].
    destruct (decide (Exists (fun w => w.1 = k) writes)) as [Hex|Hnex].
    + by apply IH.
    + apply Exists_cons in Hw as [<-|Hw]; [|done].
      rewrite writes_other.
      * rewrite lookup_insert_eq. by eexists.
      * intros w' Hw' Heq. apply Hnex, Exists_exists. by exists w'.
Qed.

End LinkedCells.

(** X14.  In the sheet that is written for a table with records, a
    hyperlink sits only on a cell of a record (never on the header) in one
    of the six title columns whose link cell in the same row is true, and
    it is the value of that link cell.  The IR titles, which are no title
    columns of the loop, get none.  The blue underlined font is on the cells
    with a hyperlink and on no other. *)
Theorem hyperlinks_only_on_titles (columns : list pystr)
    (rows : list (list value)) (ws : sheet) :
  rows ≠ [] ->
  save_to_excel_with_hyperlinks (written_sheet columns rows) = Ok ws ->
  forall r c,
    (forall v, hyperlink ws !! (r, c) = Some v ->
       (2 <= r <= length rows + 1)%nat
       /\ truthy v = true
       /\ exists n i k,
            n ∈ title_columns
            /\ index (py n) columns = Some i /\ c = (i + 1)%nat
            /\ index (py n ++ py "_링크") columns = Some k
            /\ v = cell_value (written_sheet columns rows) r (k + 1)%nat)
    /\ (is_Some (font ws !! (r, c)) <-> is_Some (hyperlink ws !! (r, c)))
    /\ (forall f, font ws !! (r, c) = Some f ->
                  f = (py "0563C1", py "single")).
Proof.
  intros _ Hrun r c. apply save_ok_form in Hrun as [_ ->].
  set (ws0 := written_sheet columns rows).
  set (writes := flat_map (title_writes ws0 title_columns)
                          (seq 2 (length rows))).
  pose proof (hide_fold (header (put_links ws0 writes)) (put_links ws0 writes))
    as (_ & _ & Hy & Hf & _).
  pose proof (width_fold
                (seq 1 (length (header (hide_link_columns
                                          (put_links ws0 writes)))))
                (hide_link_columns (put_links ws0 writes)))
    as (_ & _ & Hy' & Hf' & _).
  cbv zeta in *. fold (hide_link_columns (put_links ws0 writes)) in *.
  fold (adjust_widths (hide_link_columns (put_links ws0 writes))) in *.
  rewrite Hy', Hy, Hf', Hf, put_links_hyperlink, put_links_font.
  cbn [ws0 written_sheet hyperlink font]. fold ws0.
  split; [|split].
  - intros v [Hm|([[r' c'] v'] & Hw & Hk & Hv)]%writes_lookup_inv;
      [by rewrite lookup_empty in Hm|].
    cbn [fst snd] in Hk, Hv. injection Hk as -> ->. subst v'.
    apply title_write_inv in Hw as (Hr & n & Hn & Hl).
    apply elem_of_seq in Hr. split; [lia|].
    unfold link_of in Hl. cbn [ws0 written_sheet header] in Hl.
    destruct (index (py n) columns) as [i|] eqn:Hi; [|done].
    destruct (index (py n ++ py "_링크") columns) as [k|] eqn:Hk; [|done].
    destruct (truthy _) eqn:Ht; [|done]. injection Hl as <- <-.
    split; [done|]. by exists n, i, k.
  - split; intros [x Hx].
    + apply writes_lookup_inv in Hx as [Hm|(w & Hw & Hk & _)];
        [by rewrite lookup_empty in Hm|].
      apply (writes_lookup_some (fun w => w.2)), Exists_exists.
      by exists w.
    + apply writes_lookup_inv in Hx as [Hm|(w & Hw & Hk & _)];
        [by rewrite lookup_empty in Hm|].
      apply (writes_lookup_some (fun _ => (py "0563C1", py "single"))),
        Exists_exists.
      by exists w.
  - intros f [Hm|(w & _ & _ & Hf0)]%writes_lookup_inv;
      [by rewrite lookup_empty in Hm | done].
Qed.

Lemma hyperlinks_only_on_titles_witness :
  let ws0 := written_sheet sample_columns sample_cells in
  let ws := adjust_widths
              (hide_link_columns
                 (put_links ws0
                    (flat_map (title_writes ws0 title_columns)
                              (seq 2 (max_row ws0 - 1))))) in
  (forall v, hyperlink ws !! (2%nat, 2%nat) = Some v ->
     (2 <= 2 <= length sample_cells + 1)%nat
     /\ truthy v = true
     /\ exists n i k,
          n ∈ title_columns
          /\ index (py n) sample_columns = Some i /\ 2%nat = (i + 1)%nat
          /\ index (py n ++ py "_링크") sample_columns = Some k
          /\ v = cell_value ws0 2 (k + 1)%nat)
  /\ (is_Some (font ws !! (2%nat, 2%nat))
      <-> is_Some (hyperlink ws !! (2%nat, 2%nat)))
  /\ (forall f, font ws !! (2%nat, 2%nat) = Some f ->
                f = (py "0563C1", py "single")).
Proof.
  intros ws0 ws.
  apply (hyperlinks_only_on_titles sample_columns sample_cells ws);
    [discriminate|].
  rewrite save_eq, max_row_written.
  rewrite written_sheet_safe
    by (apply sample_links_present || apply sample_link_cells_text).
  reflexivity.
Defined.

Section Columns.
Local Open Scope nat_scope.

Lemma hide_column_keeps (ws : sheet) (x : pystr) :
  header (hide_column ws x) = header ws.
Proof.
  unfold hide_column. destruct (contains _ x); [|done].
  by destruct (index x (header ws)).
Qed.

(** A column is hidden only for a name of the header that contains the
    marker, at the place of its first occurrence. *)
Lemma hide_fold_inv (l : list pystr) (ws : sheet) (c : nat) :
  c ∈ hidden (foldl hide_column ws l) ->
  c ∈ hidden ws
  \/ exists name i, name ∈ l /\ contains (py "_링크") name = true
                    /\ index name (header ws) = Some i /\ c = i + 1.
Proof.
  revert ws. induction l as [|x l IH]; intros ws; [by left|].
  cbn [foldl]. intros [Hc|(name & i & Hname & Hm & Hi & ->)]%IH.
  - unfold hide_column in Hc.
    destruct (contains _ x) eqn:Hm; [|by left].
    destruct (index x (header ws)) as [i|] eqn:Hi; [|by left].
    cbn [hidden] in Hc. apply elem_of_union in Hc as [Hc|Hc]; [|by left].
    apply elem_of_singleton in Hc as ->.
    right. exists x, i. split; [by left|done].
  - rewrite hide_column_keeps in Hi.
    right. exists name, i. split; [by right|done].
Qed.

Lemma max_length_ext (ws ws' : sheet) (c : nat) :
  header ws' = header ws -> body ws' = body ws ->
  (forall r, cell_value ws' r c = cell_value ws r c) ->
  max_length ws' c = max_length ws c.
Proof.
  intros Hh Hb Hcells. unfold max_length, column_cells, max_row.
  rewrite Hh, Hb. do 2 f_equal. apply map_ext. intros r. apply Hcells.
Qed.

Lemma adjust_width_step (ws : sheet) (c0 : nat) :
  header (adjust_width ws c0) = header ws
  /\ body (adjust_width ws c0) = body ws
  /\ hidden (adjust_width ws c0) = hidden ws
  /\ (forall r c, cell_value (adjust_width ws c0) r c = cell_value ws r c)
  /\ width (adjust_width ws c0)
     = if bool_decide (c0 ∈ hidden ws) then width ws
       else <[c0 := Nat.min (max_length ws c0 + 2) 50]> (width ws).
Proof. unfold adjust_width. by case_bool_decide. Qed.

(** The width of every column after the sizing loop. *)
Lemma width_fold_lookup (l : list nat) (ws : sheet) (c : nat) :
  NoDup l ->
  width (foldl adjust_width ws l) !! c
    = if bool_decide (c ∈ l /\ c ∉ hidden ws)
      then Some (Nat.min (max_length ws c + 2) 50)
      else width ws !! c.
Proof.
  revert ws. induction l as [|c0 l IH]; intros ws Hnd.
  - cbn [foldl]. rewrite bool_decide_eq_false_2; [done|].
    by intros [?%elem_of_nil _].
  - apply NoDup_cons in Hnd as [Hc0 Hnd]. cbn [foldl].
    destruct (adjust_width_step ws c0) as (Hh & Hb & Hd & Hcells & Hw).
    rewrite IH, Hd, Hw, (max_length_ext ws) by done.
    destruct (decide (c ∈ l)) as [Hin|Hout].
    + assert (c ≠ c0) as Hne by (by intros ->).
      destruct (decide (c ∈ hidden ws)) as [Hhid|Hvis].
      * rewrite (bool_decide_eq_false_2 (c ∈ l /\ _)) by (by intros [_ ?]).
        rewrite (bool_decide_eq_false_2 (c ∈ c0 :: l /\ _))
          by (by intros [_ ?]).
        case_bool_decide; [done|]. by rewrite lookup_insert_ne.
      * rewrite (bool_decide_eq_true_2 (c ∈ l /\ _)) by done.
        rewrite (bool_decide_eq_true_2 (c ∈ c0 :: l /\ _)); [done|].
        split; [by right|done].
    + rewrite (bool_decide_eq_false_2 (c ∈ l /\ _)) by (by intros [? _]).
      destruct (decide (c = c0)) as [->|Hne].
      * case_bool_decide as Hhid.
        -- rewrite bool_decide_eq_false_2; [done|]. by intros [_ ?].
        -- rewrite lookup_insert_eq, bool_decide_eq_true_2; [done|].
           split; [by left|done].
      * rewrite (bool_decide_eq_false_2 (c ∈ c0 :: l /\ _)).
        -- case_bool_decide; [done|]. by rewrite lookup_insert_ne.
        -- intros [[?|?]%elem_of_cons _]; done.
Qed.

Lemma hide_fold_width (l : list pystr) (ws : sheet) :
  width (foldl hide_column ws l) = width ws.
Proof.
  revert ws. induction l as [|x l IH]; intros ws; [done|].
  cbn [foldl]. rewrite IH. unfold hide_column.
  destruct (contains _ x); [|done]. by destruct (index x (header ws)).
Qed.
End Columns.

Section FinalCells.
Local Open Scope nat_scope.

(** The value of every cell of the written sheet: a blank cell that got a
    hyperlink shows its target, every other cell what was loaded. *)
Lemma linked_cells (ws0 : sheet) (rs : list nat) (r c : nat) :
  hyperlink ws0 = ∅ ->
  let ws1 := put_links ws0 (flat_map (title_writes ws0 title_columns) rs) in
  cell_value ws1 r c
    = match hyperlink ws1 !! (r, c) with
      | Some target =>
        if bool_decide (cell_value ws0 r c = VNone) then target
        else cell_value ws0 r c
      | None => cell_value ws0 r c
      end.
Proof.
  intros Hempty ws1. subst ws1.
  set (writes := flat_map (title_writes ws0 title_columns) rs).
  rewrite put_links_hyperlink, Hempty.
  destruct (foldl _ ∅ writes !! (r, c)) as [v|] eqn:Hl.
  - apply writes_lookup_inv in Hl as [Hm|([[r' c'] v'] & Hw & Hk & Hv)];
      [by rewrite lookup_empty in Hm|].
    cbn [fst snd] in Hk, Hv. injection Hk as -> ->. subst v'.
    case_bool_decide as Hblank.
    + apply put_links_blank; [done| |done|].
      * apply title_write_inv in Hw as (_ & n & _ & Hlink).
        unfold link_of in Hlink.
        destruct (index (py n) _); [|done].
        destruct (index (py n ++ _) _); [|done].
        destruct (truthy _) eqn:Ht; [|done]. injection Hlink as _ <-.
        intros Hnone. by rewrite Hnone in Ht.
      * intros v' Hw'. by eapply title_writes_functional.
    + by apply put_links_valued.
  - apply put_links_other. intros w Hw Hk.
    assert (Exists (fun w => w.1 = (r, c)) writes) as Hex
      by (apply Exists_exists; by exists w).
    apply (writes_lookup_some (fun w => w.2) _ (∅ : gmap (nat * nat) value))
      in Hex as [x Hx].
    congruence.
Qed.
End FinalCells.

(** X15.  In the sheet that is written for a table with records, a column
    is hidden exactly when it is the first column of a name that contains
    ['_링크'], anywhere in the name.  A hidden column is not sized, and every
    other column of the header gets the width of the longest text that the
    written sheet shows in it, header included, plus 2, and at most 50: a
    width between 2 and 50.  What the written sheet shows in a cell is what
    was loaded, except in a blank cell that got a hyperlink, which shows the
    target of the hyperlink. *)
Theorem hidden_and_sized_columns (columns : list pystr)
    (rows : list (list value)) (ws : sheet) :
  rows ≠ [] ->
  save_to_excel_with_hyperlinks (written_sheet columns rows) = Ok ws ->
  (forall c,
     c ∈ hidden ws
     <-> exists name i, contains (py "_링크") name = true
                        /\ index name columns = Some i /\ c = (i + 1)%nat)
  /\ (forall c,
        width ws !! c
          = if bool_decide ((1 <= c <= length columns)%nat /\ c ∉ hidden ws)
            then Some (Nat.min (max_length ws c + 2) 50)
            else None)
  /\ (forall c w, width ws !! c = Some w -> (2 <= w <= 50)%nat)
  /\ (forall r c,
        cell_value ws r c
          = match hyperlink ws !! (r, c) with
            | Some target =>
              if bool_decide
                   (cell_value (written_sheet columns rows) r c = VNone)
              then target
              else cell_value (written_sheet columns rows) r c
            | None => cell_value (written_sheet columns rows) r c
            end).
Proof.
  intros _ Hrun. apply save_ok_form in Hrun as [_ ->].
  set (ws0 := written_sheet columns rows).
  set (writes := flat_map (title_writes ws0 title_columns)
                          (seq 2 (length rows))).
  set (ws1 := put_links ws0 writes).
  pose proof (put_links_frame ws0 writes) as (Hh0 & Hb0 & Hd0 & Hw0).
  pose proof (hide_fold (header ws1) ws1) as (Hh & Hb & Hy & _ & _ & Hhid).
  pose proof (width_fold (seq 1 (length (header (hide_link_columns ws1))))
                (hide_link_columns ws1)) as (Hh' & Hb' & Hy' & _ & Hd').
  cbv zeta in *. fold ws1 in Hh0, Hb0, Hd0, Hw0.
  fold (hide_link_columns ws1) in *.
  fold (adjust_widths (hide_link_columns ws1)) in *.
  assert (forall c,
            width (adjust_widths (hide_link_columns ws1)) !! c
              = if bool_decide ((1 <= c <= length columns)%nat
                                /\ c ∉ hidden (adjust_widths
                                                 (hide_link_columns ws1)))
                then Some (Nat.min
                             (max_length
                                (adjust_widths (hide_link_columns ws1)) c + 2)
                             50)
                else None) as Hwidth.
  { intros c. unfold adjust_widths at 1.
    rewrite width_fold_lookup by apply NoDup_seq.
    rewrite Hd', Hh, Hh0.
    rewrite (max_length_ext (hide_link_columns ws1)
               (adjust_widths (hide_link_columns ws1)) c Hh' Hb')
      by (intros r; apply width_fold_cells).
    assert (width (hide_link_columns ws1) = ∅) as ->.
    { unfold hide_link_columns. by rewrite hide_fold_width, Hw0. }
    cbn [ws0 written_sheet header]. rewrite lookup_empty.
    apply (f_equal (fun b : bool => if b then _ else _)).
    apply bool_decide_ext. rewrite elem_of_seq.
    split; intros [? ?]; (split; [lia|done]). }
  split; [|split; [|split]].
  - intros c. rewrite Hd'. split.
    + intros [Hc|(name & i & _ & Hm & Hi & ->)]%hide_fold_inv.
      * rewrite Hd0 in Hc. by apply elem_of_empty in Hc.
      * rewrite Hh0 in Hi. by exists name, i.
    + intros (name & i & Hm & Hi & ->).
      apply (Hhid name i); rewrite ?Hh0; [|done|done].
      by eapply index_Some_elem.
  - exact Hwidth.
  - intros c w. rewrite Hwidth. case_bool_decide; [|done].
    intros [= <-]. lia.
  - intros r c. rewrite styled_cells, Hy', Hy.
    by apply linked_cells.
Qed.

Lemma hidden_and_sized_columns_witness :
  let ws0 := written_sheet sample_columns sample_cells in
  let ws := adjust_widths
              (hide_link_columns
                 (put_links ws0
                    (flat_map (title_writes ws0 title_columns)
                              (seq 2 (length sample_cells))))) in
  (forall c,
     c ∈ hidden ws
     <-> exists name i, contains (py "_링크") name = true
                        /\ index name sample_columns = Some i
                        /\ c = (i + 1)%nat)
  /\ (forall c,
        width ws !! c
          = if bool_decide ((1 <= c <= length sample_columns)%nat
                            /\ c ∉ hidden ws)
            then Some (Nat.min (max_length ws c + 2) 50)
            else None)
  /\ (forall c w, width ws !! c = Some w -> (2 <= w <= 50)%nat)
  /\ (forall r c,
        cell_value ws r c
          = match hyperlink ws !! (r, c) with
            | Some target =>
              if bool_decide (cell_value ws0 r c = VNone) then target
              else cell_value ws0 r c
            | None => cell_value ws0 r c
            end).
Proof.
  intros ws0 ws.
  apply (hidden_and_sized_columns sample_columns sample_cells ws);
    [discriminate|].
  rewrite save_eq, max_row_written.
  rewrite written_sheet_safe
    by (apply sample_links_present || apply sample_link_cells_text).
  reflexivity.
Defined.

(** ** The listing page of the search ranking *)

(** X16.  Of the rows of the listing table, [get_search_top_stocks] reads
    those with at least eleven cells whose class is not [['type1']], in the
    order of the page; the tests for a row without cells and for a single
    cell with a [colspan] pass over nothing that the test on the number of
    cells would keep. *)
Theorem listing_rows_kept `{Runtime} (rows : list tr) :
  parse_rows rows
    = map (fun row => parse_row (tr_cols row))
          (List.filter (fun row => negb (skipped row)) rows)
  /\ (forall row,
        skipped row = true
        <-> (length (tr_cols row) < 11)%nat
            \/ tr_class row = Some [py "type1"]).
Proof.
  split.
  - unfold parse_rows. induction rows as [|row rows IH]; [done|].
    cbn [flat_map List.filter]. rewrite IH.
    by destruct (skipped row).
  - intros row. unfold skipped.
    rewrite !orb_true_iff, andb_true_iff, !bool_decide_eq_true, Nat.ltb_lt.
    split.
    + intros [[[Hnil|Hcls]|[Hone _]]|Hlt]; try (left; lia); [|by right].
      left. rewrite Hnil. cbn. lia.
    + intros [Hlt|Hcls]; [by right|]. left. left. by right.
Qed.

(** X17.  The keys that the docstring of [get_search_top_stocks] gives for
    [sort] are no columns of the frame, so that for each of them, the
    default ['changeRate'] included, nothing is sorted: the records come in
    the order of the page whatever [ascending] is.  [get_rising_stocks_only]
    therefore returns, in the order of the page, the records marked ['상승']
    whose rate is a number that passes the threshold. *)
Theorem documented_sort_keys_never_sort `{Runtime}
    (sort_values : pystr -> bool -> list stock_info -> list stock_info)
    (at_least : pyfloat -> bool)
    (reply : response (list table)) (stamp : pystr) (ascending : bool) :
  Forall (fun sort =>
            get_search_top_stocks sort_values reply stamp sort ascending
              = get_search_top_stocks (fun _ _ l => l) reply stamp sort false)
         documented_sort_keys
  /\ get_rising_stocks_only sort_values at_least reply stamp
     = List.filter (fun row => rising at_least row.1)
         (get_search_top_stocks (fun _ _ l => l) reply stamp
                                (py "changeRate") false)
  /\ Forall (fun row =>
               change_type row.1 = py "상승"
               /\ exists v, change_rate row.1 = Some v
                            /\ v ≠ Fnan /\ at_least v = true)
            (get_rising_stocks_only sort_values at_least reply stamp).
Proof.
  assert (forall sort asc,
            sort ∈ documented_sort_keys ->
            get_search_top_stocks sort_values reply stamp sort asc
              = get_search_top_stocks (fun _ _ l => l) reply stamp sort false)
    as Hkeys.
  { intros sort asc Hsort. unfold get_search_top_stocks.
    destruct reply as [e|tables]; [done|].
    destruct (find_table tables) as [t|]; [|done].
    assert (sort ∉ listing_columns) as Hcol.
    { unfold documented_sort_keys in Hsort. cbn [map] in Hsort.
      repeat (apply elem_of_cons in Hsort as [->|Hsort]; [not_in|]).
      by apply elem_of_nil in Hsort. }
    by rewrite !bool_decide_eq_false_2. }
  split; [|split].
  - apply Forall_forall. intros sort Hsort. by apply Hkeys.
  - unfold get_rising_stocks_only. rewrite (Hkeys (py "changeRate") false).
    + done.
    + by left.
  - unfold get_rising_stocks_only. apply Forall_forall. intros row Hrow.
    apply list_elem_of_In, filter_In in Hrow as [_ Hrising].
    unfold rising in Hrising. apply andb_true_iff in Hrising as [Hup Hrate].
    split; [by apply pystr_eqb_true|].
    destruct (change_rate row.1) as [v|]; [|done]. exists v.
    split; [done|]. by destruct v.
Qed.

(** X18.  The direction of the change is one of ['상승'], ['하락'] and
    ['보합'].  It is read off the first span that is not [blind] and whose
    classes mention a colour: the spans before it, [blind] or without a
    colour, do not count, and in that span [red] decides before [nv] and
    [blue]. *)
Theorem change_type_classified (pre rest : list (list pystr))
    (span_class : list pystr) :
  classify_spans rest ∈ [py "상승"; py "하락"; py "보합"]
  /\ (Forall (fun sp =>
                py "blind" ∈ sp
                \/ (contains (py "red") (join (py " ") sp) = false
                    /\ contains (py "nv") (join (py " ") sp) = false
                    /\ contains (py "blue") (join (py " ") sp) = false))
             pre ->
      classify_spans (pre ++ rest) = classify_spans rest)
  /\ (py "blind" ∉ span_class ->
      contains (py "red") (join (py " ") span_class) = true ->
      classify_spans (span_class :: rest) = py "상승").
Proof.
  split; [|split].
  - induction rest as [|sp rest IH]; cbn [classify_spans].
    + do 2 right. by left.
    + case_bool_decide; [done|].
      destruct (contains (py "red") _); [by left|].
      destruct (_ || _); [right; by left | done].
  - induction 1 as [|sp pre Hsp _ IH]; [done|].
    cbn [app classify_spans]. case_bool_decide as Hblind; [done|].
    destruct Hsp as [?|(-> & -> & ->)]; [done|]. done.
  - intros Hblind Hred. cbn [classify_spans].
    by rewrite bool_decide_eq_false_2, Hred.
Qed.

Lemma change_type_classified_witness :
  classify_spans ([[py "blind"; py "red02"]; [py "tah"]]
                    ++ [[py "tah"; py "p11"; py "nv01"]])
    = classify_spans [[py "tah"; py "p11"; py "nv01"]].
Proof.
  apply (change_type_classified
           [[py "blind"; py "red02"]; [py "tah"]]
           [[py "tah"; py "p11"; py "nv01"]] []).
  each_element.
  - left. apply (bool_decide_unpack _). vm_compute. exact I.
  - right. vm_compute. done.
Defined.

(** X19.  The two flags that [main] passes to [collect_all_data]: the news
    stage is run only for the answer 3 and never without the detail stage,
    an empty answer stands for 2, and any answer other than 2 and 3 runs the
    base collection alone. *)
Theorem enrichment_flags_cases `{Runtime} (answer : pystr) :
  let '(include_detail, include_news) := enrichment_flags answer in
  (include_news = true -> include_detail = true)
  /\ (include_news = true <-> strip answer = py "3")
  /\ (strip answer = [] -> include_detail = true /\ include_news = false)
  /\ (include_detail = false
      <-> strip answer ≠ [] /\ strip answer ≠ py "2"
          /\ strip answer ≠ py "3").
Proof.
  unfold enrichment_flags.
  destruct (pystr_eqb (strip answer) []) eqn:Hblank.
  - apply pystr_eqb_true in Hblank. rewrite Hblank.
    repeat split; try done.
    by intros (Hne & _).
  - assert (strip answer ≠ []) as Hne.
    { intros Heq. rewrite Heq in Hblank. done. }
    unfold pystr_eqb.
    split; [|split; [|split]].
    + intros Hn%bool_decide_eq_true. rewrite Hn.
      apply bool_decide_eq_true. right. by left.
    + apply bool_decide_eq_true.
    + done.
    + rewrite bool_decide_eq_false. rewrite !elem_of_cons, elem_of_nil.
      split.
      * intros Hno. repeat split; [done| |]; intros Heq; apply Hno; auto.
      * intros (_ & H2 & H3) [?|[?|[]]]; done.
Qed.

(** ** The numeric parser on digits *)

Section Digits.
Context `{Runtime}.
Local Open Scope N_scope.

Ltac compare_numbers :=
  repeat match goal with
         | |- context [(?a <=? ?b)%N] => destruct (N.leb_spec a b)
         | |- context [(?a <? ?b)%N] => destruct (N.ltb_spec a b)
         | |- context [(?a =? ?b)%N] => destruct (N.eqb_spec a b)
         end;
  cbn [andb orb negb]; try lia; try done.

Lemma is_ascii_digit_bounds (c : N) :
  is_ascii_digit c = true <-> 48 <= c <= 57.
Proof.
  unfold is_ascii_digit, in_range.
  change (ch "0") with 48. change (ch "9") with 57.
  rewrite andb_true_iff, !N.leb_le. done.
Qed.

Lemma digits_and_signs_printable (text : pystr) :
  digits_and_signs text -> Forall printable text.
Proof.
  intros Htext. eapply Forall_impl; [exact Htext|].
  intros c [Hc|Hc]; unfold printable.
  - apply is_ascii_digit_bounds in Hc. lia.
  - unfold dropped in Hc.
    change (ch ",") with 44 in Hc. change (ch "+") with 43 in Hc.
    change (ch "-") with 45 in Hc. change (ch "%") with 37 in Hc.
    repeat (apply elem_of_cons in Hc as [->|Hc]; [lia|]).
    by apply elem_of_nil in Hc.
Qed.

Lemma isspace_printable (c : N) : printable c -> isspace c = false.
Proof.
  unfold printable, isspace, ascii_isspace. intros Hc. compare_numbers.
Qed.

Lemma Forall_rev_chars (P : N -> Prop) (s : pystr) :
  Forall P s -> Forall P (rev s).
Proof.
  rewrite !Forall_forall. intros Hs c Hc. by apply Hs, elem_of_rev.
Qed.

Lemma lstrip_printable (s : pystr) : Forall printable s -> lstrip s = s.
Proof.
  destruct 1 as [|c s Hc _]; [done|].
  cbn [lstrip]. by rewrite isspace_printable.
Qed.

Lemma strip_printable (s : pystr) : Forall printable s -> strip s = s.
Proof.
  intros Hs. unfold strip.
  rewrite (lstrip_printable s), lstrip_printable, rev_involutive;
    [done | by apply Forall_rev_chars | done].
Qed.

Lemma not_printable_out (c : N) (s : pystr) :
  ~ printable c -> Forall printable s -> c ∉ s.
Proof.
  intros Hc Hs Hin. apply Hc. by eapply (proj1 (Forall_forall _ _) Hs).
Qed.

Lemma replace_char_cons (old c : N) (s : pystr) :
  replace_char old [] (c :: s)
    = if c =? old then replace_char old [] s
      else c :: replace_char old [] s.
Proof. unfold replace_char. cbn [flat_map]. by destruct (c =? old). Qed.

Lemma replace_char_app (old : N) (a b : pystr) :
  replace_char old [] (a ++ b)
    = replace_char old [] a ++ replace_char old [] b.
Proof. unfold replace_char. apply flat_map_app. Qed.

(** Removing the comma, the signs and the percent sign leaves the
    digits. *)
Lemma signs_removed (text : pystr) :
  digits_and_signs text ->
  replace_char 37 []
    (replace_char 45 [] (replace_char 43 [] (replace_char 44 [] text)))
    = List.filter is_ascii_digit text.
Proof.
  induction 1 as [|c text Hc _ IH]; [done|].
  cbn [List.filter]. destruct Hc as [Hc|Hc].
  - rewrite Hc. apply is_ascii_digit_bounds in Hc.
    rewrite (replace_char_cons 44).
    destruct (N.eqb_spec c 44); [lia|].
    rewrite (replace_char_cons 43).
    destruct (N.eqb_spec c 43); [lia|].
    rewrite (replace_char_cons 45).
    destruct (N.eqb_spec c 45); [lia|].
    rewrite (replace_char_cons 37).
    destruct (N.eqb_spec c 37); [lia|].
    by rewrite IH.
  - unfold dropped in Hc.
    change (ch ",") with 44 in Hc. change (ch "+") with 43 in Hc.
    change (ch "-") with 45 in Hc. change (ch "%") with 37 in Hc.
    repeat (apply elem_of_cons in Hc as [->|Hc];
            [rewrite ?replace_char_cons; cbn; exact IH|]).
    by apply elem_of_nil in Hc.
Qed.

Lemma point_kept (text : pystr) :
  replace_char 37 []
    (replace_char 45 [] (replace_char 43 [] (replace_char 44 [] (46 :: text))))
    = 46 :: replace_char 37 []
              (replace_char 45 []
                 (replace_char 43 [] (replace_char 44 [] text))).
Proof. by rewrite !replace_char_cons. Qed.

Lemma filter_digits (text : pystr) :
  Forall (fun c => 48 <= c <= 57) (List.filter is_ascii_digit text).
Proof.
  apply Forall_forall. intros c Hc.
  apply list_elem_of_In, filter_In in Hc as [_ Hc].
  by apply is_ascii_digit_bounds.
Qed.

(** The passes of [float] on a text of digits with at most a point do
    nothing, as such a text has no space, no underscore and no character
    beyond ASCII. *)
Lemma transform_numeral (s : pystr) :
  Forall (fun c => c = 46 \/ 48 <= c <= 57) s ->
  transform_decimal_and_space s = Some s.
Proof.
  induction 1 as [|c s Hc _ IH]; [done|].
  cbn [transform_decimal_and_space]. rewrite IH.
  destruct (N.ltb_spec c 127); [done|lia].
Qed.

Lemma strip_underscores_numeral (prev : N) (s : pystr) :
  prev ≠ 95 ->
  Forall (fun c => c = 46 \/ 48 <= c <= 57) s ->
  strip_underscores prev s = Some s.
Proof.
  intros Hprev Hs. revert prev Hprev.
  induction Hs as [|c s Hc _ IH]; intros prev Hprev;
    cbn [strip_underscores]; change (ch "_") with 95.
  - by destruct (N.eqb_spec prev 95).
  - destruct (N.eqb_spec c 95); [lia|].
    destruct (N.eqb_spec prev 95); [done|]. cbn [andb].
    by rewrite IH.
Qed.

Lemma c_lstrip_numeral (s : pystr) :
  Forall (fun c => c = 46 \/ 48 <= c <= 57) s -> c_lstrip s = s.
Proof.
  destruct 1 as [|c s Hc _]; [done|].
  cbn [c_lstrip]. unfold c_isspace. compare_numbers.
Qed.

Lemma py_float_numeral (s : pystr) :
  Forall (fun c => c = 46 \/ 48 <= c <= 57) s ->
  py_float s = parse_strtod s.
Proof.
  intros Hs. unfold py_float.
  rewrite transform_numeral by done. cbn [mbind option_bind].
  rewrite strip_underscores_numeral by done. cbn [mbind option_bind].
  rewrite (c_lstrip_numeral s), c_lstrip_numeral, rev_involutive;
    [done | by apply Forall_rev_chars | done].
Qed.

Lemma take_sign_numeral (s : pystr) :
  Forall (fun c => c = 46 \/ 48 <= c <= 57) s -> take_sign s = (false, s).
Proof.
  destruct 1 as [|c s Hc _]; [done|].
  cbn [take_sign]. change (ch "-") with 45. change (ch "+") with 43.
  compare_numbers.
Qed.

Lemma span_digits_app (a rest : pystr) :
  Forall (fun c => 48 <= c <= 57) a ->
  rest = [] \/ (exists r, rest = 46 :: r) ->
  span_digits (a ++ rest) = (map (fun c => c - 48) a, rest).
Proof.
  intros Ha Hrest. induction Ha as [|c a Hc _ IH].
  - by destruct Hrest as [->|[r ->]].
  - cbn [app span_digits map].
    rewrite (proj2 (is_ascii_digit_bounds c) Hc). by rewrite IH.
Qed.

Lemma digits_numeral (a : pystr) :
  Forall (fun c => 48 <= c <= 57) a ->
  Forall (fun c => c = 46 \/ 48 <= c <= 57) a.
Proof. intros Ha. eapply Forall_impl; [exact Ha|]. intros c Hc. by right. Qed.

(** [strtod] on digits, and on digits with a point among them. *)
Lemma parse_strtod_whole (a : pystr) :
  Forall (fun c => 48 <= c <= 57) a -> a ≠ [] ->
  parse_strtod a
    = Some (Fdec false (digits_value (map (fun c => c - 48) a)) 0%Z).
Proof.
  intros Ha Hne. unfold parse_strtod.
  rewrite take_sign_numeral by (by apply digits_numeral).
  rewrite <- (app_nil_r a) at 1.
  rewrite span_digits_app by (done || by left).
  rewrite app_nil_r.
  destruct a as [|c a]; [done|]. done.
Qed.

Lemma parse_strtod_point (a b : pystr) :
  Forall (fun c => 48 <= c <= 57) a ->
  Forall (fun c => 48 <= c <= 57) b ->
  a ++ b ≠ [] ->
  parse_strtod (a ++ 46 :: b)
    = Some (Fdec false
              (digits_value (map (fun c => c - 48) a
                               ++ map (fun c => c - 48) b))
              (- Z.of_nat (length b))).
Proof.
  intros Ha Hb Hne. unfold parse_strtod.
  rewrite take_sign_numeral.
  2: { apply Forall_app. split; [by apply digits_numeral|].
       apply Forall_cons. split; [by left | by apply digits_numeral]. }
  rewrite span_digits_app by (done || right; by eexists).
  change (46 =? ch ".") with true. cbv beta iota zeta.
  rewrite <- (app_nil_r b) at 1.
  rewrite span_digits_app by (done || by left).
  destruct (map _ a ++ map _ b) as [|d ds] eqn:Hds.
  - apply app_eq_nil in Hds as [Ha0 Hb0].
    destruct a, b; done.
  - cbn [take_exponent]. by rewrite length_map.
Qed.
End Digits.

(** [parse_number] on a printed number whose digits and point remain when
    the signs are removed. *)
Lemma parse_number_printed `{Runtime} (text kept : pystr) :
  Forall printable text ->
  replace_char 37 []
    (replace_char 45 [] (replace_char 43 [] (replace_char 44 [] text)))
    = kept ->
  Forall (fun c => c = 46 \/ 48 <= c <= 57)%N kept ->
  kept ≠ [] ->
  parse_number text = parse_strtod kept.
Proof.
  intros Htext Hkept Hnum Hne.
  assert (text ≠ []) as Htext_ne by (intros ->; by apply Hne).
  unfold parse_number, clean_text, pystr_eqb.
  change (ch ",") with 44%N. change (ch "+") with 43%N.
  change (ch "-") with 45%N. change (ch "%") with 37%N.
  rewrite (bool_decide_eq_false_2 (text = [])) by done. cbn [negb].
  rewrite strip_printable by done.
  rewrite (replace_char_id 10), (replace_char_id 9).
  2, 3: apply not_printable_out; [unfold printable; lia | done].
  rewrite (bool_decide_eq_false_2 (replace_char 44 [] text = [])).
  2: { intros Hnil. rewrite Hnil in Hkept. by apply Hne. }
  rewrite (bool_decide_eq_false_2 (replace_char 44 [] text = py "N/A")).
  2: { intros Hna. rewrite Hna in Hkept.
       assert (78%N ∈ kept) as Hin.
       { rewrite <- Hkept. apply (bool_decide_unpack _). vm_compute. exact I. }
       apply (proj1 (Forall_forall _ _) Hnum) in Hin. lia. }
  cbn [orb]. rewrite Hkept. by apply py_float_numeral.
Qed.

(** X20.  On a text made of digits, commas, signs and percent signs, with
    at most one point, [parse_number] returns the number that the digits
    spell, whatever the place of the other characters: a comma, a sign or a
    percent sign is dropped wherever it stands, also between two digits, and
    the result has no sign. *)
Theorem parse_number_reads_digits `{Runtime} (whole frac : pystr) :
  digits_and_signs whole ->
  digits_and_signs frac ->
  (digits_of whole ≠ [] ->
   parse_number whole = Some (Fdec false (digits_value (digits_of whole)) 0))
  /\ (digits_of whole ++ digits_of frac ≠ [] ->
      parse_number (whole ++ py "." ++ frac)
        = Some (Fdec false
                  (digits_value (digits_of whole ++ digits_of frac))
                  (- Z.of_nat (length (digits_of frac))))).
Proof.
  intros Hwhole Hfrac. unfold digits_of. split; intros Hne.
  - rewrite (parse_number_printed whole (List.filter is_ascii_digit whole)).
    + apply parse_strtod_whole; [apply filter_digits|].
      intros Hnil. by rewrite Hnil in Hne.
    + by apply digits_and_signs_printable.
    + by apply signs_removed.
    + apply digits_numeral, filter_digits.
    + intros Hnil. by rewrite Hnil in Hne.
  - change (py "." ++ frac) with (46%N :: frac).
    rewrite (parse_number_printed (whole ++ 46%N :: frac)
               (List.filter is_ascii_digit whole
                  ++ 46%N :: List.filter is_ascii_digit frac)).
    + rewrite parse_strtod_point; try apply filter_digits.
      * by rewrite length_map.
      * intros Hnil. apply app_eq_nil in Hnil as [Ha Hb].
        by rewrite Ha, Hb in Hne.
    + apply Forall_app. split; [by apply digits_and_signs_printable|].
      apply Forall_cons. split; [unfold printable; lia|].
      by apply digits_and_signs_printable.
    + rewrite !replace_char_app, point_kept, !signs_removed by done. done.
    + apply Forall_app. split; [apply digits_numeral, filter_digits|].
      apply Forall_cons. split; [by left|].
      apply digits_numeral, filter_digits.
    + by destruct (List.filter is_ascii_digit whole).
Qed.

Lemma parse_number_reads_digits_witness :
  parse_number (H := reference_runtime) (py "+1,2-34" ++ py "." ++ py "5%")
    = Some (Fdec false
              (digits_value (digits_of (py "+1,2-34") ++ digits_of (py "5%")))
              (- Z.of_nat (length (digits_of (py "5%"))))).
Proof.
  apply (parse_number_reads_digits (H := reference_runtime)
           (py "+1,2-34") (py "5%")).
  - each_element; first [ left; vm_compute; reflexivity
                        | right; apply (bool_decide_unpack _); vm_compute;
                          exact I ].
  - each_element; first [ left; vm_compute; reflexivity
                        | right; apply (bool_decide_unpack _); vm_compute;
                          exact I ].
  - vm_compute. discriminate.
Defined.

(** ** The code of a listing row *)

Section CodeOfLink.
Local Open Scope nat_scope.

Lemma contains_app_r (sub pre s : pystr) :
  contains sub s = true -> contains sub (pre ++ s) = true.
Proof.
  intros Hs. induction pre as [|x pre IH]; [done|].
  cbn [app contains]. rewrite IH. apply orb_true_r.
Qed.

(** Characters that do not begin the separator are read into the piece. *)
Lemma split_skip (c0 : N) (sep' pre s cur : pystr) :
  c0 ∉ pre ->
  split_go (c0 :: sep') cur 0 (pre ++ s)
    = split_go (c0 :: sep') (rev pre ++ cur) 0 s.
Proof.
  revert cur. induction pre as [|x pre IH]; intros cur Hpre; [done|].
  apply not_elem_of_cons in Hpre as [Hx Hpre].
  cbn [app split_go starts_with].
  destruct (N.eqb_spec c0 x) as [->|_]; [done|]. cbn [andb].
  rewrite IH by done. cbn [rev]. by rewrite <- app_assoc.
Qed.

Lemma split_pass (sep cur l s : pystr) :
  split_go sep cur (length l) (l ++ s) = split_go sep cur 0 s.
Proof. induction l as [|x l IH]; [done|]. exact IH. Qed.

(** At the separator the piece ends and the next one begins after it. *)
Lemma split_at_separator (c0 : N) (sep' cur s : pystr) :
  split_go (c0 :: sep') cur 0 ((c0 :: sep') ++ s)
    = rev cur :: split_go (c0 :: sep') [] 0 s.
Proof.
  cbn [app split_go].
  change (c0 :: sep' ++ s) with ((c0 :: sep') ++ s).
  rewrite starts_with_app. cbn [length Nat.pred].
  by rewrite split_pass.
Qed.

Lemma lookup_first {A} (x : A) (l : list A) : (x :: l) !! 0 = Some x.
Proof. done. Qed.

Lemma lookup_second {A} (x : A) (l : list A) : (x :: l) !! 1 = l !! 0.
Proof. done. Qed.

(** The first piece begins with what has been read. *)
Lemma split_first_extends (sep s cur : pystr) :
  exists tail, split_go sep cur 0 s !! 0 = Some (rev cur ++ tail).
Proof.
  revert cur. induction s as [|c s IH]; intros cur.
  - exists []. cbn. by rewrite app_nil_r.
  - cbn [split_go]. destruct (starts_with sep (c :: s)).
    + exists []. cbn. by rewrite app_nil_r.
    + destruct (IH (c :: cur)) as [tail ->]. exists (c :: tail).
      cbn [rev]. by rewrite <- app_assoc.
Qed.
End CodeOfLink.

(** X21.  For a link of the form that the listing page has, a path without
    the letter [c], then [code=], the code, and nothing more or an ampersand
    and further parameters, the code of the row is ['A'] followed by the
    text between [code=] and the ampersand. *)
Theorem listing_code_between (pre code rest : pystr) :
  ch "c" ∉ pre ->
  ch "c" ∉ code ->
  ch "&" ∉ code ->
  rest = [] \/ (exists r, rest = ch "&" :: r) ->
  listing_stock_code (Some (pre ++ py "code=" ++ code ++ rest))
    = py "A" ++ code.
Proof.
  intros Hpre Hcode Hamp Hrest. unfold listing_stock_code.
  set (sep := py "code=").
  assert (contains sep (pre ++ sep ++ code ++ rest) = true) as ->.
  { apply contains_app_r, contains_prefix, starts_with_app. }
  assert (pystr_eqb (pre ++ sep ++ code ++ rest) [] = false) as ->.
  { apply bool_decide_eq_false_2. by destruct pre. }
  cbn [negb andb]. f_equal. unfold py_split.
  change sep with (ch "c" :: py "ode=").
  rewrite split_skip by done.
  change ((ch "c" :: py "ode=") ++ code ++ rest)
    with ((ch "c" :: py "ode=") ++ (code ++ rest)).
  rewrite split_at_separator, lookup_second.
  rewrite split_skip by done. rewrite app_nil_r.
  change (py "&") with [ch "&"].
  destruct Hrest as [->|[r ->]].
  - cbn [split_go]. rewrite lookup_first. cbn [default]. unfold id.
    rewrite rev_involutive, split_no_separator by done.
    by rewrite lookup_first.
  - change (ch "&" :: r) with ([ch "&"] ++ r).
    rewrite split_skip by not_in.
    destruct (split_first_extends (ch "c" :: py "ode=") r
                (rev [ch "&"] ++ rev code)) as [tail ->].
    cbn [default]. rewrite rev_app_distr, !rev_involutive.
    cbn [app]. rewrite <- app_assoc. cbn [app].
    unfold id. by rewrite split_first_piece.
Qed.

Lemma listing_code_between_witness :
  listing_stock_code
    (Some (py "/item/main.naver?" ++ py "code=" ++ py "005930"
             ++ (ch "&" :: py "page=1")))
    = py "A" ++ py "005930".
Proof.
  apply (listing_code_between (py "/item/main.naver?") (py "005930")
           (ch "&" :: py "page=1")).
  - not_in.
  - not_in.
  - not_in.
  - right. by eexists.
Defined.
